(** * dtn7: the bundle processing pipeline, the bundle builder and two codecs

    A shallow embedding of the pipeline stages of package [core]
    ([transmit], [receive], [dispatching], [forward], [localDelivery],
    [checkAdministrativeRecord], [inspectStatusReport],
    [bundleContraindicated], [bundleDeletion]), of the bundle builder of
    package [bundle] ([Build], its setters and its block methods), of the
    codec of the primary block ([CodecEncodeSelf], [CodecDecodeSelf]) and of
    the contact header and the session termination message of package
    [tcpcl], together with the parts of the packages that these functions
    call.

    Conventions.
    - Go's [uint] values are [N]; the sums, in [Increment], in
      [UpdateBundleAge] and in the block counter of the builder, are taken
      without wrap-around.  An [int] is a [Z], and its conversion to [uint]
      wraps around at 64 bits.
    - A stage receives its [BundlePack] by value, but the pack holds a pointer
      to the bundle and a map of constraints, so every mutation made by a
      callee is visible to the caller.  A stage of the model therefore returns
      the pack next to the new [Core].
    - Calls into collaborators (store, convergence senders, routing, agents)
      and the stage-entry log lines are recorded, in program order, in
      [trace].
    - A failed type assertion or an index out of range is [Panic]. *)

From stdpp Require Import gmap strings list fin_maps.
From Stdlib Require Import NArith ZArith.
From Stdlib.Strings Require Import Byte.

(** ** Outcomes: a stage returns, panics, or the model runs out of fuel *)

Inductive Outcome (A : Type) : Type :=
| Done (a : A)
| Panic
| OutOfFuel.
Arguments Done {A} a.
Arguments Panic {A}.
Arguments OutOfFuel {A}.

#[global] Instance Outcome_ret : MRet Outcome := fun _ a => Done a.
#[global] Instance Outcome_bind : MBind Outcome := fun _ _ f m =>
  match m with
  | Done a => f a
  | Panic => Panic
  | OutOfFuel => OutOfFuel
  end.

Definition returns {A} (m : Outcome A) : Prop := ∃ a, m = Done a.

(** ** Package [bundle] *)

Module bundle.

(** [EndpointID{}], the zero value, is [EidZero]. *)
Inductive EndpointID : Type :=
| EidZero
| EidDtn (ssp : string)
| EidIpn (node service : N).

#[global] Instance EndpointID_eq_dec : EqDecision EndpointID.
Proof. solve_decision. Defined.

Definition EndpointID_enc (e : EndpointID) : unit + (string + N * N) :=
  match e with
  | EidZero => inl tt
  | EidDtn s => inr (inl s)
  | EidIpn n s => inr (inr (n, s))
  end.

Definition EndpointID_dec (x : unit + (string + N * N)) : EndpointID :=
  match x with
  | inl _ => EidZero
  | inr (inl s) => EidDtn s
  | inr (inr (n, s)) => EidIpn n s
  end.

#[global] Instance EndpointID_countable : Countable EndpointID.
Proof.
  apply (inj_countable' EndpointID_enc EndpointID_dec).
  by intros [].
Defined.

(** [dtn:none]; the test table of [NewDtnEndpoint] maps the URI "dtn:none" to
    the sentinel SSP. *)
Definition DtnNone : EndpointID := EidDtn "none".

Inductive CRCType : Type := CRCNo | CRC16 | CRC32.

#[global] Instance CRCType_eq_dec : EqDecision CRCType.
Proof. solve_decision. Defined.

(** Bundle and block processing control flags are bit fields. *)
Definition BundleControlFlags := N.
Definition BlockControlFlags := N.
Definition CanonicalBlockType := N.

(** Modelled from the spec: [Has], the flag test of a bit field; a flag is
    requested when the field and the flag's mask share a bit. *)
Definition Has (flags flag : N) : bool := negb (N.land flags flag =? 0)%N.

(** [CreationTimestamp] is a [[2]uint]: index 0 is the DTN time, index 1 the
    sequence number. *)
Definition CreationTimestamp : Type := N * N.

(** [PrimaryBlock], field by field. *)
Record PrimaryBlock : Type := mkPrimaryBlock {
  Version : N;
  BundleControlFlagsOf : BundleControlFlags;
  pbCRCType : CRCType;
  Destination : EndpointID;
  SourceNode : EndpointID;
  ReportTo : EndpointID;
  CreationTimestampOf : CreationTimestamp;
  Lifetime : N;
  FragmentOffset : N;
  TotalDataLength : N;
  pbCRC : N
}.

(** Modelled from the spec: the hop-count block, a pair (limit, count);
    [Increment] adds one to the count and the limit is exceeded when
    count > limit. *)
Record HopCount : Type := mkHopCount { Limit : N; Count : N }.

Definition Increment (hc : HopCount) : HopCount :=
  {| Limit := Limit hc; Count := (Count hc + 1)%N |}.

Definition IsExceeded (hc : HopCount) : bool := (Limit hc <? Count hc)%N.

(** The [Data interface{}] of a canonical block, by dynamic type. *)
Inductive BlockData : Type :=
| DataHopCount (hc : HopCount)
| DataUint (n : N)
| DataBytes (bs : list byte)
| DataEndpoint (e : EndpointID).

Record CanonicalBlock : Type := mkCanonicalBlock {
  BlockType : CanonicalBlockType;
  BlockNumber : N;
  BlockControlFlagsOf : BlockControlFlags;
  cbCRCType : CRCType;
  Data : BlockData;
  cbCRC : N
}.

(** The projection to the primary block is written [primaryBlock], since
    [PrimaryBlock] names the type. *)
Record Bundle : Type := mkBundle {
  primaryBlock : PrimaryBlock;
  CanonicalBlocks : list CanonicalBlock
}.

(** The flag masks and block type codes of the package that the pipeline
    uses.  The pipeline only ever names them, so they are parameters. *)
Class Constants : Type := {
  StatusRequestReception : BundleControlFlags;
  StatusRequestForward : BundleControlFlags;
  StatusRequestDelivery : BundleControlFlags;
  StatusRequestDeletion : BundleControlFlags;
  AdministrativeRecordPayload : BundleControlFlags;
  BndlCFBundleIsAFragment : BundleControlFlags;
  StatusReportBlock : BlockControlFlags;
  DeleteBundle : BlockControlFlags;
  RemoveBlock : BlockControlFlags;
  PayloadBlock : CanonicalBlockType;
  HopCountBlock : CanonicalBlockType;
  BundleAgeBlock : CanonicalBlockType
}.

(** [const DTNVersion uint = 7]. *)
Definition DTNVersion : N := 7%N.

(** [NewPrimaryBlock]: the given fields, defaults elsewhere. *)
Definition NewPrimaryBlock (bundleControlFlags : BundleControlFlags)
    (destination sourceNode : EndpointID)
    (creationTimestamp : CreationTimestamp) (lifetime : N) : PrimaryBlock :=
  {| Version := DTNVersion;
     BundleControlFlagsOf := bundleControlFlags;
     pbCRCType := CRCNo;
     Destination := destination;
     SourceNode := sourceNode;
     ReportTo := DtnNone;
     CreationTimestampOf := creationTimestamp;
     Lifetime := lifetime;
     FragmentOffset := 0%N;
     TotalDataLength := 0%N;
     pbCRC := 0%N |}.

Section WithConstants.
Context `{Constants}.

(** [HasFragmentation]. *)
Definition HasFragmentation (pb : PrimaryBlock) : bool :=
  Has (BundleControlFlagsOf pb) BndlCFBundleIsAFragment.

(** [HasCRC]. *)
Definition HasCRC (pb : PrimaryBlock) : bool :=
  bool_decide (pbCRCType pb ≠ CRCNo).

(** Modelled from the spec: [IsAdministrativeRecord], "a bundle whose
    primary-block flags mark it administrative". *)
Definition IsAdministrativeRecord (b : Bundle) : bool :=
  Has (BundleControlFlagsOf (primaryBlock b)) AdministrativeRecordPayload.

(** Modelled from the spec: [ExtensionBlock], the extension-block lookup.  It
    yields a pointer to the first canonical block of the given type, here the
    block's index together with its current value, or fails. *)
Fixpoint find_block (ty : CanonicalBlockType) (i : nat)
    (cbs : list CanonicalBlock) : option (nat * CanonicalBlock) :=
  match cbs with
  | [] => None
  | cb :: rest =>
      if (BlockType cb =? ty)%N then Some (i, cb)
      else find_block ty (S i) rest
  end.

Definition ExtensionBlock (b : Bundle) (ty : CanonicalBlockType)
    : option (nat * CanonicalBlock) :=
  find_block ty 0 (CanonicalBlocks b).

(** Assignment through the pointer obtained from [ExtensionBlock]:
    [cb.Data = d]. *)
Definition setData (cb : CanonicalBlock) (d : BlockData) : CanonicalBlock :=
  {| BlockType := BlockType cb; BlockNumber := BlockNumber cb;
     BlockControlFlagsOf := BlockControlFlagsOf cb; cbCRCType := cbCRCType cb;
     Data := d; cbCRC := cbCRC cb |}.

Definition storeBlock (b : Bundle) (i : nat) (cb : CanonicalBlock) : Bundle :=
  {| primaryBlock := primaryBlock b;
     CanonicalBlocks := <[i := cb]> (CanonicalBlocks b) |}.

Definition setCanonicalBlocks (b : Bundle) (cbs : list CanonicalBlock)
    : Bundle :=
  {| primaryBlock := primaryBlock b; CanonicalBlocks := cbs |}.

End WithConstants.

(** *** The bundle builder *)

(** The functions of the package that [Build] and the setters of the builder
    call: parameters of the builder.  A result [(_, Some msg)] is a non-nil
    error. *)
Class Package : Type := {
  NewEndpointID : string → EndpointID * option string;
  NewBundle : PrimaryBlock → list CanonicalBlock → Bundle * option string;
  SetCRCType : Bundle → CRCType → Bundle;
  CalculateCRC : Bundle → Bundle;
  dtnVersion : N
}.

(** [SetCRCType], [CalculateCRC] and a successful [NewBundle] hand on the
    source node and the report-to endpoint of the primary block. *)
Class KeepsEndpoints `{Package} : Prop := {
  NewBundle_endpoints p cbs b :
    NewBundle p cbs = (b, None) →
    SourceNode (primaryBlock b) = SourceNode p
    ∧ ReportTo (primaryBlock b) = ReportTo p;
  SetCRCType_endpoints b t :
    SourceNode (primaryBlock (SetCRCType b t)) = SourceNode (primaryBlock b)
    ∧ ReportTo (primaryBlock (SetCRCType b t)) = ReportTo (primaryBlock b);
  CalculateCRC_endpoints b :
    SourceNode (primaryBlock (CalculateCRC b)) = SourceNode (primaryBlock b)
    ∧ ReportTo (primaryBlock (CalculateCRC b)) = ReportTo (primaryBlock b)
}.

(** [BundleBuilder]; [err] is [None] for a nil error. *)
Record BundleBuilder : Type := mkBundleBuilder {
  err : option string;
  primary : PrimaryBlock;
  canonicals : list CanonicalBlock;
  canonicalCounter : N;
  crcType : CRCType
}.

(** The zero values [PrimaryBlock{}] and [Bundle{}]. *)
Definition zeroPrimaryBlock : PrimaryBlock :=
  {| Version := 0%N; BundleControlFlagsOf := 0%N; pbCRCType := CRCNo;
     Destination := EidZero; SourceNode := EidZero; ReportTo := EidZero;
     CreationTimestampOf := (0%N, 0%N); Lifetime := 0%N;
     FragmentOffset := 0%N; TotalDataLength := 0%N; pbCRC := 0%N |}.

Definition zeroBundle : Bundle :=
  {| primaryBlock := zeroPrimaryBlock; CanonicalBlocks := [] |}.

Definition setVersion (pb : PrimaryBlock) (v : N) : PrimaryBlock :=
  {| Version := v; BundleControlFlagsOf := BundleControlFlagsOf pb;
     pbCRCType := pbCRCType pb; Destination := Destination pb;
     SourceNode := SourceNode pb; ReportTo := ReportTo pb;
     CreationTimestampOf := CreationTimestampOf pb; Lifetime := Lifetime pb;
     FragmentOffset := FragmentOffset pb;
     TotalDataLength := TotalDataLength pb; pbCRC := pbCRC pb |}.

Definition setDestination (pb : PrimaryBlock) (e : EndpointID) : PrimaryBlock :=
  {| Version := Version pb; BundleControlFlagsOf := BundleControlFlagsOf pb;
     pbCRCType := pbCRCType pb; Destination := e;
     SourceNode := SourceNode pb; ReportTo := ReportTo pb;
     CreationTimestampOf := CreationTimestampOf pb; Lifetime := Lifetime pb;
     FragmentOffset := FragmentOffset pb;
     TotalDataLength := TotalDataLength pb; pbCRC := pbCRC pb |}.

Definition setSourceNode (pb : PrimaryBlock) (e : EndpointID) : PrimaryBlock :=
  {| Version := Version pb; BundleControlFlagsOf := BundleControlFlagsOf pb;
     pbCRCType := pbCRCType pb; Destination := Destination pb;
     SourceNode := e; ReportTo := ReportTo pb;
     CreationTimestampOf := CreationTimestampOf pb; Lifetime := Lifetime pb;
     FragmentOffset := FragmentOffset pb;
     TotalDataLength := TotalDataLength pb; pbCRC := pbCRC pb |}.

Definition setReportTo (pb : PrimaryBlock) (e : EndpointID) : PrimaryBlock :=
  {| Version := Version pb; BundleControlFlagsOf := BundleControlFlagsOf pb;
     pbCRCType := pbCRCType pb; Destination := Destination pb;
     SourceNode := SourceNode pb; ReportTo := e;
     CreationTimestampOf := CreationTimestampOf pb; Lifetime := Lifetime pb;
     FragmentOffset := FragmentOffset pb;
     TotalDataLength := TotalDataLength pb; pbCRC := pbCRC pb |}.

Definition setErr (bldr : BundleBuilder) (e : option string) : BundleBuilder :=
  {| err := e; primary := primary bldr; canonicals := canonicals bldr;
     canonicalCounter := canonicalCounter bldr; crcType := crcType bldr |}.

Definition setPrimary (bldr : BundleBuilder) (pb : PrimaryBlock)
    : BundleBuilder :=
  {| err := err bldr; primary := pb; canonicals := canonicals bldr;
     canonicalCounter := canonicalCounter bldr; crcType := crcType bldr |}.

(** The argument of the setters, an [interface{}], by dynamic type. *)
Inductive EndpointArg : Type :=
| ArgEndpointID (e : EndpointID)
| ArgString (s : string)
| ArgOther.

Section Builder.
Context `{Package}.

(** [Builder]. *)
Definition Builder : BundleBuilder :=
  {| err := None;
     primary := setVersion zeroPrimaryBlock dtnVersion;
     canonicals := [];
     canonicalCounter := 1%N;
     crcType := CRCNo |}.

(** [bldrParseEndpoint]. *)
Definition bldrParseEndpoint (eid : EndpointArg) : EndpointID * option string :=
  match eid with
  | ArgEndpointID e => (e, None)
  | ArgString s => NewEndpointID s
  | ArgOther => (EidZero, Some "neither an EndpointID nor a string")
  end.

(** [Destination], the setter. *)
Definition SetDestination (bldr : BundleBuilder) (eid : EndpointArg)
    : BundleBuilder :=
  match err bldr with
  | Some _ => bldr
  | None =>
      match bldrParseEndpoint eid with
      | (_, Some e) => setErr bldr (Some e)
      | (e, None) => setPrimary bldr (setDestination (primary bldr) e)
      end
  end.

(** [Source]. *)
Definition Source (bldr : BundleBuilder) (eid : EndpointArg) : BundleBuilder :=
  match err bldr with
  | Some _ => bldr
  | None =>
      match bldrParseEndpoint eid with
      | (_, Some e) => setErr bldr (Some e)
      | (e, None) => setPrimary bldr (setSourceNode (primary bldr) e)
      end
  end.

(** [ReportTo], the setter. *)
Definition SetReportTo (bldr : BundleBuilder) (eid : EndpointArg)
    : BundleBuilder :=
  match err bldr with
  | Some _ => bldr
  | None =>
      match bldrParseEndpoint eid with
      | (_, Some e) => setErr bldr (Some e)
      | (e, None) => setPrimary bldr (setReportTo (primary bldr) e)
      end
  end.

(** [creationTimestamp]: the creation timestamp becomes
    [NewCreationTimestamp(t, 0)]. *)
Definition creationTimestamp (bldr : BundleBuilder) (t : N) : BundleBuilder :=
  match err bldr with
  | Some _ => bldr
  | None =>
      let pb := primary bldr in
      setPrimary bldr
        {| Version := Version pb;
           BundleControlFlagsOf := BundleControlFlagsOf pb;
           pbCRCType := pbCRCType pb; Destination := Destination pb;
           SourceNode := SourceNode pb; ReportTo := ReportTo pb;
           CreationTimestampOf := (t, 0%N); Lifetime := Lifetime pb;
           FragmentOffset := FragmentOffset pb;
           TotalDataLength := TotalDataLength pb; pbCRC := pbCRC pb |}
  end.

(** [Build]: the builder as the call leaves it, and the named results
    [bndl] and [err]. *)
Definition Build (bldr : BundleBuilder)
    : BundleBuilder * Bundle * option string :=
  match err bldr with
  | Some e => (bldr, zeroBundle, Some e)
  | None =>
      let bldr :=
        if bool_decide (ReportTo (primary bldr) = EidZero)
        then setPrimary bldr
               (setReportTo (primary bldr) (SourceNode (primary bldr)))
        else bldr in
      if bool_decide (SourceNode (primary bldr) = EidZero)
         || bool_decide (Destination (primary bldr) = EidZero)
      then (bldr, zeroBundle, Some "Both Source and Destination must be set")
      else
        match NewBundle (primary bldr) (canonicals bldr) with
        | (bndl, None) =>
            (bldr, CalculateCRC (SetCRCType bndl (crcType bldr)), None)
        | (bndl, Some e) => (bldr, bndl, Some e)
        end
  end.

(** [Build] returns an error exactly when the source node or the destination
    of the builder is the zero [EndpointID]. *)
Definition errorIffUnset (bldr : BundleBuilder) : Prop :=
  (Build bldr).2 ≠ None
  ↔ SourceNode (primary bldr) = EidZero ∨ Destination (primary bldr) = EidZero.

End Builder.

(** *** Sample constants and a sample package *)

Module sample.

#[local] Open Scope N_scope.

(** An assignment of distinct bits and codes to the constants. *)
Definition constants : Constants :=
  {| StatusRequestReception := 0x0100;
     StatusRequestForward := 0x0400;
     StatusRequestDelivery := 0x0800;
     StatusRequestDeletion := 0x1000;
     AdministrativeRecordPayload := 0x0002;
     BndlCFBundleIsAFragment := 0x0001;
     StatusReportBlock := 0x04;
     DeleteBundle := 0x08;
     RemoveBlock := 0x02;
     PayloadBlock := 1;
     HopCountBlock := 9;
     BundleAgeBlock := 8 |}.

(** A parser of endpoint URIs that agrees with the table of
    [TestNewDtnEndpoint]. *)
Definition parseEndpoint (uri : string) : EndpointID * option string :=
  if String.prefix "dtn:" uri
  then
    let ssp := String.substring 4 (String.length uri - 4) uri in
    if bool_decide (ssp = EmptyString)
    then (EidZero, Some "empty scheme-specific part")
    else (EidDtn ssp, None)
  else (EidZero, Some "unknown scheme").

(** Modelled from the spec: the validity that [NewBundle] checks before it
    hands out a bundle.  In the data model [dtn:none] is "legal as a source
    (anonymous bundle) but never as a destination", and a bundle-age block is
    "present on every bundle whose primary block carries a zero creation
    time". *)
Definition valid (b : Bundle) : bool :=
  negb (bool_decide (Destination (primaryBlock b) = DtnNone))
  && (negb ((CreationTimestampOf (primaryBlock b)).1 =? 0)
      || existsb (λ cb, BlockType cb =? @BundleAgeBlock constants)
           (CanonicalBlocks b)).

Definition withCRCType (cb : CanonicalBlock) (t : CRCType) : CanonicalBlock :=
  {| BlockType := BlockType cb; BlockNumber := BlockNumber cb;
     BlockControlFlagsOf := BlockControlFlagsOf cb; cbCRCType := t;
     Data := Data cb; cbCRC := cbCRC cb |}.

(** Modelled from the spec: [NewBundle] puts the blocks together and returns
    an error for a bundle that is not valid; [SetCRCType] sets the CRC type
    of every block; no CRC value is computed. *)
Definition package : Package :=
  {| NewEndpointID := parseEndpoint;
     NewBundle := λ pb cbs,
       let b := {| primaryBlock := pb; CanonicalBlocks := cbs |} in
       (b, if valid b then None else Some "invalid bundle");
     SetCRCType := λ b t,
       let pb := primaryBlock b in
       {| primaryBlock :=
            {| Version := Version pb;
               BundleControlFlagsOf := BundleControlFlagsOf pb;
               pbCRCType := t; Destination := Destination pb;
               SourceNode := SourceNode pb; ReportTo := ReportTo pb;
               CreationTimestampOf := CreationTimestampOf pb;
               Lifetime := Lifetime pb; FragmentOffset := FragmentOffset pb;
               TotalDataLength := TotalDataLength pb; pbCRC := pbCRC pb |};
          CanonicalBlocks := (λ cb, withCRCType cb t) <$> CanonicalBlocks b |};
     CalculateCRC := λ b, b;
     dtnVersion := 7 |}.

(** A builder with source and destination and nothing else, and the same
    builder with a creation time. *)
Definition bareBuilder : BundleBuilder :=
  @SetDestination package
    (@Source package (@Builder package) (ArgString "dtn://src/"))
    (ArgEndpointID (EidDtn "//dest/")).

Definition timedBuilder : BundleBuilder :=
  creationTimestamp bareBuilder 50.

End sample.

End bundle.

(** ** The methods of the bundle builder *)

Module bldr.

(** An argument of a builder method, an [interface{}], by dynamic type;
    [DynOther] stands for a value of any further type. *)
Inductive Dyn : Type :=
| DynUint (n : N)
| DynInt (z : Z)
| DynString (s : string)
| DynBytes (bs : list byte)
| DynEndpointID (e : bundle.EndpointID)
| DynCanonicalBlockType (t : bundle.CanonicalBlockType)
| DynBlockControlFlags (f : bundle.BlockControlFlags)
| DynHopCount (hc : bundle.HopCount)
| DynOther.

(** What the methods take from the rest of the package and from the
    libraries [time] and [encoding/binary]: parameters of the builder.  A
    duration is its count of nanoseconds; [binary.Write] into an empty
    buffer yields the octets written or an error. *)
Class Environment : Type := {
  ParseDuration : string → Z * option string;
  binaryWrite : Dyn → string + list byte;
  NewHopCount : N → bundle.HopCount;
  NewCanonicalBlock :
    bundle.CanonicalBlockType → N → bundle.BlockControlFlags → Dyn →
    bundle.CanonicalBlock;
  PreviousNodeBlockType : bundle.CanonicalBlockType
}.

(** The conversion [uint(x)] of an [int] or [int64], both 64 bits wide. *)
Definition uint (x : Z) : N := Z.to_N (x mod 2 ^ 64).

Definition setCrcType (bldr : bundle.BundleBuilder) (t : bundle.CRCType)
    : bundle.BundleBuilder :=
  {| bundle.err := bundle.err bldr; bundle.primary := bundle.primary bldr;
     bundle.canonicals := bundle.canonicals bldr;
     bundle.canonicalCounter := bundle.canonicalCounter bldr;
     bundle.crcType := t |}.

Definition setLifetime (pb : bundle.PrimaryBlock) (us : N)
    : bundle.PrimaryBlock :=
  {| bundle.Version := bundle.Version pb;
     bundle.BundleControlFlagsOf := bundle.BundleControlFlagsOf pb;
     bundle.pbCRCType := bundle.pbCRCType pb;
     bundle.Destination := bundle.Destination pb;
     bundle.SourceNode := bundle.SourceNode pb;
     bundle.ReportTo := bundle.ReportTo pb;
     bundle.CreationTimestampOf := bundle.CreationTimestampOf pb;
     bundle.Lifetime := us;
     bundle.FragmentOffset := bundle.FragmentOffset pb;
     bundle.TotalDataLength := bundle.TotalDataLength pb;
     bundle.pbCRC := bundle.pbCRC pb |}.

Definition setBundleControlFlags (pb : bundle.PrimaryBlock)
    (bcf : bundle.BundleControlFlags) : bundle.PrimaryBlock :=
  {| bundle.Version := bundle.Version pb;
     bundle.BundleControlFlagsOf := bcf;
     bundle.pbCRCType := bundle.pbCRCType pb;
     bundle.Destination := bundle.Destination pb;
     bundle.SourceNode := bundle.SourceNode pb;
     bundle.ReportTo := bundle.ReportTo pb;
     bundle.CreationTimestampOf := bundle.CreationTimestampOf pb;
     bundle.Lifetime := bundle.Lifetime pb;
     bundle.FragmentOffset := bundle.FragmentOffset pb;
     bundle.TotalDataLength := bundle.TotalDataLength pb;
     bundle.pbCRC := bundle.pbCRC pb |}.

(** [append(bldr.canonicals, cb)] together with the new counter. *)
Definition addCanonical (bldr : bundle.BundleBuilder)
    (cb : bundle.CanonicalBlock) (counter : N) : bundle.BundleBuilder :=
  {| bundle.err := bundle.err bldr; bundle.primary := bundle.primary bldr;
     bundle.canonicals := bundle.canonicals bldr ++ [cb];
     bundle.canonicalCounter := counter;
     bundle.crcType := bundle.crcType bldr |}.

(** The [interface{}] handed to [bldrParseEndpoint]. *)
Definition endpointArg (a : Dyn) : bundle.EndpointArg :=
  match a with
  | DynEndpointID e => bundle.ArgEndpointID e
  | DynString s => bundle.ArgString s
  | _ => bundle.ArgOther
  end.

(** The two-valued assertions [x.(CanonicalBlockType)],
    [x.(BlockControlFlags)] and [x.(int)]: the zero value and [false] for
    another dynamic type. *)
Definition assertCanonicalBlockType (a : Dyn)
    : bundle.CanonicalBlockType * bool :=
  match a with
  | DynCanonicalBlockType t => (t, true)
  | _ => (0%N, false)
  end.

Definition assertBlockControlFlags (a : Dyn)
    : bundle.BlockControlFlags * bool :=
  match a with
  | DynBlockControlFlags f => (f, true)
  | _ => (0%N, false)
  end.

Definition assertInt (a : Dyn) : Z * bool :=
  match a with
  | DynInt z => (z, true)
  | _ => (0%Z, false)
  end.

(** [args[0]]: an index out of range panics. *)
Definition first (args : list Dyn) : Outcome Dyn :=
  match args with
  | a :: _ => Done a
  | [] => Panic
  end.

Section Methods.
Context `{bundle.Constants} `{bundle.Package} `{Environment}.

(** [Error]. *)
Definition Error (bldr : bundle.BundleBuilder) : option string :=
  bundle.err bldr.

(** [CRC]. *)
Definition CRC (bldr : bundle.BundleBuilder) (crcType : bundle.CRCType)
    : bundle.BundleBuilder :=
  match bundle.err bldr with
  | None => setCrcType bldr crcType
  | Some _ => bldr
  end.

(** [bldrParseLifetime]; the messages are kept without their formatted
    arguments.  [dur.Nanoseconds() / 1000] is a division of integers, which
    truncates. *)
Definition bldrParseLifetime (duration : Dyn) : N * option string :=
  match duration with
  | DynUint us => (us, None)
  | DynInt i =>
      if (i <? 0)%Z then (0%N, Some "Lifetime's duratoin <= 0")
      else (uint i, None)
  | DynString s =>
      match ParseDuration s with
      | (_, Some durErr) => (0%N, Some durErr)
      | (dur, None) =>
          if (dur <=? 0)%Z then (0%N, Some "Lifetime's duration <= 0")
          else (uint (dur ÷ 1000), None)
      end
  | _ => (0%N, Some "neither an uin nor a string for a Duration")
  end.

(** [Lifetime]. *)
Definition Lifetime (bldr : bundle.BundleBuilder) (duration : Dyn)
    : bundle.BundleBuilder :=
  match bundle.err bldr with
  | Some _ => bldr
  | None =>
      match bldrParseLifetime duration with
      | (_, Some usErr) => bundle.setErr bldr (Some usErr)
      | (us, None) =>
          bundle.setPrimary bldr (setLifetime (bundle.primary bldr) us)
      end
  end.

(** [BundleCtrlFlags]. *)
Definition BundleCtrlFlags (bldr : bundle.BundleBuilder)
    (bcf : bundle.BundleControlFlags) : bundle.BundleBuilder :=
  match bundle.err bldr with
  | None =>
      bundle.setPrimary bldr (setBundleControlFlags (bundle.primary bldr) bcf)
  | Some _ => bldr
  end.

(** The part of [Canonical] after the switch on [len(args)]; the counter is
    incremented without wrap-around. *)
Definition canonical_add (bldr : bundle.BundleBuilder)
    (blockType : bundle.CanonicalBlockType) (chk0 : bool) (data : Dyn)
    (blockCtrlFlags : bundle.BlockControlFlags) (chk1 : bool)
    : bundle.BundleBuilder :=
  if negb (chk0 && chk1)
  then bundle.setErr bldr
         (Some "Canonical received wrong parameter types")
  else
    let '(blockNumber, counter) :=
      if (blockType =? bundle.PayloadBlock)%N
      then (0%N, bundle.canonicalCounter bldr)
      else (bundle.canonicalCounter bldr,
            (bundle.canonicalCounter bldr + 1)%N) in
    addCanonical bldr
      (NewCanonicalBlock blockType blockNumber blockCtrlFlags data) counter.

(** [Canonical]. *)
Definition Canonical (bldr : bundle.BundleBuilder) (args : list Dyn)
    : bundle.BundleBuilder :=
  match bundle.err bldr with
  | Some _ => bldr
  | None =>
      match args with
      | [a0; a1] =>
          let '(blockType, chk0) := assertCanonicalBlockType a0 in
          canonical_add bldr blockType chk0 a1 0%N true
      | [a0; a1; a2] =>
          let '(blockType, chk0) := assertCanonicalBlockType a0 in
          let '(blockCtrlFlags, chk1) := assertBlockControlFlags a2 in
          canonical_add bldr blockType chk0 a1 blockCtrlFlags chk1
      | _ =>
          bundle.setErr bldr
            (Some "Canonical was called with neither two nor three parameters")
      end
  end.

(** [BundleAgeBlock]. *)
Definition BundleAgeBlock (bldr : bundle.BundleBuilder) (args : list Dyn)
    : Outcome bundle.BundleBuilder :=
  match bundle.err bldr with
  | Some _ => mret bldr
  | None =>
      a ← first args;
      let '(us, usErr) := bldrParseLifetime a in
      let bldr :=
        match usErr with
        | Some e => bundle.setErr bldr (Some e)
        | None => bldr
        end in
      mret (Canonical bldr
              ([DynCanonicalBlockType bundle.BundleAgeBlock; DynUint us]
               ++ drop 1 args))
  end.

(** [HopCountBlock]. *)
Definition HopCountBlock (bldr : bundle.BundleBuilder) (args : list Dyn)
    : Outcome bundle.BundleBuilder :=
  match bundle.err bldr with
  | Some _ => mret bldr
  | None =>
      a ← first args;
      let '(limit, chk) := assertInt a in
      let bldr :=
        if negb chk
        then bundle.setErr bldr
               (Some "HopCountBlock received wrong parameter type")
        else bldr in
      mret (Canonical bldr
              ([DynCanonicalBlockType bundle.HopCountBlock;
                DynHopCount (NewHopCount (uint limit))]
               ++ drop 1 args))
  end.

(** [PayloadBlock]; the method does not look at [bldr.err] before it
    writes. *)
Definition PayloadBlock (bldr : bundle.BundleBuilder) (args : list Dyn)
    : Outcome bundle.BundleBuilder :=
  a ← first args;
  match binaryWrite a with
  | inl e => mret (bundle.setErr bldr (Some e))
  | inr buf =>
      mret (Canonical bldr
              ([DynCanonicalBlockType bundle.PayloadBlock; DynBytes buf]
               ++ drop 1 args))
  end.

(** [PreviousNodeBlock]. *)
Definition PreviousNodeBlock (bldr : bundle.BundleBuilder) (args : list Dyn)
    : Outcome bundle.BundleBuilder :=
  match bundle.err bldr with
  | Some _ => mret bldr
  | None =>
      a ← first args;
      let '(eid, eidErr) := bundle.bldrParseEndpoint (endpointArg a) in
      let bldr :=
        match eidErr with
        | Some e => bundle.setErr bldr (Some e)
        | None => bldr
        end in
      mret (Canonical bldr
              ([DynCanonicalBlockType PreviousNodeBlockType;
                DynEndpointID eid]
               ++ drop 1 args))
  end.

(** One call of a chain [bldr.M1(...).M2(...)]. *)
Inductive Call : Type :=
| CallCRC (crcType : bundle.CRCType)
| CallDestination (eid : Dyn)
| CallSource (eid : Dyn)
| CallReportTo (eid : Dyn)
| CallCreationTimestamp (t : N)
| CallLifetime (duration : Dyn)
| CallBundleCtrlFlags (bcf : bundle.BundleControlFlags)
| CallCanonical (args : list Dyn)
| CallBundleAgeBlock (args : list Dyn)
| CallHopCountBlock (args : list Dyn)
| CallPayloadBlock (args : list Dyn)
| CallPreviousNodeBlock (args : list Dyn).

Definition call (bldr : bundle.BundleBuilder) (c : Call)
    : Outcome bundle.BundleBuilder :=
  match c with
  | CallCRC crcType => mret (CRC bldr crcType)
  | CallDestination eid => mret (bundle.SetDestination bldr (endpointArg eid))
  | CallSource eid => mret (bundle.Source bldr (endpointArg eid))
  | CallReportTo eid => mret (bundle.SetReportTo bldr (endpointArg eid))
  | CallCreationTimestamp t => mret (bundle.creationTimestamp bldr t)
  | CallLifetime duration => mret (Lifetime bldr duration)
  | CallBundleCtrlFlags bcf => mret (BundleCtrlFlags bldr bcf)
  | CallCanonical args => mret (Canonical bldr args)
  | CallBundleAgeBlock args => BundleAgeBlock bldr args
  | CallHopCountBlock args => HopCountBlock bldr args
  | CallPayloadBlock args => PayloadBlock bldr args
  | CallPreviousNodeBlock args => PreviousNodeBlock bldr args
  end.

Fixpoint chain (bldr : bundle.BundleBuilder) (cs : list Call)
    : Outcome bundle.BundleBuilder :=
  match cs with
  | [] => mret bldr
  | c :: cs => bldr ← call bldr c; chain bldr cs
  end.

Definition isPayloadBlock (c : Call) : bool :=
  match c with
  | CallPayloadBlock _ => true
  | _ => false
  end.

(** The block numbers of the blocks other than payload blocks, in the order
    of [canonicals]. *)
Definition extensionNumbers (bldr : bundle.BundleBuilder) : list N :=
  bundle.BlockNumber <$>
    filter (λ cb, bundle.BlockType cb ≠ bundle.PayloadBlock)
      (bundle.canonicals bldr).

(** The block numbers of the payload blocks. *)
Definition payloadNumbers (bldr : bundle.BundleBuilder) : list N :=
  bundle.BlockNumber <$>
    filter (λ cb, bundle.BlockType cb = bundle.PayloadBlock)
      (bundle.canonicals bldr).

(** Two builders that differ at most in their error. *)
Definition sameRecord (b b' : bundle.BundleBuilder) : Prop :=
  bundle.primary b' = bundle.primary b
  ∧ bundle.canonicals b' = bundle.canonicals b
  ∧ bundle.canonicalCounter b' = bundle.canonicalCounter b
  ∧ bundle.crcType b' = bundle.crcType b.

(** The numbering of the blocks: the blocks other than payload blocks carry
    the numbers 1, 2, ... in the order of [canonicals], the counter is the
    next number, and every payload block carries the number 0. *)
Definition numbered (bldr : bundle.BundleBuilder) : Prop :=
  extensionNumbers bldr
    = N.of_nat <$> seq 1 (length (extensionNumbers bldr))
  ∧ bundle.canonicalCounter bldr
    = N.of_nat (S (length (extensionNumbers bldr)))
  ∧ Forall (λ n, n = 0%N) (payloadNumbers bldr).

End Methods.

(** [NewCanonicalBlock] gives the block the type and the number it is
    handed. *)
Class KeepsNumbers `{Environment} : Prop :=
  NewCanonicalBlock_keeps ty n fl d :
    bundle.BlockType (NewCanonicalBlock ty n fl d) = ty
    ∧ bundle.BlockNumber (NewCanonicalBlock ty n fl d) = n.

(** *** A sample environment *)

Module sample.

(** A parser of durations that agrees with [time.ParseDuration] on the
    strings it knows. *)
Definition parseDuration (s : string) : Z * option string :=
  if bool_decide (s = "30m") then (1800000000000%Z, None)
  else if bool_decide (s = "1500ns") then (1500%Z, None)
  else if bool_decide (s = "500ns") then (500%Z, None)
  else if bool_decide (s = "0s") then (0%Z, None)
  else (0%Z, Some "time: invalid duration").

(** The data of a block, for the four kinds of data that the pipeline
    reads. *)
Definition blockData (d : Dyn) : bundle.BlockData :=
  match d with
  | DynHopCount hc => bundle.DataHopCount hc
  | DynUint n => bundle.DataUint n
  | DynBytes bs => bundle.DataBytes bs
  | DynEndpointID e => bundle.DataEndpoint e
  | _ => bundle.DataBytes []
  end.

(** [binary.Write] writes a slice of octets and refuses a value without a
    fixed size; a new hop count starts at zero. *)
Definition environment : Environment :=
  {| ParseDuration := parseDuration;
     binaryWrite := λ d,
       match d with
       | DynBytes bs => inr bs
       | _ => inl "binary.Write: invalid type"
       end;
     NewHopCount := λ limit, {| bundle.Limit := limit; bundle.Count := 0%N |};
     NewCanonicalBlock := λ ty n fl d,
       {| bundle.BlockType := ty; bundle.BlockNumber := n;
          bundle.BlockControlFlagsOf := fl; bundle.cbCRCType := bundle.CRCNo;
          bundle.Data := blockData d; bundle.cbCRC := 0%N |};
     PreviousNodeBlockType := 7%N |}.

(** A builder that holds the error of a call of [Source]. *)
Definition failedBuilder : bundle.BundleBuilder :=
  @bundle.Source bundle.sample.package (@bundle.Builder bundle.sample.package)
    (bundle.ArgString "uff:uff").

(** The chain of calls of the example in the comment on [BundleBuilder],
    with two more blocks. *)
Definition calls : list Call :=
  [CallSource (DynString "dtn://src/");
   CallDestination (DynString "dtn://dest/");
   CallLifetime (DynString "30m");
   CallHopCountBlock [DynInt 64%Z];
   CallPayloadBlock [DynBytes [x68; x69]];
   CallBundleAgeBlock [DynUint 0%N; DynBlockControlFlags 0%N];
   CallPreviousNodeBlock [DynString "dtn://prev/"]].

End sample.

End bldr.

(** ** Package [bpa]: the codec of the primary block *)

Module bpa.

(** The primary block as the codec reads and writes it: an endpoint with
    its scheme-specific part as an [interface{}], the control flags and the
    CRC type as the unsigned integers they are. *)

(** The values that the decoder of the codec library hands out in an
    [[]interface{}], and that an [interface{}] field holds: by dynamic
    type.  Go's [uint] and [uint64] are different dynamic types. *)
#[local] Unset Elimination Schemes.
Inductive Value : Type :=
| VNil
| VUint64 (n : N)
| VUint (n : N)
| VString (s : string)
| VBytes (bs : list byte)
| VArray (elems : list Value).
#[local] Set Elimination Schemes.

(** [EndpointID], with its [interface{}] field. *)
Record EndpointID : Type := mkEndpointID {
  SchemeName : N;
  SchemeSpecificPort : Value
}.

(** [PrimaryBlock]; [BundleControlFlags] and [CRCType] are unsigned integer
    types and [CreationTimestamp] is a [[2]uint]. *)
Record PrimaryBlock : Type := mkPrimaryBlock {
  Version : N;
  BundleControlFlags : N;
  CRCType : N;
  Destination : EndpointID;
  SourceNode : EndpointID;
  ReportTo : EndpointID;
  CreationTimestamp : N * N;
  Lifetime : N;
  FragmentOffset : N;
  TotalDataLength : N;
  CRC : N
}.

(** What the methods of the primary block take from the rest of the
    package: the flag test of the control flags, the fragment flag and the
    CRC type that stands for no CRC. *)
Class Package : Type := {
  Has : N → N → bool;
  BndlCFBundleIsAFragment : N;
  CRCNo : N
}.

(** The values that [CodecEncodeSelf] puts into its [[]interface{}], by
    static type of the field. *)
Inductive Field : Type :=
| FUint (n : N)
| FBundleControlFlags (f : N)
| FCRCType (t : N)
| FEndpointID (e : EndpointID)
| FCreationTimestamp (ts : N * N).

Section WithPackage.
Context `{Package}.

(** [HasFragmentation]. *)
Definition HasFragmentation (pb : PrimaryBlock) : bool :=
  Has (BundleControlFlags pb) BndlCFBundleIsAFragment.

(** [HasCRC]. *)
Definition HasCRC (pb : PrimaryBlock) : bool :=
  bool_decide (CRCType pb ≠ CRCNo).

(** [CodecEncodeSelf]: the array handed to [enc.MustEncode]. *)
Definition CodecEncodeSelf (pb : PrimaryBlock) : list Field :=
  let blockArr :=
    [FUint (Version pb);
     FBundleControlFlags (BundleControlFlags pb);
     FCRCType (CRCType pb);
     FEndpointID (Destination pb);
     FEndpointID (SourceNode pb);
     FEndpointID (ReportTo pb);
     FCreationTimestamp (CreationTimestamp pb);
     FUint (Lifetime pb)] in
  let blockArr :=
    if HasFragmentation pb
    then blockArr ++ [FUint (FragmentOffset pb); FUint (TotalDataLength pb)]
    else blockArr in
  let blockArr :=
    if HasCRC pb then blockArr ++ [FUint (CRC pb)] else blockArr in
  blockArr.

End WithPackage.

(** [x.([]interface{})] and [x.(uint64)] of the element at an index: a
    failed assertion and an index out of range panic. *)
Definition arrayAt (arr : list Value) (i : nat) : Outcome (list Value) :=
  match arr !! i with
  | Some (VArray elems) => Done elems
  | _ => Panic
  end.

Definition uint64At (arr : list Value) (i : nat) : Outcome N :=
  match arr !! i with
  | Some (VUint64 n) => Done n
  | _ => Panic
  end.

(** The body of the loop of [decodeEndpoints] for one endpoint.  Of a nil
    value [reflect.TypeOf] is nil, and the call of [Kind] on it panics. *)
Definition decodeEndpoint (blockArr : list Value) (pos : nat)
    : Outcome EndpointID :=
  arr ← arrayAt blockArr pos;
  schemeName ← uint64At arr 0;
  match arr !! 1 with
  | None => Panic
  | Some VNil => Panic
  | Some (VUint64 n) =>
      mret {| SchemeName := schemeName; SchemeSpecificPort := VUint n |}
  | Some ssp =>
      mret {| SchemeName := schemeName; SchemeSpecificPort := ssp |}
  end.

Definition setEndpoints (pb : PrimaryBlock) (dst src rep : EndpointID)
    : PrimaryBlock :=
  {| Version := Version pb; BundleControlFlags := BundleControlFlags pb;
     CRCType := CRCType pb; Destination := dst; SourceNode := src;
     ReportTo := rep; CreationTimestamp := CreationTimestamp pb;
     Lifetime := Lifetime pb; FragmentOffset := FragmentOffset pb;
     TotalDataLength := TotalDataLength pb; CRC := CRC pb |}.

(** [decodeEndpoints]. *)
Definition decodeEndpoints (pb : PrimaryBlock) (blockArr : list Value)
    : Outcome PrimaryBlock :=
  dst ← decodeEndpoint blockArr 3;
  src ← decodeEndpoint blockArr 4;
  rep ← decodeEndpoint blockArr 5;
  mret (setEndpoints pb dst src rep).

Definition setCreationTimestamp (pb : PrimaryBlock) (ts : N * N)
    : PrimaryBlock :=
  {| Version := Version pb; BundleControlFlags := BundleControlFlags pb;
     CRCType := CRCType pb; Destination := Destination pb;
     SourceNode := SourceNode pb; ReportTo := ReportTo pb;
     CreationTimestamp := ts;
     Lifetime := Lifetime pb; FragmentOffset := FragmentOffset pb;
     TotalDataLength := TotalDataLength pb; CRC := CRC pb |}.

(** [decodeCreationTimestamp]. *)
Definition decodeCreationTimestamp (pb : PrimaryBlock) (blockArr : list Value)
    : Outcome PrimaryBlock :=
  arr ← arrayAt blockArr 6;
  t0 ← uint64At arr 0;
  arr ← arrayAt blockArr 6;
  t1 ← uint64At arr 1;
  mret (setCreationTimestamp pb (t0, t1)).

Definition setScalars (pb : PrimaryBlock) (version flags crcType lifetime : N)
    : PrimaryBlock :=
  {| Version := version; BundleControlFlags := flags;
     CRCType := crcType; Destination := Destination pb;
     SourceNode := SourceNode pb; ReportTo := ReportTo pb;
     CreationTimestamp := CreationTimestamp pb;
     Lifetime := lifetime; FragmentOffset := FragmentOffset pb;
     TotalDataLength := TotalDataLength pb; CRC := CRC pb |}.

Definition setFragment (pb : PrimaryBlock) (offset total : N) : PrimaryBlock :=
  {| Version := Version pb; BundleControlFlags := BundleControlFlags pb;
     CRCType := CRCType pb; Destination := Destination pb;
     SourceNode := SourceNode pb; ReportTo := ReportTo pb;
     CreationTimestamp := CreationTimestamp pb;
     Lifetime := Lifetime pb; FragmentOffset := offset;
     TotalDataLength := total; CRC := CRC pb |}.

Definition setCRC (pb : PrimaryBlock) (crc : N) : PrimaryBlock :=
  {| Version := Version pb; BundleControlFlags := BundleControlFlags pb;
     CRCType := CRCType pb; Destination := Destination pb;
     SourceNode := SourceNode pb; ReportTo := ReportTo pb;
     CreationTimestamp := CreationTimestamp pb;
     Lifetime := Lifetime pb; FragmentOffset := FragmentOffset pb;
     TotalDataLength := TotalDataLength pb; CRC := crc |}.

(** [CodecDecodeSelf], from the array that [dec.MustDecode] has filled. *)
Definition CodecDecodeSelf (pb : PrimaryBlock) (blockArr : list Value)
    : Outcome PrimaryBlock :=
  if (length blockArr <? 8) || (11 <? length blockArr) then Panic
  else
    pb ← decodeEndpoints pb blockArr;
    pb ← decodeCreationTimestamp pb blockArr;
    version ← uint64At blockArr 0;
    flags ← uint64At blockArr 1;
    crcType ← uint64At blockArr 2;
    lifetime ← uint64At blockArr 7;
    let pb := setScalars pb version flags crcType lifetime in
    match length blockArr with
    | 9 =>
        crc ← uint64At blockArr 8;
        mret (setCRC pb crc)
    | 10 =>
        offset ← uint64At blockArr 8;
        total ← uint64At blockArr 9;
        mret (setFragment pb offset total)
    | 11 =>
        offset ← uint64At blockArr 8;
        total ← uint64At blockArr 9;
        crc ← uint64At blockArr 10;
        mret (setCRC (setFragment pb offset total) crc)
    | _ => mret pb
    end.

(** What the decoder of the codec library hands out for a value that the
    encoder was given: "the codec library uses uint64 internally", so an
    unsigned integer of either type comes back as a [uint64], also inside an
    array; a struct or fixed-size array of the package comes back as the
    array of its fields. *)
Fixpoint wireValue (v : Value) : Value :=
  match v with
  | VUint n => VUint64 n
  | VArray elems => VArray (wireValue <$> elems)
  | v => v
  end.

Definition wire (f : Field) : Value :=
  match f with
  | FUint n | FBundleControlFlags n | FCRCType n => VUint64 n
  | FEndpointID e =>
      VArray [VUint64 (SchemeName e); wireValue (SchemeSpecificPort e)]
  | FCreationTimestamp ts => VArray [VUint64 ts.1; VUint64 ts.2]
  end.

(** An endpoint after the round trip: [decodeEndpoints] turns a [uint64]
    scheme-specific part into a [uint], and leaves every other value as the
    decoder handed it out. *)
Definition asUint (v : Value) : Value :=
  match v with
  | VUint64 n => VUint n
  | v => v
  end.

Definition received (e : EndpointID) : EndpointID :=
  {| SchemeName := SchemeName e;
     SchemeSpecificPort := asUint (wireValue (SchemeSpecificPort e)) |}.

(** An endpoint whose scheme-specific part is an unsigned integer, a string
    or a byte string. *)
Definition plain (e : EndpointID) : bool :=
  match SchemeSpecificPort e with
  | VUint _ | VString _ | VBytes _ => true
  | _ => false
  end.

(** The shape of an array that [CodecDecodeSelf] reads to its end. *)
Definition isUint64 (v : option Value) : bool :=
  match v with
  | Some (VUint64 _) => true
  | _ => false
  end.

Definition isEndpoint (v : option Value) : bool :=
  match v with
  | Some (VArray arr) =>
      isUint64 (arr !! 0%nat)
      && match arr !! 1%nat with
         | None | Some VNil => false
         | Some _ => true
         end
  | _ => false
  end.

Definition isTimestamp (v : option Value) : bool :=
  match v with
  | Some (VArray arr) => isUint64 (arr !! 0%nat) && isUint64 (arr !! 1%nat)
  | _ => false
  end.

Definition wellShaped (blockArr : list Value) : bool :=
  (8 <=? length blockArr) && (length blockArr <=? 11)
  && isUint64 (blockArr !! 0%nat) && isUint64 (blockArr !! 1%nat)
  && isUint64 (blockArr !! 2%nat)
  && isEndpoint (blockArr !! 3%nat) && isEndpoint (blockArr !! 4%nat)
  && isEndpoint (blockArr !! 5%nat)
  && isTimestamp (blockArr !! 6%nat) && isUint64 (blockArr !! 7%nat)
  && forallb (λ v, isUint64 (Some v)) (drop 8 blockArr).

Section RoundTrip.
Context `{Package}.

(** The receiver [pb0] after it has decoded what [pb] encodes. *)
Definition decoded (pb pb0 : PrimaryBlock) : PrimaryBlock :=
  {| Version := Version pb;
     BundleControlFlags := BundleControlFlags pb;
     CRCType := CRCType pb;
     Destination := received (Destination pb);
     SourceNode := received (SourceNode pb);
     ReportTo := received (ReportTo pb);
     CreationTimestamp := CreationTimestamp pb;
     Lifetime := Lifetime pb;
     FragmentOffset :=
       if HasFragmentation pb then FragmentOffset pb else FragmentOffset pb0;
     TotalDataLength :=
       if HasFragmentation pb then TotalDataLength pb
       else TotalDataLength pb0;
     CRC := if HasCRC pb then CRC pb else CRC pb0 |}.

End RoundTrip.

(** *** A sample block *)

Module sample.

(** The fragment flag is the lowest bit, and the CRC type 0 stands for no
    CRC. *)
Definition package : Package :=
  {| Has := bundle.Has; BndlCFBundleIsAFragment := 1%N; CRCNo := 0%N |}.

(** The primary block of a fragment with a CRC, from [dtn://src/] to
    [dtn://dest/], that reports to [dtn:none]. *)
Definition block : PrimaryBlock :=
  {| Version := 7%N; BundleControlFlags := 1%N; CRCType := 1%N;
     Destination :=
       {| SchemeName := 1%N; SchemeSpecificPort := VString "//dest/" |};
     SourceNode :=
       {| SchemeName := 1%N; SchemeSpecificPort := VString "//src/" |};
     ReportTo := {| SchemeName := 1%N; SchemeSpecificPort := VUint 0%N |};
     CreationTimestamp := (50%N, 0%N); Lifetime := 1000%N;
     FragmentOffset := 10%N; TotalDataLength := 40%N; CRC := 4660%N |}.

(** The zero value [PrimaryBlock{}]. *)
Definition zero : PrimaryBlock :=
  {| Version := 0%N; BundleControlFlags := 0%N; CRCType := 0%N;
     Destination := {| SchemeName := 0%N; SchemeSpecificPort := VNil |};
     SourceNode := {| SchemeName := 0%N; SchemeSpecificPort := VNil |};
     ReportTo := {| SchemeName := 0%N; SchemeSpecificPort := VNil |};
     CreationTimestamp := (0%N, 0%N); Lifetime := 0%N;
     FragmentOffset := 0%N; TotalDataLength := 0%N; CRC := 0%N |}.

End sample.

End bpa.

(** ** Package [tcpcl] *)

Module tcpcl.

#[global] Instance byte_eq_dec : EqDecision byte := Byte.byte_eq_dec.

(** The errors of the package: an error handed on from the reader or the
    writer, and the errors that the package builds with [fmt.Errorf]. *)
Inductive Error : Type :=
| ErrIO (msg : string)
| ErrEOF
| ErrWrote (n len : nat)
| ErrRead (n len : nat)
| ErrMagic (magic : list byte)
| ErrVersion (version : byte)
| ErrMessageHeader (header : byte).

(** [io.Writer]: [Write] yields the number of octets written and an
    error. *)
Class Writer (W : Type) : Type :=
  Write : W → list byte → W * nat * option Error.

(** [io.Reader]: [Read], asked for [len] octets, yields the octets it has
    put into the slice, whose number is [n], and an error. *)
Class Reader (R : Type) : Type :=
  Read : R → nat → R * list byte * option Error.

(** A [bytes.Buffer]: [Write] appends all octets; [Read] takes octets from
    the front and reports [io.EOF] when there is none. *)
Definition Buffer : Type := list byte.

#[global] Instance Buffer_Writer : Writer Buffer := λ buf data,
  (buf ++ data, length data, None).

#[global] Instance Buffer_Reader : Reader Buffer := λ buf len,
  match buf, len with
  | [], S _ => ([], [], Some ErrEOF)
  | _, _ => (drop len buf, take len buf, None)
  end.

(** [ContactFlags] is a [uint8]. *)
Definition ContactFlags : Type := byte.

Definition ContactCanTls : ContactFlags := x01.

(** [cf & flag != 0]. *)
Definition hasBit (cf flag : byte) : bool :=
  negb (N.land (Byte.to_N cf) (Byte.to_N flag) =? 0)%N.

(** [strings.Join(flags, ",")]. *)
Fixpoint Join (elems : list string) (sep : string) : string :=
  match elems with
  | [] => EmptyString
  | [s] => s
  | s :: rest => String.append s (String.append sep (Join rest sep))
  end.

(** [ContactFlags.String]. *)
Definition ContactFlags_String (cf : ContactFlags) : string :=
  let flags := [] in
  let flags :=
    if hasBit cf ContactCanTls then flags ++ ["CAN_TLS"] else flags in
  Join flags ",".

Record ContactHeader : Type := mkContactHeader { Flags : ContactFlags }.

(** [NewContactHeader]. *)
Definition NewContactHeader (flags : ContactFlags) : ContactHeader :=
  {| Flags := flags |}.

(** [[]byte("dtn!")]. *)
Definition magic : list byte := [x64; x74; x6e; x21].

(** [data[i]] for an index within the slice. *)
Definition octet (data : list byte) (i : nat) : byte := default x00 (data !! i).

(** [ContactHeader.Marshal]. *)
Definition Marshal {W} `{Writer W} (ch : ContactHeader) (w : W)
    : W * option Error :=
  let data := [x64; x74; x6e; x21; x04; Flags ch] in
  let '(w, n, err) := Write w data in
  match err with
  | Some e => (w, Some e)
  | None =>
      if bool_decide (n ≠ length data)
      then (w, Some (ErrWrote n (length data)))
      else (w, None)
  end.

(** [ContactHeader.Unmarshal]: the reader and the header as the call leaves
    them, and the error.  The slice [data] is made of six zero octets, of
    which [Read] overwrites the first [n]. *)
Definition Unmarshal {R} `{Reader R} (ch : ContactHeader) (r : R)
    : R * ContactHeader * option Error :=
  let '(r, chunk, err) := Read r 6 in
  let n := length chunk in
  let data := take 6 (chunk ++ replicate 6 x00) in
  match err with
  | Some e => (r, ch, Some e)
  | None =>
      if bool_decide (n ≠ 6) then (r, ch, Some (ErrRead n 6))
      else if bool_decide (take 4 data ≠ magic)
      then (r, ch, Some (ErrMagic (take 4 data)))
      else
        if bool_decide (octet data 4 ≠ x04)
        then (r, ch, Some (ErrVersion (octet data 4)))
        else (r, {| Flags := octet data 5 |}, None)
  end.

(** [SessionTerminationFlags] and [SessionTerminationCode] are [uint8]s. *)
Definition SessionTerminationFlags : Type := byte.
Definition SessionTerminationCode : Type := byte.

Definition TerminationReply : SessionTerminationFlags := x01.

Definition TerminationUnknown : SessionTerminationCode := x00.
Definition TerminationIdleTimeout : SessionTerminationCode := x01.
Definition TerminationVersionMismatch : SessionTerminationCode := x02.
Definition TerminationBusy : SessionTerminationCode := x03.
Definition TerminationContactFailure : SessionTerminationCode := x04.
Definition TerminationResourceExhaustion : SessionTerminationCode := x05.

(** [SessionTerminationFlags.String]. *)
Definition SessionTerminationFlags_String (stf : SessionTerminationFlags)
    : string :=
  let flags := [] in
  let flags :=
    if hasBit stf TerminationReply then flags ++ ["REPLY"] else flags in
  Join flags ",".

(** [SessionTerminationCode.String]. *)
Definition SessionTerminationCode_String (stc : SessionTerminationCode)
    : string :=
  if bool_decide (stc = TerminationUnknown) then "Unknown"
  else if bool_decide (stc = TerminationIdleTimeout) then "Idle timeout"
  else if bool_decide (stc = TerminationVersionMismatch)
  then "Version mismatch"
  else if bool_decide (stc = TerminationBusy) then "Busy"
  else if bool_decide (stc = TerminationContactFailure) then "Contact Failure"
  else if bool_decide (stc = TerminationResourceExhaustion)
  then "Resource Exhaustion"
  else "INVALID".

Definition SESS_TERM : byte := x05.

Record SessionTerminationMessage : Type := mkSessionTerminationMessage {
  stmFlags : SessionTerminationFlags;
  ReasonCode : SessionTerminationCode
}.

(** [NewSessionTerminationMessage]. *)
Definition NewSessionTerminationMessage (flags : SessionTerminationFlags)
    (reason : SessionTerminationCode) : SessionTerminationMessage :=
  {| stmFlags := flags; ReasonCode := reason |}.

(** [binary.Write(buf, binary.BigEndian, field)] for a field of one octet
    and a [bytes.Buffer]: the octet is appended. *)
Definition binary_Write (buf : Buffer) (field : byte) : Buffer * option Error :=
  let '(buf, _, err) := Write buf [field] in (buf, err).

(** [binary.Read(buf, binary.BigEndian, &field)] for a field of one octet
    and a [bytes.Reader]: the next octet, or [io.EOF] when there is none. *)
Definition binary_Read (buf : Buffer) : Buffer * (Error + byte) :=
  match buf with
  | [] => ([], inl ErrEOF)
  | field :: rest => (rest, inr field)
  end.

(** The [for] loop of [MarshalBinary] over the fields. *)
Fixpoint marshal_fields (fields : list byte) (buf : Buffer)
    : Buffer * option Error :=
  match fields with
  | [] => (buf, None)
  | field :: rest =>
      match binary_Write buf field with
      | (buf, Some binErr) => (buf, Some binErr)
      | (buf, None) => marshal_fields rest buf
      end
  end.

(** [MarshalBinary]: on an error the named result [data] is still nil. *)
Definition MarshalBinary (stm : SessionTerminationMessage)
    : list byte * option Error :=
  let fields := [SESS_TERM; stmFlags stm; ReasonCode stm] in
  match marshal_fields fields [] with
  | (_, Some err) => ([], Some err)
  | (buf, None) => (buf, None)
  end.

(** The [for] loop of [UnmarshalBinary] over the pointers to the fields;
    a field is named by the assignment through its pointer. *)
Fixpoint unmarshal_fields
    (fields :
       list (SessionTerminationMessage → byte → SessionTerminationMessage))
    (buf : Buffer) (stm : SessionTerminationMessage)
    : SessionTerminationMessage * option Error :=
  match fields with
  | [] => (stm, None)
  | field :: rest =>
      match binary_Read buf with
      | (_, inl err) => (stm, Some err)
      | (buf, inr v) => unmarshal_fields rest buf (field stm v)
      end
  end.

Definition setFlags (stm : SessionTerminationMessage) (v : byte)
    : SessionTerminationMessage :=
  {| stmFlags := v; ReasonCode := ReasonCode stm |}.

Definition setReasonCode (stm : SessionTerminationMessage) (v : byte)
    : SessionTerminationMessage :=
  {| stmFlags := stmFlags stm; ReasonCode := v |}.

(** [UnmarshalBinary]: the message as the call leaves it, and the error. *)
Definition UnmarshalBinary (stm : SessionTerminationMessage) (data : list byte)
    : SessionTerminationMessage * option Error :=
  let buf : Buffer := data in
  match binary_Read buf with
  | (_, inl err) => (stm, Some err)
  | (buf, inr messageHeader) =>
      if bool_decide (messageHeader ≠ SESS_TERM)
      then (stm, Some (ErrMessageHeader messageHeader))
      else unmarshal_fields [setFlags; setReasonCode] buf stm
  end.

End tcpcl.

(** ** Package [core] *)

Module core.

Inductive Constraint : Type :=
| DispatchPending
| ForwardPending
| ReassemblyPending
| Contraindicated
| LocalEndpoint.

#[global] Instance Constraint_eq_dec : EqDecision Constraint.
Proof. solve_decision. Defined.

Definition Constraint_enc (k : Constraint) : nat :=
  match k with
  | DispatchPending => 0
  | ForwardPending => 1
  | ReassemblyPending => 2
  | Contraindicated => 3
  | LocalEndpoint => 4
  end.

Definition Constraint_dec (n : nat) : Constraint :=
  match n with
  | 0 => DispatchPending
  | 1 => ForwardPending
  | 2 => ReassemblyPending
  | 3 => Contraindicated
  | _ => LocalEndpoint
  end.

#[global] Instance Constraint_countable : Countable Constraint.
Proof.
  apply (inj_countable' Constraint_enc Constraint_dec).
  by intros [].
Defined.

(** Modelled from the spec: the BundlePack, "the bundle itself; a constraint
    set; a receive time stamped at ingress". *)
Record BundlePack : Type := mkBundlePack {
  Bundle : bundle.Bundle;
  Timestamp : N;
  Constraints : gset Constraint
}.

Definition AddConstraint (k : Constraint) (bp : BundlePack) : BundlePack :=
  {| Bundle := Bundle bp; Timestamp := Timestamp bp;
     Constraints := Constraints bp ∪ {[k]} |}.

Definition RemoveConstraint (k : Constraint) (bp : BundlePack) : BundlePack :=
  {| Bundle := Bundle bp; Timestamp := Timestamp bp;
     Constraints := Constraints bp ∖ {[k]} |}.

Definition PurgeConstraints (bp : BundlePack) : BundlePack :=
  {| Bundle := Bundle bp; Timestamp := Timestamp bp; Constraints := ∅ |}.

Definition setBundle (bp : BundlePack) (b : bundle.Bundle) : BundlePack :=
  {| Bundle := b; Timestamp := Timestamp bp; Constraints := Constraints bp |}.

(** Modelled from the spec: the bundle identity, "(source endpoint, creation
    timestamp sequence, creation timestamp time, fragment offset, total
    application data length)", the fragment fields being zero unless the
    bundle is a fragment. *)
Definition BundleID : Type := bundle.EndpointID * (N * N) * N * N.

Inductive StatusReportReason : Type :=
| NoInformation
| LifetimeExpired
| ForwardedUnidirectionalLink
| TransmissionCanceled
| DepletedStorage
| DestinationEndpointUnintelligible
| NoRouteToDestination
| NoTimelyContact
| BlockUnintelligible
| HopLimitExceeded
| TrafficPared.

(** [StatusInformationPos] is an integer type; [OtherStatus] stands for the
    values that the [switch] of [inspectStatusReport] sends to [default]. *)
Inductive StatusInformationPos : Type :=
| ReceivedBundle
| ForwardedBundle
| DeliveredBundle
| DeletedBundle
| OtherStatus (n : N).

#[global] Instance StatusInformationPos_eq_dec :
  EqDecision StatusInformationPos.
Proof. solve_decision. Defined.

#[global] Instance StatusReportReason_eq_dec : EqDecision StatusReportReason.
Proof. solve_decision. Defined.

(** Modelled from the spec: the status report, "subject bundle identity; one
    or more status information items, each naming one of [the four kinds]
    plus an assertion flag and an optional assertion timestamp; a reason
    code".  The subject is named by its source and creation timestamp. *)
Record BundleStatusItem : Type := mkBundleStatusItem {
  Kind : StatusInformationPos;
  Asserted : bool;
  StatusTime : option N
}.

Record StatusReport : Type := mkStatusReport {
  StatusInformation : list BundleStatusItem;
  ReportReason : StatusReportReason;
  SubjectSourceNode : bundle.EndpointID;
  SubjectTimestamp : bundle.CreationTimestamp
}.

(** [StatusInformations]: the kinds of the asserted items. *)
Definition StatusInformations (sr : StatusReport) : list StatusInformationPos :=
  Kind <$> filter (λ it, Asserted it = true) (StatusInformation sr).

Record AdministrativeRecord : Type := mkAdministrativeRecord {
  TypeCode : N;
  Content : StatusReport
}.

(** The [cla.ConvergenceSender] interface.  [senderId] tells instances
    apart; [Send] yields [Some err] when the transmission fails. *)
Record ConvergenceSender : Type := mkConvergenceSender {
  senderId : N;
  Address : string;
  GetPeerEndpointID : bundle.EndpointID;
  Send : bundle.Bundle → option string
}.

(** The [ApplicationAgent] interface. *)
Record ApplicationAgent : Type := mkApplicationAgent {
  agentId : N;
  EndpointID : bundle.EndpointID
}.

(** The [RoutingAlgorithm] interface; [NotifyIncoming] only shows in the
    trace. *)
Record RoutingAlgorithm : Type := mkRoutingAlgorithm {
  SenderForBundle : BundlePack → list ConvergenceSender * bool
}.

(** What the pipeline does to its collaborators, and the stages it enters (one
    entry per stage-entry log line).  The events of the pipeline run that
    carries a status report are kept under the report's own event. *)
#[local] Unset Elimination Schemes.
Inductive Event : Type :=
| EvTransmit (id : BundleID)
| EvReceive (id : BundleID)
| EvDispatching (id : BundleID)
| EvForward (id : BundleID)
| EvLocalDelivery (id : BundleID)
| EvContraindicated (id : BundleID)
| EvDeletion (id : BundleID)
| EvPush (id : BundleID) (cs : gset Constraint)
| EvStatusReport (subject : BundleID) (status : StatusInformationPos)
    (reason : StatusReportReason) (carried : list Event)
| EvSenderForDestination (dst : bundle.EndpointID)
| EvSenderForBundle (id : BundleID)
| EvSend (sender : N) (id : BundleID)
| EvClose (sender : N)
| EvRemoveConvergenceSender (sender : N)
| EvRegisterConvergenceSender (sender : N) (address : string)
| EvDeliver (agent : N) (id : BundleID)
| EvNotifyIncoming (id : BundleID).
#[local] Set Elimination Schemes.

Record Core : Type := mkCore {
  idKeeper : gmap bundle.EndpointID N;
  store : gmap BundleID BundlePack;
  convergenceSenders : list ConvergenceSender;
  Agents : list ApplicationAgent;
  routing : RoutingAlgorithm;
  inspectAllBundles : bool;
  nodeId : bundle.EndpointID;
  endpoints : list bundle.EndpointID;
  clock : N;
  trace : list Event
}.

Definition setIdKeeper (c : Core) (k : gmap bundle.EndpointID N) : Core :=
  {| idKeeper := k; store := store c;
     convergenceSenders := convergenceSenders c; Agents := Agents c;
     routing := routing c; inspectAllBundles := inspectAllBundles c;
     nodeId := nodeId c; endpoints := endpoints c; clock := clock c;
     trace := trace c |}.

Definition setStore (c : Core) (s : gmap BundleID BundlePack) : Core :=
  {| idKeeper := idKeeper c; store := s;
     convergenceSenders := convergenceSenders c; Agents := Agents c;
     routing := routing c; inspectAllBundles := inspectAllBundles c;
     nodeId := nodeId c; endpoints := endpoints c; clock := clock c;
     trace := trace c |}.

Definition setConvergenceSenders (c : Core) (l : list ConvergenceSender)
    : Core :=
  {| idKeeper := idKeeper c; store := store c;
     convergenceSenders := l; Agents := Agents c;
     routing := routing c; inspectAllBundles := inspectAllBundles c;
     nodeId := nodeId c; endpoints := endpoints c; clock := clock c;
     trace := trace c |}.

Definition setTrace (c : Core) (t : list Event) : Core :=
  {| idKeeper := idKeeper c; store := store c;
     convergenceSenders := convergenceSenders c; Agents := Agents c;
     routing := routing c; inspectAllBundles := inspectAllBundles c;
     nodeId := nodeId c; endpoints := endpoints c; clock := clock c;
     trace := t |}.

Definition log (e : Event) (c : Core) : Core := setTrace c (trace c ++ [e]).

(** The functions of the [bundle] and [core] packages that the pipeline calls
    and whose results depend on the wall clock, on the CBOR codec, or on
    tables of the node: parameters of the pipeline. *)
Class Collaborators : Type := {
  isKnownBlockType : bundle.CanonicalBlockType → bool;
  (** [PrimaryBlock.IsLifetimeExceeded], read at the given clock value. *)
  IsLifetimeExceeded : bundle.PrimaryBlock → N → bool;
  NewAdministrativeRecordFromCbor : list byte → option AdministrativeRecord;
  AdministrativeRecordToCbor : AdministrativeRecord → list byte;
  (** Direct delivery: is a sender with this peer endpoint eligible for this
      destination? *)
  eligibleFor : bundle.EndpointID → bundle.EndpointID → bool;
  statusReportLifetime : N
}.

Section Pipeline.
Context `{bundle.Constants} `{Collaborators}.

Definition primary (bp : BundlePack) : bundle.PrimaryBlock :=
  bundle.primaryBlock (Bundle bp).

Definition bundleID (bp : BundlePack) : BundleID :=
  let pb := primary bp in
  if bundle.HasFragmentation pb
  then (bundle.SourceNode pb, bundle.CreationTimestampOf pb,
        bundle.FragmentOffset pb, bundle.TotalDataLength pb)
  else (bundle.SourceNode pb, bundle.CreationTimestampOf pb, 0%N, 0%N).

(** Modelled from the spec: [NewBundlePack], the pack created at an entry
    point, with "receive-time = now" and no constraint. *)
Definition NewBundlePack (c : Core) (b : bundle.Bundle) : BundlePack :=
  {| Bundle := b; Timestamp := clock c; Constraints := ∅ |}.

(** *** Store *)

(** Modelled from the spec: [store.Push], "upsert by bundle identity; last
    writer wins". *)
Definition Push (c : Core) (bp : BundlePack) : Core :=
  log (EvPush (bundleID bp) (Constraints bp))
      (setStore c (<[bundleID bp := bp]> (store c))).

(** Modelled from the spec: [KnowsBundle], "true if any pack with that
    identity has ever been pushed and not deleted". *)
Definition KnowsBundle (s : gmap BundleID BundlePack) (bp : BundlePack)
    : bool :=
  bool_decide (is_Some (s !! bundleID bp)).

(** Modelled from the spec: [QueryFromStatusReport], "returns packs whose
    bundle identity matches the subject encoded in a status report". *)
Definition isSubjectOf (sr : StatusReport) (bp : BundlePack) : Prop :=
  bundle.SourceNode (primary bp) = SubjectSourceNode sr
  ∧ bundle.CreationTimestampOf (primary bp) = SubjectTimestamp sr.

#[global] Instance isSubjectOf_dec sr bp : Decision (isSubjectOf sr bp).
Proof. unfold isSubjectOf. apply _. Defined.

Definition QueryFromStatusReport (s : gmap BundleID BundlePack)
    (sr : StatusReport) : list BundlePack :=
  (map_to_list (filter (λ kv, isSubjectOf sr kv.2) s)).*2.

(** *** IdKeeper *)

Definition setSequence (b : bundle.Bundle) (seq : N) : bundle.Bundle :=
  let pb := bundle.primaryBlock b in
  {| bundle.primaryBlock :=
       {| bundle.Version := bundle.Version pb;
          bundle.BundleControlFlagsOf := bundle.BundleControlFlagsOf pb;
          bundle.pbCRCType := bundle.pbCRCType pb;
          bundle.Destination := bundle.Destination pb;
          bundle.SourceNode := bundle.SourceNode pb;
          bundle.ReportTo := bundle.ReportTo pb;
          bundle.CreationTimestampOf :=
            ((bundle.CreationTimestampOf pb).1, seq);
          bundle.Lifetime := bundle.Lifetime pb;
          bundle.FragmentOffset := bundle.FragmentOffset pb;
          bundle.TotalDataLength := bundle.TotalDataLength pb;
          bundle.pbCRC := bundle.pbCRC pb |};
     bundle.CanonicalBlocks := bundle.CanonicalBlocks b |}.

(** Modelled from the spec: [idKeeper.update], "a pure in-memory map from
    source endpoint to the highest sequence issued" that "assigns the next
    sequence for that source if and only if the bundle's existing sequence
    collides with one already seen". *)
Definition idKeeper_update (c : Core) (b : bundle.Bundle)
    : Core * bundle.Bundle :=
  let src := bundle.SourceNode (bundle.primaryBlock b) in
  let seq := (bundle.CreationTimestampOf (bundle.primaryBlock b)).2 in
  match idKeeper c !! src with
  | None => (setIdKeeper c (<[src := seq]> (idKeeper c)), b)
  | Some hi =>
      if (seq <=? hi)%N
      then (setIdKeeper c (<[src := (hi + 1)%N]> (idKeeper c)),
            setSequence b (hi + 1)%N)
      else (setIdKeeper c (<[src := seq]> (idKeeper c)), b)
  end.

(** *** Endpoints and the convergence-layer registry *)

(** Modelled from the spec: [HasEndpoint], is the endpoint "an endpoint of
    this node". *)
Definition HasEndpoint (c : Core) (e : bundle.EndpointID) : bool :=
  bool_decide (e ∈ endpoints c).

(** Modelled from the spec: [senderForDestination], the registered senders
    eligible for the destination. *)
Definition senderForDestination (c : Core) (dst : bundle.EndpointID)
    : list ConvergenceSender :=
  filter (λ s, eligibleFor (GetPeerEndpointID s) dst = true)
         (convergenceSenders c).

(** Modelled from the spec: [RemoveConvergenceSender] and
    [RegisterConvergenceSender], the registry's remove and add. *)
Definition RemoveConvergenceSender (c : Core) (node : ConvergenceSender)
    : Core :=
  log (EvRemoveConvergenceSender (senderId node))
      (setConvergenceSenders c
         (filter (λ s, senderId s ≠ senderId node) (convergenceSenders c))).

Definition RegisterConvergenceSender (c : Core) (node : ConvergenceSender)
    : Core :=
  log (EvRegisterConvergenceSender (senderId node) (Address node))
      (setConvergenceSenders c (convergenceSenders c ++ [node])).

(** *** Bundle age *)

(** Modelled from the spec: [UpdateBundleAge], which updates the bundle-age
    block in place, when there is one, by the time the pack has spent at
    this node, and yields the updated age. *)
Definition UpdateBundleAge (c : Core) (bp : BundlePack)
    : Outcome (option N * BundlePack) :=
  match bundle.ExtensionBlock (Bundle bp) bundle.BundleAgeBlock with
  | None => mret (None, bp)
  | Some (i, ageBlock) =>
      match bundle.Data ageBlock with
      | bundle.DataUint age =>
          let age' := (age + (clock c - Timestamp bp))%N in
          mret (Some age',
                setBundle bp
                  (bundle.storeBlock (Bundle bp) i
                     (bundle.setData ageBlock (bundle.DataUint age'))))
      | _ => Panic
      end
  end.

(** *** Status reports *)

(** [c.SendBundle], the entry through which a status report re-enters the
    pipeline.  The stages below are written against it; [SendBundle], after
    this section, closes the recursion. *)
Variable sendBundle : Core → bundle.Bundle → Outcome Core.

(** Modelled from the spec: the status report about a bundle, "naming the
    subject and carrying the assertion(s) and reason". *)
Definition NewStatusReport (c : Core) (bp : BundlePack)
    (status : StatusInformationPos) (reason : StatusReportReason)
    : StatusReport :=
  {| StatusInformation :=
       [ {| Kind := status; Asserted := true; StatusTime := Some (clock c) |} ];
     ReportReason := reason;
     SubjectSourceNode := bundle.SourceNode (primary bp);
     SubjectTimestamp := bundle.CreationTimestampOf (primary bp) |}.

(** Modelled from the spec: the bundle that carries a status report, "source
    is this node, destination is the original bundle's report-to, payload is
    the administrative record"; its primary block is marked administrative
    and "status reports use record-type 1". *)
Definition statusReportBundle (c : Core) (bp : BundlePack)
    (status : StatusInformationPos) (reason : StatusReportReason)
    : bundle.Bundle :=
  {| bundle.primaryBlock :=
       bundle.NewPrimaryBlock bundle.AdministrativeRecordPayload
         (bundle.ReportTo (primary bp)) (nodeId c) (clock c, 0%N)
         statusReportLifetime;
     bundle.CanonicalBlocks :=
       [ {| bundle.BlockType := bundle.PayloadBlock;
            bundle.BlockNumber := 0%N;
            bundle.BlockControlFlagsOf := 0%N;
            bundle.cbCRCType := bundle.CRCNo;
            bundle.Data :=
              bundle.DataBytes
                (AdministrativeRecordToCbor
                   {| TypeCode := 1%N;
                      Content := NewStatusReport c bp status reason |});
            bundle.cbCRC := 0%N |} ] |}.

(** Modelled from the spec: [SendStatusReport], "the pipeline emits it by
    calling its own transmit entry".  The events of that run are filed under
    the report's event. *)
Definition SendStatusReport (c : Core) (bp : BundlePack)
    (status : StatusInformationPos) (reason : StatusReportReason)
    : Outcome Core :=
  c' ← sendBundle (setTrace c []) (statusReportBundle c bp status reason);
  mret (setTrace c'
          (trace c ++ [EvStatusReport (bundleID bp) status reason (trace c')])).

(** *** The stages *)

Definition flags (bp : BundlePack) : bundle.BundleControlFlags :=
  bundle.BundleControlFlagsOf (primary bp).

(** [bundleDeletion]. *)
Definition bundleDeletion (c : Core) (bp : BundlePack)
    (reason : StatusReportReason) : Outcome (Core * BundlePack) :=
  c ← (if bundle.Has (flags bp) bundle.StatusRequestDeletion
       then SendStatusReport c bp DeletedBundle reason
       else mret c);
  let bp := PurgeConstraints bp in
  let c := Push c bp in
  mret (log (EvDeletion (bundleID bp)) c, bp).

(** [bundleContraindicated]. *)
Definition bundleContraindicated (c : Core) (bp : BundlePack)
    : Core * BundlePack :=
  let c := log (EvContraindicated (bundleID bp)) c in
  let bp := AddConstraint Contraindicated bp in
  (Push c bp, bp).

(** The [for] loop of [inspectStatusReport] over the status informations;
    [bp] is the one pack that the store query returned. *)
Fixpoint inspect_sips (sips : list StatusInformationPos) (c : Core)
    (bp : BundlePack) : Core * BundlePack :=
  match sips with
  | [] => (c, bp)
  | sip :: rest =>
      match sip with
      | DeliveredBundle =>
          let bp := PurgeConstraints bp in
          inspect_sips rest (Push c bp) bp
      | _ => inspect_sips rest c bp
      end
  end.

(** [inspectStatusReport]. *)
Definition inspectStatusReport (c : Core) (ar : AdministrativeRecord) : Core :=
  let status := Content ar in
  let sips := StatusInformations status in
  match sips with
  | [] => c
  | _ =>
      match QueryFromStatusReport (store c) status with
      | [bp] => (inspect_sips sips c bp).1
      | _ => c
      end
  end.

(** [checkAdministrativeRecord]; [bp.Bundle.PayloadBlock()] is the lookup of
    the payload block, and [canonicalAr.Data.([]byte)] panics on any other
    dynamic type. *)
Definition checkAdministrativeRecord (c : Core) (bp : BundlePack)
    : Outcome (Core * bool) :=
  if negb (bundle.IsAdministrativeRecord (Bundle bp)) then mret (c, false)
  else
    match bundle.ExtensionBlock (Bundle bp) bundle.PayloadBlock with
    | None => mret (c, false)
    | Some (_, canonicalAr) =>
        match bundle.Data canonicalAr with
        | bundle.DataBytes data =>
            match NewAdministrativeRecordFromCbor data with
            | None => mret (c, false)
            | Some ar => mret (inspectStatusReport c ar, true)
            end
        | _ => Panic
        end
    end.

(** The [for] loop of [localDelivery] over the agents. *)
Fixpoint deliver_agents (agents : list ApplicationAgent) (c : Core)
    (bp : BundlePack) : Core :=
  match agents with
  | [] => c
  | agent :: rest =>
      if bool_decide (EndpointID agent = bundle.Destination (primary bp))
      then
        deliver_agents rest
          (log (EvDeliver (agentId agent) (bundleID bp)) c) bp
      else deliver_agents rest c bp
  end.

(** [localDelivery]. *)
Definition localDelivery (c : Core) (bp : BundlePack)
    : Outcome (Core * BundlePack) :=
  let c := log (EvLocalDelivery (bundleID bp)) c in
  '(c, ok) ← (if bundle.IsAdministrativeRecord (Bundle bp)
              then checkAdministrativeRecord c bp
              else mret (c, true));
  if negb ok then bundleDeletion c bp NoInformation
  else
    let c := deliver_agents (Agents c) c bp in
    let c := log (EvNotifyIncoming (bundleID bp)) c in
    c ← (if bundle.Has (flags bp) bundle.StatusRequestDelivery
         then SendStatusReport c bp DeliveredBundle NoInformation
         else mret c);
    let bp := PurgeConstraints bp in
    mret (Push c bp, bp).

(** Lines 113-126 of [forward]: the hop-count block, when there is one, is
    incremented in place; the flag tells whether the limit is exceeded.
    [hcBlock.Data.(bundle.HopCount)] panics on any other dynamic type. *)
Definition forward_hopcount (bp : BundlePack) : Outcome (BundlePack * bool) :=
  match bundle.ExtensionBlock (Bundle bp) bundle.HopCountBlock with
  | None => mret (bp, false)
  | Some (i, hcBlock) =>
      match bundle.Data hcBlock with
      | bundle.DataHopCount hc =>
          let hc := bundle.Increment hc in
          mret (setBundle bp
                  (bundle.storeBlock (Bundle bp) i
                     (bundle.setData hcBlock (bundle.DataHopCount hc))),
                bundle.IsExceeded hc)
      | _ => Panic
      end
  end.

(** Lines 136-143 of [forward]: the bundle age is updated; the flag tells
    whether the updated age has reached the lifetime. *)
Definition forward_age (c : Core) (bp : BundlePack)
    : Outcome (BundlePack * bool) :=
  '(age, bp) ← UpdateBundleAge c bp;
  match age with
  | Some age => mret (bp, bool_decide (bundle.Lifetime (primary bp) ≤ age)%N)
  | None => mret (bp, false)
  end.

(** Lines 145-152 of [forward]: direct delivery, or else the routing
    algorithm.  A nil slice is the empty list. *)
Definition forward_nodes (c : Core) (bp : BundlePack)
    : Core * list ConvergenceSender * bool :=
  let dst := bundle.Destination (primary bp) in
  let c := log (EvSenderForDestination dst) c in
  match senderForDestination c dst with
  | [] =>
      let c := log (EvSenderForBundle (bundleID bp)) c in
      let '(nodes, deleteAfterwards) := SenderForBundle (routing c) bp in
      (c, nodes, deleteAfterwards)
  | nodes => (c, nodes, true)
  end.

(** The body of one goroutine of the fan-out. *)
Definition forward_send (node : ConvergenceSender) (bp : BundlePack)
    (st : Core * bool) : Core * bool :=
  let '(c, bundleSent) := st in
  let c := log (EvSend (senderId node) (bundleID bp)) c in
  match Send node (Bundle bp) with
  | Some _ =>
      let c := log (EvClose (senderId node)) c in
      let c := RemoveConvergenceSender c node in
      let c := RegisterConvergenceSender c node in
      (c, bundleSent)
  | None => (c, true)
  end.

(** Lines 160-189 of [forward]: one goroutine per node and a wait for all of
    them; the goroutines are run one after the other, in the order of the
    slice. *)
Fixpoint forward_fanout (nodes : list ConvergenceSender) (bp : BundlePack)
    (st : Core * bool) : Core * bool :=
  match nodes with
  | [] => st
  | node :: rest => forward_fanout rest bp (forward_send node bp st)
  end.

(** [forward]. *)
Definition forward (c : Core) (bp : BundlePack)
    : Outcome (Core * BundlePack) :=
  let c := log (EvForward (bundleID bp)) c in
  let bp :=
    RemoveConstraint DispatchPending (AddConstraint ForwardPending bp) in
  let c := Push c bp in
  '(bp, exceeded) ← forward_hopcount bp;
  if (exceeded : bool) then bundleDeletion c bp HopLimitExceeded
  else if IsLifetimeExceeded (primary bp) (clock c)
  then bundleDeletion c bp LifetimeExpired
  else
    '(bp, expired) ← forward_age c bp;
    if (expired : bool) then bundleDeletion c bp LifetimeExpired
    else
      let '(c, nodes, deleteAfterwards) := forward_nodes c bp in
      match nodes with
      | [] => mret (bundleContraindicated c bp)
      | _ =>
          let '(c, bundleSent) := forward_fanout nodes bp (c, false) in
          if bundleSent then
            c ← (if bundle.Has (flags bp) bundle.StatusRequestForward
                 then SendStatusReport c bp ForwardedBundle NoInformation
                 else mret c);
            if deleteAfterwards then
              let bp := PurgeConstraints bp in
              mret (Push c bp, bp)
            else if inspectAllBundles c
                    && bundle.IsAdministrativeRecord (Bundle bp)
            then
              let '(c, bp) := bundleContraindicated c bp in
              '(c, _) ← checkAdministrativeRecord c bp;
              mret (c, bp)
            else mret (c, bp)
          else mret (bundleContraindicated c bp)
      end.

(** [dispatching]. *)
Definition dispatching (c : Core) (bp : BundlePack)
    : Outcome (Core * BundlePack) :=
  let c := log (EvDispatching (bundleID bp)) c in
  if HasEndpoint c (bundle.Destination (primary bp))
  then localDelivery c bp
  else forward c bp.

(** [transmit]. *)
Definition transmit (c : Core) (bp : BundlePack)
    : Outcome (Core * BundlePack) :=
  let c := log (EvTransmit (bundleID bp)) c in
  let '(c, b) := idKeeper_update c (Bundle bp) in
  let bp := setBundle bp b in
  let bp := AddConstraint DispatchPending bp in
  let c := Push c bp in
  let src := bundle.SourceNode (primary bp) in
  if bool_decide (src ≠ bundle.DtnNone) && negb (HasEndpoint c src)
  then bundleDeletion c bp NoInformation
  else dispatching c bp.

(** [append(blocks[:i], blocks[i+1:]...)]. *)
Definition removeBlock (bp : BundlePack) (i : nat) : BundlePack :=
  let cbs := bundle.CanonicalBlocks (Bundle bp) in
  setBundle bp
    (bundle.setCanonicalBlocks (Bundle bp) (take i cbs ++ drop (S i) cbs)).

(** The [for] loop of [receive]: [n] is [i + 1], so that the loop runs while
    [n] is positive.  The flag tells whether the loop left through
    [bundleDeletion]. *)
Fixpoint receive_blocks (n : nat) (c : Core) (bp : BundlePack)
    : Outcome (Core * BundlePack * bool) :=
  match n with
  | 0 => mret (c, bp, false)
  | S i =>
      match bundle.CanonicalBlocks (Bundle bp) !! i with
      | None => Panic
      | Some cb =>
          if isKnownBlockType (bundle.BlockType cb) then receive_blocks i c bp
          else
            c ← (if bundle.Has (bundle.BlockControlFlagsOf cb)
                      bundle.StatusReportBlock
                 then SendStatusReport c bp ReceivedBundle BlockUnintelligible
                 else mret c);
            if bundle.Has (bundle.BlockControlFlagsOf cb) bundle.DeleteBundle
            then
              '(c, bp) ← bundleDeletion c bp BlockUnintelligible;
              mret (c, bp, true)
            else if bundle.Has (bundle.BlockControlFlagsOf cb)
                      bundle.RemoveBlock
            then receive_blocks i c (removeBlock bp i)
            else receive_blocks i c bp
      end
  end.

(** [receive]. *)
Definition receive (c : Core) (bp : BundlePack)
    : Outcome (Core * BundlePack) :=
  let c := log (EvReceive (bundleID bp)) c in
  if KnowsBundle (store c) bp then mret (c, bp)
  else
    let bp := AddConstraint DispatchPending bp in
    let c := Push c bp in
    c ← (if bundle.Has (flags bp) bundle.StatusRequestReception
         then SendStatusReport c bp ReceivedBundle NoInformation
         else mret c);
    '(c, bp, deleted) ←
      receive_blocks (length (bundle.CanonicalBlocks (Bundle bp))) c bp;
    if (deleted : bool) then mret (c, bp) else dispatching c bp.

End Pipeline.

(** [SendBundle]: [c.transmit(NewBundlePack(bndl))].  A status report is sent
    through [SendBundle] again, so the definition is by recursion on a bound
    on the depth of reports about reports. *)
Fixpoint SendBundle `{bundle.Constants} `{Collaborators} (fuel : nat)
    (c : Core) (bndl : bundle.Bundle) : Outcome Core :=
  match fuel with
  | 0 => OutOfFuel
  | S fuel =>
      '(c, _) ← transmit (SendBundle fuel) c (NewBundlePack c bndl);
      mret c
  end.

(** ** Vocabulary of the statements *)

Section Vocabulary.
Context `{!bundle.Constants} `{!Collaborators}.

(** The type assertions of the pipeline succeed on a bundle whose hop-count,
    bundle-age and payload blocks hold data of the dynamic type that goes
    with the block type. *)
Definition wellTypedBlock (cb : bundle.CanonicalBlock) : bool :=
  (if (bundle.BlockType cb =? bundle.HopCountBlock)%N
   then match bundle.Data cb with bundle.DataHopCount _ => true | _ => false end
   else true)
  && (if (bundle.BlockType cb =? bundle.BundleAgeBlock)%N
      then match bundle.Data cb with bundle.DataUint _ => true | _ => false end
      else true)
  && (if (bundle.BlockType cb =? bundle.PayloadBlock)%N
      then match bundle.Data cb with bundle.DataBytes _ => true | _ => false end
      else true).

Definition wellTyped (bp : BundlePack) : bool :=
  forallb wellTypedBlock (bundle.CanonicalBlocks (Bundle bp)).

(** The blocks that the walk of [receive] keeps: those of a known type, and
    the unknown ones whose flags do not ask for removal. *)
Definition survives (cb : bundle.CanonicalBlock) : bool :=
  isKnownBlockType (bundle.BlockType cb)
  || negb (bundle.Has (bundle.BlockControlFlagsOf cb) bundle.RemoveBlock).

(** An unknown block that asks for the deletion of the bundle. *)
Definition deletes (cb : bundle.CanonicalBlock) : bool :=
  negb (isKnownBlockType (bundle.BlockType cb))
  && bundle.Has (bundle.BlockControlFlagsOf cb) bundle.DeleteBundle.

Definition withBlocks (bp : BundlePack) (cbs : list bundle.CanonicalBlock)
    : BundlePack :=
  setBundle bp (bundle.setCanonicalBlocks (Bundle bp) cbs).

(** The hop count that a pack carries. *)
Definition hopCount (bp : BundlePack) : option bundle.HopCount :=
  match bundle.ExtensionBlock (Bundle bp) bundle.HopCountBlock with
  | Some (_, cb) =>
      match bundle.Data cb with
      | bundle.DataHopCount hc => Some hc
      | _ => None
      end
  | None => None
  end.

(** A pack asks for none of the status reports of the transmit path. *)
Definition silent (bp : BundlePack) : Prop :=
  bundle.Has (flags bp) bundle.StatusRequestForward = false
  ∧ bundle.Has (flags bp) bundle.StatusRequestDelivery = false
  ∧ bundle.Has (flags bp) bundle.StatusRequestDeletion = false.

(** What [bundleDeletion c bp reason] leaves behind: the purged pack in the
    store and, after the events of [c], a [DeletedBundle] report exactly when
    the deletion flag is set, the push and the deletion mark. *)
Definition deletion_of (c : Core) (bp : BundlePack)
    (reason : StatusReportReason) (c' : Core) : Prop :=
  store c' !! bundleID bp = Some (PurgeConstraints bp)
  ∧ ∃ report,
      trace c' =
        trace c ++ report ++ [EvPush (bundleID bp) ∅; EvDeletion (bundleID bp)]
      ∧ if bundle.Has (flags bp) bundle.StatusRequestDeletion
        then ∃ carried,
               report =
                 [EvStatusReport (bundleID bp) DeletedBundle reason carried]
        else report = [].

(** The events by which a stage consults or uses a convergence sender for
    the bundle at hand.  The run that carries a status report is another
    bundle's; its events sit inside the report's event. *)
Definition consultsSender (e : Event) : bool :=
  match e with
  | EvSenderForDestination _ | EvSenderForBundle _ | EvSend _ _ => true
  | _ => false
  end.

(** The event by which a stage consults the routing algorithm. *)
Definition consultsRouting (e : Event) : bool :=
  match e with
  | EvSenderForBundle _ => true
  | _ => false
  end.

(** The events by which a bundle enters dispatch and the stages behind
    it. *)
Definition entersDispatch (e : Event) : bool :=
  match e with
  | EvDispatching _ | EvForward _ | EvLocalDelivery _ => true
  | _ => false
  end.

(** The events of a local delivery: the hand-over to an agent, the
    notification of the routing algorithm and the delivery report. *)
Definition delivers (e : Event) : bool :=
  match e with
  | EvDeliver _ _ | EvNotifyIncoming _ => true
  | EvStatusReport _ DeliveredBundle _ _ => true
  | _ => false
  end.

(** A [DeletedBundle] report with the given reason. *)
Definition reportsDeletion (reason : StatusReportReason) (e : Event) : Prop :=
  ∃ subject carried, e = EvStatusReport subject DeletedBundle reason carried.

(** The events that a stage has added to the trace of [c]. *)
Definition since (c c' : Core) : list Event :=
  drop (length (trace c)) (trace c').

(** The events of one goroutine of the fan-out: the send and, when it fails,
    the restart of the link. *)
Definition sendEvents (bp : BundlePack) (node : ConvergenceSender)
    : list Event :=
  EvSend (senderId node) (bundleID bp)
  :: match Send node (Bundle bp) with
     | Some _ =>
         [EvClose (senderId node);
          EvRemoveConvergenceSender (senderId node);
          EvRegisterConvergenceSender (senderId node) (Address node)]
     | None => []
     end.

(** The registry after the restart of [node]: [node] is taken out and the
    very same [node] is put back. *)
Definition restarted (l : list ConvergenceSender) (node : ConvergenceSender)
    : list ConvergenceSender :=
  filter (λ s, senderId s ≠ senderId node) l ++ [node].

Definition sendSucceeds (bp : BundlePack) (node : ConvergenceSender) : bool :=
  match Send node (Bundle bp) with Some _ => false | None => true end.

(** Among the events there is the registration, at the address of [node], of
    a sender that is another instance than [node]. *)
Definition registersFresh (tr : list Event) (node : ConvergenceSender) : Prop :=
  ∃ s, EvRegisterConvergenceSender s (Address node) ∈ tr
       ∧ s ≠ senderId node.

(** After the stage the registry holds, at the address of [node], a sender
    that is another instance than [node]. *)
Definition restartedFresh (c' : Core) (node : ConvergenceSender) : Prop :=
  ∃ s, s ∈ convergenceSenders c'
       ∧ Address s = Address node
       ∧ senderId s ≠ senderId node.

(** The pipeline run of every status report returns. *)
Definition reportsReturn (sendBundle : Core → bundle.Bundle → Outcome Core)
    : Prop :=
  ∀ c c0 bp status reason,
    returns (sendBundle c (statusReportBundle c0 bp status reason)).

(** Either every report's run returns, or the pack asks for no report. *)
Definition reportsOk (sendBundle : Core → bundle.Bundle → Outcome Core)
    (bp : BundlePack) : Prop :=
  reportsReturn sendBundle ∨ silent bp.

(** The administrative-record flag shares no bit with the status-request
    flags of the transmit path, and the payload block type is neither the
    hop-count nor the bundle-age block type. *)
Class DistinctConstants : Prop := {
  admin_not_forward :
    bundle.Has bundle.AdministrativeRecordPayload bundle.StatusRequestForward
    = false;
  admin_not_delivery :
    bundle.Has bundle.AdministrativeRecordPayload bundle.StatusRequestDelivery
    = false;
  admin_not_deletion :
    bundle.Has bundle.AdministrativeRecordPayload bundle.StatusRequestDeletion
    = false;
  payload_not_hopcount : bundle.PayloadBlock ≠ bundle.HopCountBlock;
  payload_not_age : bundle.PayloadBlock ≠ bundle.BundleAgeBlock
}.

(** The store of [c'] knows every identity that the store of [c] knows. *)
Definition storeKeeps (c c' : Core) : Prop :=
  ∀ i, is_Some (store c !! i) → is_Some (store c' !! i).

(** No pipeline run of a bundle makes the store forget an identity. *)
Definition reportsKeep (sendBundle : Core → bundle.Bundle → Outcome Core)
    : Prop :=
  ∀ c b c', sendBundle c b = Done c' → storeKeeps c c'.

(** [forwarded sendBundle n bp bp']: [bp'] is [bp] after [n] passes through
    [forward], whatever the node's state at each pass. *)
Inductive forwarded (sendBundle : Core → bundle.Bundle → Outcome Core)
    : nat → BundlePack → BundlePack → Prop :=
| forwarded_O bp : forwarded sendBundle 0 bp bp
| forwarded_S n bp bp' c c' bp'' :
    forwarded sendBundle n bp bp' →
    forward sendBundle c bp' = Done (c', bp'') →
    forwarded sendBundle (S n) bp bp''.

End Vocabulary.

(** ** Further vocabulary *)

Section FurtherVocabulary.
Context `{!bundle.Constants} `{!Collaborators}.

(** The parts of the node that the pipeline reads: [c'] has them as [c]
    has. *)
Definition sameConfig (c c' : Core) : Prop :=
  Agents c' = Agents c ∧ routing c' = routing c
  ∧ inspectAllBundles c' = inspectAllBundles c ∧ nodeId c' = nodeId c
  ∧ endpoints c' = endpoints c ∧ clock c' = clock c.

(** No pipeline run of a bundle changes these parts. *)
Definition reportsFrame (sendBundle : Core → bundle.Bundle → Outcome Core)
    : Prop :=
  ∀ c b c', sendBundle c b = Done c' → sameConfig c c'.

(** An unknown block that asks for a status report. *)
Definition asksReport (cb : bundle.CanonicalBlock) : bool :=
  negb (isKnownBlockType (bundle.BlockType cb))
  && bundle.Has (bundle.BlockControlFlagsOf cb) bundle.StatusReportBlock.

(** The report about an unintelligible block of the bundle [id]. *)
Definition blockReport (id : BundleID) (e : Event) : Prop :=
  ∃ carried, e = EvStatusReport id ReceivedBundle BlockUnintelligible carried.

(** The push of a pack whose constraints have been purged. *)
Definition purgePush (e : Event) : Prop := ∃ id, e = EvPush id ∅.

(** A stage has added events to the trace of [c], each of them in [P]. *)
Definition adds (P : Event → Prop) (c c' : Core) : Prop :=
  ∃ tr, trace c' = trace c ++ tr ∧ Forall P tr.

End FurtherVocabulary.

(** ** A sample node *)

Module sample.

#[local] Open Scope N_scope.

Definition constants : bundle.Constants := bundle.sample.constants.

Definition emptyRecord : AdministrativeRecord :=
  {| TypeCode := 1%N;
     Content :=
       {| StatusInformation := [];
          ReportReason := NoInformation;
          SubjectSourceNode := bundle.DtnNone;
          SubjectTimestamp := (0%N, 0%N) |} |}.

(** Collaborators of the sample node: the block types 1, 7, 8 and 9 are
    known; a lifetime is exceeded when the creation time is set and creation
    time plus lifetime lies before the clock; the codec is a toy one. *)
Definition collaborators : Collaborators :=
  {| isKnownBlockType := λ ty, bool_decide (ty ∈ [1%N; 7%N; 8%N; 9%N]);
     IsLifetimeExceeded := λ pb now,
       negb ((bundle.CreationTimestampOf pb).1 =? 0)%N
       && ((bundle.CreationTimestampOf pb).1 + bundle.Lifetime pb <? now)%N;
     NewAdministrativeRecordFromCbor := λ data,
       match data with
       | x82 :: _ => Some emptyRecord
       | _ => None
       end;
     AdministrativeRecordToCbor := λ _, [x82; x01];
     eligibleFor := λ peer dst, bool_decide (peer = dst);
     statusReportLifetime := 3600000000%N |}.

Definition self : bundle.EndpointID := bundle.EidDtn "//self/".
Definition app : bundle.EndpointID := bundle.EidDtn "//self/app".
Definition peer : bundle.EndpointID := bundle.EidDtn "//peer/".
Definition friend : bundle.EndpointID := bundle.EidDtn "//friend/".
Definition other : bundle.EndpointID := bundle.EidDtn "//other/".

(** A sender towards [peer] whose sends fail, and one towards [friend] whose
    sends succeed. *)
Definition peerSender : ConvergenceSender :=
  {| senderId := 1%N; Address := "peer:4556"; GetPeerEndpointID := peer;
     Send := λ _, Some "connection refused" |}.

Definition friendSender : ConvergenceSender :=
  {| senderId := 2%N; Address := "friend:4556"; GetPeerEndpointID := friend;
     Send := λ _, None |}.

Definition node : Core :=
  {| idKeeper := ∅;
     store := ∅;
     convergenceSenders := [peerSender; friendSender];
     Agents := [ {| agentId := 1%N; EndpointID := app |} ];
     routing := {| SenderForBundle := λ _, ([], false) |};
     inspectAllBundles := false;
     nodeId := self;
     endpoints := [self; app];
     clock := 100%N;
     trace := [] |}.

Definition block (ty flags : N) (d : bundle.BlockData) (n : N)
    : bundle.CanonicalBlock :=
  {| bundle.BlockType := ty; bundle.BlockNumber := n;
     bundle.BlockControlFlagsOf := flags; bundle.cbCRCType := bundle.CRCNo;
     bundle.Data := d; bundle.cbCRC := 0%N |}.

Definition payload : bundle.CanonicalBlock :=
  block 1 0 (bundle.DataBytes [x68; x69]) 0.

Definition pack (flags : N) (dst src : bundle.EndpointID)
    (cbs : list bundle.CanonicalBlock) : BundlePack :=
  {| Bundle :=
       {| bundle.primaryBlock :=
            bundle.NewPrimaryBlock flags dst src (50%N, 0%N) 1000%N;
          bundle.CanonicalBlocks := cbs |};
     Timestamp := 90%N;
     Constraints := ∅ |}.

(** A pack after the first lines of [forward]. *)
Definition pending (bp : BundlePack) : BundlePack :=
  RemoveConstraint DispatchPending (AddConstraint ForwardPending bp).

(** A bundle for [peer] with an exhausted hop count, asking for the deletion
    report. *)
Definition hopBlock : bundle.CanonicalBlock :=
  block 9 0 (bundle.DataHopCount {| bundle.Limit := 1; bundle.Count := 1 |}) 1.

Definition hopPack : BundlePack := pack 0x1000 peer other [hopBlock; payload].

(** A bundle for [peer] and one for [friend], without extension blocks. *)
Definition peerPack : BundlePack := pack 0 peer other [payload].
Definition friendPack : BundlePack := pack 0x0400 friend other [payload].


(** A bundle without creation time whose age block, once updated, reaches the
    lifetime of 1000. *)
Definition ageBlock : bundle.CanonicalBlock :=
  block 8 0 (bundle.DataUint 995) 1.


(** A bundle with two unknown blocks that ask for removal, at the indices 1
    and 3. *)
Definition unknownBlock (n : N) : bundle.CanonicalBlock :=
  block 42 0x02 (bundle.DataBytes [x00]) n.

Definition previousNode : bundle.CanonicalBlock :=
  block 7 0 (bundle.DataEndpoint other) 2.

Definition mixedPack : BundlePack :=
  pack 0 app other [payload; unknownBlock 1; previousNode; unknownBlock 3].

(** An administrative bundle for the node itself without a payload block. *)
Definition recordPack : BundlePack := pack 0x0002 app other [].

(** A node whose store holds [peerPack], forward pending, and a report that
    the bundle of [peerPack] has been delivered. *)
Definition pendingPack : BundlePack := AddConstraint ForwardPending peerPack.

Definition storingNode : Core :=
  setStore node
    {[ (other, (50%N, 0%N), 0%N, 0%N) := pendingPack ]}.

Definition deliveredReport : AdministrativeRecord :=
  {| TypeCode := 1%N;
     Content :=
       {| StatusInformation :=
            [ {| Kind := ReceivedBundle; Asserted := true;
                 StatusTime := None |};
              {| Kind := DeliveredBundle; Asserted := true;
                 StatusTime := None |} ];
          ReportReason := NoInformation;
          SubjectSourceNode := other;
          SubjectTimestamp := (50%N, 0%N) |} |}.

(** A destination that no sender of the node serves, a bundle and an
    administrative bundle for it, and the node with a routing algorithm that
    names the friend's sender for every bundle, the bundle to be kept
    afterwards; the same node inspecting all bundles. *)
Definition far : bundle.EndpointID := bundle.EidDtn "//far/".

Definition farPack : BundlePack := pack 0 far self [payload].
Definition farRecord : BundlePack := pack 0x0002 far self [payload].

Definition routingNode : Core :=
  {| idKeeper := ∅;
     store := ∅;
     convergenceSenders := [peerSender; friendSender];
     Agents := [ {| agentId := 1%N; EndpointID := app |} ];
     routing := {| SenderForBundle := λ _, ([friendSender], false) |};
     inspectAllBundles := false;
     nodeId := self;
     endpoints := [self; app];
     clock := 100%N;
     trace := [] |}.

Definition inspectingNode : Core :=
  {| idKeeper := ∅;
     store := ∅;
     convergenceSenders := [peerSender; friendSender];
     Agents := [ {| agentId := 1%N; EndpointID := app |} ];
     routing := {| SenderForBundle := λ _, ([friendSender], false) |};
     inspectAllBundles := true;
     nodeId := self;
     endpoints := [self; app];
     clock := 100%N;
     trace := [] |}.

(** A bundle for the application agent that asks for the delivery report,
    and a bundle of the node itself for [peer]. *)
Definition appPack : BundlePack := pack 0x0800 app other [payload].
Definition selfPack : BundlePack := pack 0 peer self [payload].

(** A bundle with an unknown block that asks for a report and for its
    removal, and a bundle with an unknown block that asks for a report and
    for the deletion of the bundle, below an unknown block that asks for its
    removal. *)
Definition reportingBlock : bundle.CanonicalBlock :=
  block 42 0x06 (bundle.DataBytes [x00]) 1.

Definition reportingPack : BundlePack :=
  pack 0 app other [payload; reportingBlock].

Definition deletingBlock : bundle.CanonicalBlock :=
  block 42 0x0C (bundle.DataBytes [x00]) 1.

Definition deletingPack : BundlePack :=
  pack 0 app other [payload; deletingBlock; unknownBlock 2].

(** A bundle for [peer] whose hop-count block holds a byte string, and an
    administrative bundle for the application agent whose payload block holds
    an integer. *)
Definition strayHopBlock : bundle.CanonicalBlock :=
  block 9 0 (bundle.DataBytes [x00]) 1.

Definition strayPack : BundlePack := pack 0 peer other [strayHopBlock; payload].

Definition strayPayload : bundle.CanonicalBlock :=
  block 1 0 (bundle.DataUint 0) 0.

Definition strayRecord : BundlePack := pack 0x0002 app other [strayPayload].

End sample.

(** ** Facts about the pipeline *)

Section Facts.
Context `{!bundle.Constants} `{!Collaborators}.

(** *** Block lookup *)

Lemma find_block_Some ty k cbs i cb :
  bundle.find_block ty k cbs = Some (i, cb) →
  k ≤ i ∧ cbs !! (i - k) = Some cb ∧ bundle.BlockType cb = ty.
Proof.
  revert k. induction cbs as [|x cbs IH]; intros k; simpl; [done|].
  destruct (N.eqb_spec (bundle.BlockType x) ty) as [Heq|Hne].
  - intros [= <- <-]. replace (k - k) with 0 by lia. done.
  - intros Hf. destruct (IH _ Hf) as (Hle & Hl & Hty).
    split; [lia|]. split; [|done].
    replace (i - k) with (S (i - S k)) by lia. done.
Qed.

Lemma ExtensionBlock_Some b ty i cb :
  bundle.ExtensionBlock b ty = Some (i, cb) →
  bundle.CanonicalBlocks b !! i = Some cb ∧ bundle.BlockType cb = ty.
Proof.
  intros Hf. destruct (find_block_Some _ _ _ _ _ Hf) as (_ & Hl & Hty).
  by rewrite Nat.sub_0_r in Hl.
Qed.

(** Writing a block of the same type back through a pointer does not move
    any lookup. *)
Lemma find_block_insert ty k cbs j cb0 cb' :
  cbs !! j = Some cb0 →
  bundle.BlockType cb' = bundle.BlockType cb0 →
  bundle.find_block ty k (<[j := cb']> cbs) =
    match bundle.find_block ty k cbs with
    | Some (i, cb) => if decide (i = j + k) then Some (i, cb') else Some (i, cb)
    | None => None
    end.
Proof.
  revert k j. induction cbs as [|x cbs IH]; intros k j Hj Hty; [done|].
  destruct j as [|j]; simpl in *.
  - injection Hj as ->. rewrite Hty.
    destruct (bundle.BlockType cb0 =? ty)%N.
    + by rewrite decide_True by lia.
    + destruct (bundle.find_block ty (S k) cbs) as [[i cb]|] eqn:Hf; [|done].
      apply find_block_Some in Hf as (Hle & _). by rewrite decide_False by lia.
  - destruct (bundle.BlockType x =? ty)%N.
    + by rewrite decide_False by lia.
    + rewrite (IH (S k) j Hj Hty).
      destruct (bundle.find_block ty (S k) cbs) as [[i cb]|]; [|done].
      destruct (decide (i = j + S k)), (decide (i = S (j + k))); done || lia.
Qed.

Lemma ExtensionBlock_storeBlock b ty ty' i cb d :
  bundle.ExtensionBlock b ty = Some (i, cb) →
  bundle.ExtensionBlock (bundle.storeBlock b i (bundle.setData cb d)) ty' =
    match bundle.ExtensionBlock b ty' with
    | Some (i', cb') =>
        if decide (i' = i) then Some (i', bundle.setData cb d)
        else Some (i', cb')
    | None => None
    end.
Proof.
  intros Hf. apply ExtensionBlock_Some in Hf as [Hl _].
  unfold bundle.ExtensionBlock, bundle.storeBlock. simpl.
  rewrite (find_block_insert ty' 0 _ i cb) by done.
  destruct (bundle.find_block ty' 0 _) as [[i' cb']|]; [|done].
  by rewrite Nat.add_0_r.
Qed.

(** *** Identity and primary block under the pack operations *)

Lemma bundleID_primary bp bp' :
  primary bp = primary bp' → bundleID bp = bundleID bp'.
Proof. unfold bundleID. by intros ->. Qed.

(** *** Well-typed block data *)

Lemma wellTyped_lookup bp (i : nat) (cb : bundle.CanonicalBlock) :
  wellTyped bp = true →
  bundle.CanonicalBlocks (Bundle bp) !! i = Some cb →
  wellTypedBlock cb = true.
Proof.
  unfold wellTyped. rewrite forallb_forall. intros Hall Hl.
  apply Hall, list_elem_of_In, list_elem_of_lookup. eauto.
Qed.

Lemma wellTyped_ExtensionBlock bp ty i cb :
  wellTyped bp = true →
  bundle.ExtensionBlock (Bundle bp) ty = Some (i, cb) →
  wellTypedBlock cb = true ∧ bundle.BlockType cb = ty.
Proof.
  intros Hwt Hf. apply ExtensionBlock_Some in Hf as [Hl Hty].
  split; [by eapply wellTyped_lookup|done].
Qed.

Lemma wellTyped_storeBlock bp i cb' :
  wellTyped bp = true →
  wellTypedBlock cb' = true →
  wellTyped (setBundle bp (bundle.storeBlock (Bundle bp) i cb')) = true.
Proof.
  unfold wellTyped. simpl. rewrite !forallb_forall. intros Hall Hcb x Hx.
  apply list_elem_of_In, list_elem_of_lookup in Hx as [j Hj].
  destruct (decide (j = i)) as [->|Hne].
  - destruct (decide (i < length (bundle.CanonicalBlocks (Bundle bp)))).
    + rewrite list_lookup_insert_eq in Hj by done. by injection Hj as <-.
    + rewrite list_insert_ge in Hj by lia.
      apply Hall, list_elem_of_In, list_elem_of_lookup. eauto.
  - rewrite list_lookup_insert_ne in Hj by done.
    apply Hall, list_elem_of_In, list_elem_of_lookup. eauto.
Qed.

(** *** The hop-count and bundle-age steps of [forward] *)


Lemma forward_hopcount_wellTyped bp :
  wellTyped bp = true →
  ∃ bp' exceeded,
    forward_hopcount bp = Done (bp', exceeded)
    ∧ wellTyped bp' = true
    ∧ primary bp' = primary bp
    ∧ Constraints bp' = Constraints bp
    ∧ Timestamp bp' = Timestamp bp.
Proof.
  intros Hwt. unfold forward_hopcount.
  destruct (bundle.ExtensionBlock _ _) as [[i cb]|] eqn:Hf; [|by eauto 10].
  destruct (wellTyped_ExtensionBlock _ _ _ _ Hwt Hf) as [Hcb Hty].
  assert (∃ hc, bundle.Data cb = bundle.DataHopCount hc) as [hc Hd].
  { unfold wellTypedBlock in Hcb.
    apply andb_prop in Hcb as [[Hcb _]%andb_prop _].
    rewrite Hty, N.eqb_refl in Hcb.
    destruct (bundle.Data cb); try done. eauto. }
  rewrite Hd. eexists _, _. split; [done|]. split; [|done].
  apply wellTyped_storeBlock; [done|].
  unfold wellTypedBlock in *. simpl. by rewrite Hd in Hcb.
Qed.

Lemma UpdateBundleAge_wellTyped c bp :
  wellTyped bp = true →
  ∃ age bp',
    UpdateBundleAge c bp = Done (age, bp')
    ∧ wellTyped bp' = true
    ∧ primary bp' = primary bp
    ∧ Constraints bp' = Constraints bp
    ∧ Timestamp bp' = Timestamp bp.
Proof.
  intros Hwt. unfold UpdateBundleAge.
  destruct (bundle.ExtensionBlock _ _) as [[i cb]|] eqn:Hf; [|by eauto 10].
  destruct (wellTyped_ExtensionBlock _ _ _ _ Hwt Hf) as [Hcb Hty].
  assert (∃ n, bundle.Data cb = bundle.DataUint n) as [n Hd].
  { unfold wellTypedBlock in Hcb.
    apply andb_prop in Hcb as [[_ Hcb]%andb_prop _].
    rewrite Hty, N.eqb_refl in Hcb.
    destruct (bundle.Data cb); try done. eauto. }
  rewrite Hd. eexists _, _. split; [done|]. split; [|done].
  apply wellTyped_storeBlock; [done|].
  unfold wellTypedBlock in *. simpl. by rewrite Hd in Hcb.
Qed.

Lemma forward_age_wellTyped c bp :
  wellTyped bp = true →
  ∃ bp' expired,
    forward_age c bp = Done (bp', expired)
    ∧ wellTyped bp' = true
    ∧ primary bp' = primary bp
    ∧ Constraints bp' = Constraints bp
    ∧ Timestamp bp' = Timestamp bp.
Proof.
  intros Hwt. unfold forward_age.
  destruct (UpdateBundleAge_wellTyped c bp Hwt) as (age & bp' & -> & Hrest).
  simpl. destruct age; eauto.
Qed.

(** *** The hop count of a pack *)

Lemma forward_hopcount_hopCount bp bp' exceeded :
  forward_hopcount bp = Done (bp', exceeded) →
  hopCount bp' = bundle.Increment <$> hopCount bp.
Proof.
  unfold forward_hopcount, hopCount.
  destruct (bundle.ExtensionBlock (Bundle bp) _) as [[i cb]|] eqn:Hf.
  - destruct (bundle.Data cb) eqn:Hd; try done. intros [= <- _]. simpl.
    rewrite (ExtensionBlock_storeBlock _ _ _ _ _ _ Hf), Hf.
    by rewrite decide_True.
  - intros [= <- _]. by rewrite Hf.
Qed.

Lemma UpdateBundleAge_hopCount c bp age bp' :
  wellTyped bp = true →
  UpdateBundleAge c bp = Done (age, bp') →
  hopCount bp' = hopCount bp.
Proof.
  intros Hwt. unfold UpdateBundleAge, hopCount.
  destruct (bundle.ExtensionBlock (Bundle bp) bundle.BundleAgeBlock)
    as [[i cb]|] eqn:Hf; [|by intros [= _ <-]].
  destruct (bundle.Data cb) eqn:Hd; try done. intros [= _ <-]. simpl.
  rewrite (ExtensionBlock_storeBlock _ _ _ _ _ _ Hf).
  destruct (bundle.ExtensionBlock (Bundle bp) bundle.HopCountBlock)
    as [[i' cb']|] eqn:Hf'; [|done].
  destruct (decide (i' = i)) as [->|]; [|done]. exfalso.
  destruct (wellTyped_ExtensionBlock _ _ _ _ Hwt Hf') as [Hcb' Hty'].
  apply ExtensionBlock_Some in Hf as [Hl _].
  apply ExtensionBlock_Some in Hf' as [Hl' _].
  assert (cb' = cb) as -> by congruence.
  unfold wellTypedBlock in Hcb'. rewrite Hty', N.eqb_refl, Hd in Hcb'. done.
Qed.

(** *** Status reports and deletion *)

Lemma bind_Done {A B} (f : A → Outcome B) (a : A) : (Done a ≫= f) = f a.
Proof. done. Qed.

Lemma returns_Done {A} (a : A) : returns (Done a).
Proof. by exists a. Qed.

Lemma silent_flags bp bp' : flags bp' = flags bp → silent bp → silent bp'.
Proof. unfold silent. by intros ->. Qed.

Section WithSendBundle.
Variable sendBundle : Core → bundle.Bundle → Outcome Core.

Lemma SendStatusReport_spec c bp status reason :
  reportsReturn sendBundle →
  ∃ c' carried,
    SendStatusReport sendBundle c bp status reason = Done c'
    ∧ trace c' =
        trace c ++ [EvStatusReport (bundleID bp) status reason carried].
Proof.
  intros Hret. unfold SendStatusReport.
  destruct (Hret (setTrace c []) c bp status reason) as [c1 ->].
  rewrite bind_Done. by eexists _, _.
Qed.

Lemma bundleDeletion_spec c bp reason :
  reportsReturn sendBundle
  ∨ bundle.Has (flags bp) bundle.StatusRequestDeletion = false →
  ∃ c',
    bundleDeletion sendBundle c bp reason = Done (c', PurgeConstraints bp)
    ∧ deletion_of c bp reason c'.
Proof.
  intros Hok. unfold bundleDeletion, deletion_of.
  destruct (bundle.Has (flags bp) bundle.StatusRequestDeletion) eqn:Hdel.
  - destruct Hok as [Hret|?]; [|done].
    destruct (SendStatusReport_spec c bp DeletedBundle reason Hret)
      as (c1 & carried & -> & Htr).
    rewrite bind_Done. eexists. split; [done|]. split.
    + simpl. apply lookup_insert_eq.
    + exists [EvStatusReport (bundleID bp) DeletedBundle reason carried].
      split; [|by eauto]. simpl. rewrite Htr. by rewrite <- !app_assoc.
  - rewrite bind_Done. eexists. split; [done|]. split.
    + simpl. apply lookup_insert_eq.
    + exists []. split; [|done]. simpl. by rewrite <- !app_assoc.
Qed.

Lemma reportsOk_flags bp bp' :
  flags bp' = flags bp → reportsOk sendBundle bp → reportsOk sendBundle bp'.
Proof. intros Hp [?|?]; [by left|right; by eapply silent_flags]. Qed.

Lemma reportsOk_deletion bp :
  reportsOk sendBundle bp →
  reportsReturn sendBundle
  ∨ bundle.Has (flags bp) bundle.StatusRequestDeletion = false.
Proof. intros [?|(_ & _ & ?)]; eauto. Qed.

(** *** The stages return on well-typed bundles *)

Lemma checkAdministrativeRecord_returns c bp :
  wellTyped bp = true → ∃ c' ok, checkAdministrativeRecord c bp = Done (c', ok).
Proof.
  intros Hwt. unfold checkAdministrativeRecord.
  destruct (negb _); [by eauto|].
  destruct (bundle.ExtensionBlock _ _) as [[i cb]|] eqn:Hf; [|by eauto].
  destruct (wellTyped_ExtensionBlock _ _ _ _ Hwt Hf) as [Hcb Hty].
  unfold wellTypedBlock in Hcb.
  apply andb_prop in Hcb as [_ Hcb]. rewrite Hty, N.eqb_refl in Hcb.
  destruct (bundle.Data cb); try done.
  destruct (NewAdministrativeRecordFromCbor bs); eauto.
Qed.

Lemma localDelivery_returns c bp :
  wellTyped bp = true → reportsOk sendBundle bp →
  ∃ c' bp',
    localDelivery sendBundle c bp = Done (c', bp') ∧ Bundle bp' = Bundle bp.
Proof.
  intros Hwt Hok. unfold localDelivery.
  assert (∃ c1 b,
    (if bundle.IsAdministrativeRecord (Bundle bp)
     then checkAdministrativeRecord (log (EvLocalDelivery (bundleID bp)) c) bp
     else mret (log (EvLocalDelivery (bundleID bp)) c, true)) = Done (c1, b))
    as (c1 & b & ->).
  { destruct (bundle.IsAdministrativeRecord _); [|by eauto].
    by apply checkAdministrativeRecord_returns. }
  rewrite bind_Done. destruct b; simpl.
  - destruct (bundle.Has (flags bp) bundle.StatusRequestDelivery) eqn:Hd.
    + destruct Hok as [Hret|(_ & Hs & _)]; [|congruence].
      edestruct SendStatusReport_spec as (c2 & carried & -> & _); [done|].
      rewrite bind_Done. eauto.
    + rewrite bind_Done. eauto.
  - edestruct bundleDeletion_spec as (c2 & -> & _); [|by eauto].
    by apply reportsOk_deletion.
Qed.

Lemma forward_returns c bp :
  wellTyped bp = true → reportsOk sendBundle bp →
  ∃ c' bp',
    forward sendBundle c bp = Done (c', bp')
    ∧ wellTyped bp' = true
    ∧ primary bp' = primary bp
    ∧ Timestamp bp' = Timestamp bp
    ∧ hopCount bp' = bundle.Increment <$> hopCount bp.
Proof.
  intros Hwt Hok. unfold forward.
  set (bp0 :=
         RemoveConstraint DispatchPending (AddConstraint ForwardPending bp)).
  set (c0 := Push _ bp0).
  destruct (forward_hopcount_wellTyped bp0 Hwt)
    as (bp1 & ex & Hh & Hwt1 & Hp1 & _ & Ht1).
  pose proof (forward_hopcount_hopCount _ _ _ Hh) as Hhc1.
  rewrite Hh, bind_Done.
  assert (reportsOk sendBundle bp1) as Hok1
    by (eapply reportsOk_flags; [|done]; unfold flags; by rewrite Hp1).
  assert (∀ c r, ∃ c',
    bundleDeletion sendBundle c bp1 r = Done (c', PurgeConstraints bp1))
    as Hdel1.
  { intros c1 r.
    edestruct (bundleDeletion_spec c1 bp1 r) as (c' & -> & _); [|by eauto].
    by apply reportsOk_deletion. }
  destruct ex.
  { destruct (Hdel1 c0 HopLimitExceeded) as [c' ->]. by eexists _, _. }
  destruct (IsLifetimeExceeded _ _).
  { destruct (Hdel1 c0 LifetimeExpired) as [c' ->]. by eexists _, _. }
  destruct (forward_age_wellTyped c0 bp1 Hwt1)
    as (bp2 & ex2 & Ha & Hwt2 & Hp2 & _ & Ht2).
  assert (hopCount bp2 = hopCount bp1) as Hhc2.
  { unfold forward_age in Ha.
    destruct (UpdateBundleAge c0 bp1) as [[age bpx]| |] eqn:Hu; try done.
    rewrite bind_Done in Ha.
    assert (bpx = bp2) as -> by (destruct age; by injection Ha).
    by eapply UpdateBundleAge_hopCount. }
  rewrite Ha, bind_Done.
  assert (reportsOk sendBundle bp2) as Hok2
    by (eapply reportsOk_flags; [|exact Hok1]; unfold flags; by rewrite Hp2).
  assert (primary bp2 = primary bp) as Hp by (by rewrite Hp2).
  assert (Timestamp bp2 = Timestamp bp) as Ht by (by rewrite Ht2).
  assert (hopCount bp2 = bundle.Increment <$> hopCount bp) as Hhc
    by (by rewrite Hhc2).
  clearbody c0. clear Ha Hh Hhc1 Hhc2 Hdel1 Hok1 Hp1 Hp2 Ht1 Ht2 Hwt1.
  destruct ex2.
  { edestruct (bundleDeletion_spec c0 bp2 LifetimeExpired) as (c' & -> & _);
      [by apply reportsOk_deletion|].
    by eexists _, _. }
  destruct (forward_nodes c0 bp2) as [[c3 nodes] del].
  destruct nodes as [|node nodes]; [by eexists _, _|].
  destruct (forward_fanout _ _ _) as [c4 sent].
  destruct sent; [|by eexists _, _].
  assert (∃ c5,
    (if bundle.Has (flags bp2) bundle.StatusRequestForward
     then SendStatusReport sendBundle c4 bp2 ForwardedBundle NoInformation
     else mret c4) = Done c5) as [c5 ->].
  { destruct (bundle.Has _ _) eqn:Hf; [|by eauto].
    destruct Hok2 as [Hret|(? & _)]; [|congruence].
    edestruct SendStatusReport_spec as (c5 & carried & -> & _); eauto. }
  rewrite bind_Done.
  destruct del; [by eexists _, _|].
  destruct (_ && _); [|by eexists _, _].
  simpl.
  edestruct checkAdministrativeRecord_returns as (c6 & b & ->);
    [|by eexists _, _].
  done.
Qed.

Lemma dispatching_returns c bp :
  wellTyped bp = true → reportsOk sendBundle bp →
  returns (dispatching sendBundle c bp).
Proof.
  intros Hwt Hok. unfold dispatching. destruct (HasEndpoint _ _).
  - destruct (localDelivery_returns (log (EvDispatching (bundleID bp)) c) bp)
      as (c' & bp' & -> & _); [done..|]. apply returns_Done.
  - destruct (forward_returns (log (EvDispatching (bundleID bp)) c) bp)
      as (c' & bp' & -> & _); [done..|]. apply returns_Done.
Qed.

Lemma idKeeper_update_spec c b :
  ∃ c' seq,
    idKeeper_update c b = (c', setSequence b seq)
    ∧ store c' = store c ∧ trace c' = trace c ∧ endpoints c' = endpoints c
    ∧ convergenceSenders c' = convergenceSenders c ∧ clock c' = clock c.
Proof.
  unfold idKeeper_update.
  assert (b = setSequence b
                (bundle.CreationTimestampOf (bundle.primaryBlock b)).2)
    as Hb by (by destruct b as [[? ? ? ? ? ? [? ?] ? ? ? ?] ?]).
  destruct (idKeeper c !! _) as [hi|].
  - destruct (_ <=? _)%N; [by eexists _, _|].
    eexists _, _. split; [by f_equal|done].
  - eexists _, _. split; [by f_equal|done].
Qed.

Lemma transmit_returns c bp :
  wellTyped bp = true → reportsOk sendBundle bp →
  returns (transmit sendBundle c bp).
Proof.
  intros Hwt Hok. unfold transmit.
  destruct (idKeeper_update_spec (log (EvTransmit (bundleID bp)) c) (Bundle bp))
    as (c1 & seq & -> & _).
  set (bp1 := AddConstraint DispatchPending _).
  assert (wellTyped bp1 = true) as Hwt1 by done.
  assert (reportsOk sendBundle bp1) as Hok1 by (by eapply reportsOk_flags).
  destruct (_ && _).
  - edestruct (bundleDeletion_spec (Push c1 bp1) bp1 NoInformation)
      as (c' & -> & _); [by apply reportsOk_deletion|]. apply returns_Done.
  - by apply dispatching_returns.
Qed.

End WithSendBundle.

(** *** Reports about reports *)

Lemma statusReportBundle_wellTyped `{!DistinctConstants} c c0 bp status reason :
  wellTyped (NewBundlePack c (statusReportBundle c0 bp status reason)) = true.
Proof.
  unfold wellTyped, wellTypedBlock. simpl.
  destruct (N.eqb_spec bundle.PayloadBlock bundle.HopCountBlock) as [Heq|_];
    [by apply payload_not_hopcount in Heq|].
  destruct (N.eqb_spec bundle.PayloadBlock bundle.BundleAgeBlock) as [Heq|_];
    [by apply payload_not_age in Heq|].
  by rewrite N.eqb_refl.
Qed.

Lemma statusReportBundle_silent `{!DistinctConstants} c c0 bp status reason :
  silent (NewBundlePack c (statusReportBundle c0 bp status reason)).
Proof.
  unfold silent, flags. simpl.
  by rewrite admin_not_forward, admin_not_delivery, admin_not_deletion.
Qed.

(** A report asks for no report of its own, so one level of recursion is
    enough: with positive fuel every report's run returns. *)
Lemma SendBundle_reportsReturn `{!DistinctConstants} fuel :
  reportsReturn (SendBundle (S fuel)).
Proof.
  intros c c0 bp status reason. simpl.
  destruct (transmit_returns (SendBundle fuel) c
              (NewBundlePack c (statusReportBundle c0 bp status reason)))
    as [[c' bp'] ->].
  - apply statusReportBundle_wellTyped.
  - right. apply statusReportBundle_silent.
  - apply returns_Done.
Qed.

(** *** The block walk of [receive] *)





(** The walk down to an index [m], with its reports. *)

Lemma withBlocks_same bp :
  withBlocks bp (bundle.CanonicalBlocks (Bundle bp)) = bp.
Proof. by destruct bp as [[] ? ?]. Qed.

Lemma receive_blocks_partial sendBundle m n c bp :
  reportsReturn sendBundle →
  m ≤ n → n ≤ length (bundle.CanonicalBlocks (Bundle bp)) →
  (∀ i cb, m ≤ i < n → bundle.CanonicalBlocks (Bundle bp) !! i = Some cb →
           deletes cb = false) →
  ∃ c1 reports,
    receive_blocks sendBundle n c bp
    = receive_blocks sendBundle m c1
        (withBlocks bp
           (take m (bundle.CanonicalBlocks (Bundle bp))
            ++ filter (λ cb, survives cb = true)
                 (drop m (take n (bundle.CanonicalBlocks (Bundle bp))))
            ++ drop n (bundle.CanonicalBlocks (Bundle bp))))
    ∧ trace c1 = trace c ++ reports
    ∧ Forall (blockReport (bundleID bp)) reports
    ∧ length reports
      = length (filter (λ cb, asksReport cb = true)
                  (drop m (take n (bundle.CanonicalBlocks (Bundle bp))))).
Proof.
  intros Hret. revert c bp.
  induction n as [|n IH]; intros c bp Hmn Hn Hdel.
  { assert (m = 0) as -> by lia. exists c, []. simpl.
    rewrite drop_0, withBlocks_same, app_nil_r. done. }
  remember (bundle.CanonicalBlocks (Bundle bp)) as cbs eqn:Hcbs.
  destruct (decide (m = S n)) as [->|Hne].
  { exists c, [].
    rewrite drop_ge by (rewrite length_take; lia).
    rewrite filter_nil. simpl app. rewrite take_drop, Hcbs, withBlocks_same.
    by rewrite app_nil_r. }
  assert (m ≤ n) as Hmn' by lia.
  destruct (lookup_lt_is_Some_2 cbs n) as [cb Hcb]; [lia|].
  assert (take (S n) cbs = take n cbs ++ [cb]) as Htake
    by (by apply take_S_r).
  assert (drop m (take (S n) cbs) = drop m (take n cbs) ++ [cb]) as Hmid.
  { rewrite Htake, drop_app_le; [done|]. rewrite length_take. lia. }
  assert (drop n cbs = cb :: drop (S n) cbs) as Hdrop
    by (by rewrite (drop_S _ _ _ Hcb)).
  assert (∀ i cb, m ≤ i < n → cbs !! i = Some cb → deletes cb = false) as Hdel'
    by (intros i cb' ?; apply Hdel; lia).
  assert (deletes cb = false) as Hdn by (apply (Hdel n); [lia|done]).
  simpl receive_blocks. rewrite <- Hcbs, Hcb, Hmid, !filter_app.
  unfold deletes in Hdn.
  destruct (isKnownBlockType (bundle.BlockType cb)) eqn:Hknown; simpl in Hdn.
  - destruct (IH c bp Hmn') as (c1 & reports & -> & Htr & Hrep & Hlen);
      [rewrite <- Hcbs; lia|by rewrite <- Hcbs|].
    exists c1, reports. rewrite <- Hcbs in *.
    rewrite filter_cons_True by (unfold survives; by rewrite Hknown).
    rewrite (filter_cons_False (λ cb, asksReport cb = true))
      by (unfold asksReport; by rewrite Hknown).
    rewrite !filter_nil, app_nil_r, Hdrop, <- !app_assoc.
    done.
  - assert (∃ c1 report,
      (if bundle.Has (bundle.BlockControlFlagsOf cb) bundle.StatusReportBlock
       then SendStatusReport sendBundle c bp ReceivedBundle BlockUnintelligible
       else mret c) = Done c1
      ∧ trace c1 = trace c ++ report
      ∧ Forall (blockReport (bundleID bp)) report
      ∧ length report = length (filter (λ cb, asksReport cb = true) [cb]))
      as (c1 & report & -> & Htr1 & Hrep1 & Hlen1).
    { rewrite filter_cons, filter_nil. unfold asksReport. rewrite Hknown.
      simpl negb. rewrite andb_true_l.
      destruct (bundle.Has _ bundle.StatusReportBlock).
      - edestruct SendStatusReport_spec as (c1 & carried & -> & Htr1);
          [done|].
        eexists _, _. split; [done|]. split; [done|].
        rewrite decide_True by done. split; [|done].
        constructor; [by eexists|done].
      - exists c, []. rewrite decide_False by done.
        by rewrite app_nil_r. }
    rewrite bind_Done, Hdn.
    destruct (bundle.Has _ bundle.RemoveBlock) eqn:Hrm.
    + destruct (IH c1 (removeBlock bp n) Hmn')
        as (c2 & reports & -> & Htr & Hrep & Hlen).
      * simpl. rewrite <- Hcbs, length_app, length_take, length_drop. lia.
      * simpl. rewrite <- Hcbs. intros i cb' Hi Hl. apply (Hdel' i cb' Hi).
        rewrite lookup_app_l in Hl by (rewrite length_take; lia).
        by rewrite lookup_take_lt in Hl by lia.
      * exists c2, (report ++ reports). simpl in *. rewrite <- Hcbs in *.
        rewrite (take_app_length' (take n cbs) _ n) in Hlen
          by (rewrite length_take; lia).
        rewrite (take_app_length' (take n cbs) _ n)
          by (rewrite length_take; lia).
        rewrite drop_app_length' by (rewrite length_take; lia).
        rewrite (take_app_le (take n cbs) _ m) by (rewrite length_take; lia).
        rewrite take_take, Nat.min_l by lia.
        rewrite filter_cons_False
          by (unfold survives; by rewrite Hknown, Hrm).
        rewrite filter_nil, app_nil_r.
        split; [done|]. split; [by rewrite Htr, Htr1, app_assoc|].
        split; [by apply Forall_app|].
        rewrite !length_app, Hlen, Hlen1. lia.
    + destruct (IH c1 bp Hmn') as (c2 & reports & -> & Htr & Hrep & Hlen);
        [rewrite <- Hcbs; lia|by rewrite <- Hcbs|].
      exists c2, (report ++ reports). rewrite <- Hcbs in *.
      rewrite filter_cons_True by (unfold survives; by rewrite Hknown, Hrm).
      rewrite filter_nil, Hdrop, <- !app_assoc.
      split; [done|]. split; [by rewrite Htr, Htr1, app_assoc|].
      split; [by apply Forall_app|].
      rewrite !length_app, Hlen, Hlen1. lia.
Qed.

(** *** Deletion consults no sender *)

Lemma since_app c c' tr : trace c' = trace c ++ tr → since c c' = tr.
Proof. unfold since. intros ->. by rewrite drop_app_length. Qed.


(** *** The fan-out *)

Lemma forward_send_spec node bp c sent :
  ∃ c',
    forward_send node bp (c, sent) = (c', sent || sendSucceeds bp node)
    ∧ trace c' = trace c ++ sendEvents bp node
    ∧ store c' = store c
    ∧ convergenceSenders c' =
        (if sendSucceeds bp node then convergenceSenders c
         else restarted (convergenceSenders c) node).
Proof.
  unfold forward_send, sendEvents, sendSucceeds.
  destruct (Send node (Bundle bp)) as [err|]; eexists; simpl.
  - rewrite orb_false_r. split; [done|]. split; [|done].
    simpl. by rewrite <- !app_assoc.
  - by rewrite orb_true_r.
Qed.

Lemma forward_fanout_spec nodes bp c sent :
  ∃ c',
    forward_fanout nodes bp (c, sent)
    = (c', sent || existsb (sendSucceeds bp) nodes)
    ∧ trace c' = trace c ++ concat (sendEvents bp <$> nodes)
    ∧ store c' = store c
    ∧ convergenceSenders c' =
        foldl (λ l node,
                 if sendSucceeds bp node then l else restarted l node)
              (convergenceSenders c) nodes.
Proof.
  revert c sent. induction nodes as [|node nodes IH]; intros c sent.
  - exists c. simpl. by rewrite orb_false_r, app_nil_r.
  - change (forward_fanout (node :: nodes) bp (c, sent))
      with (forward_fanout nodes bp (forward_send node bp (c, sent))).
    destruct (forward_send_spec node bp c sent) as (c1 & -> & Htr & Hst & Hcs).
    destruct (IH c1 (sent || sendSucceeds bp node))
      as (c' & -> & Htr' & Hst' & Hcs').
    exists c'. simpl. rewrite orb_assoc. split; [done|].
    rewrite Htr', Htr, Hst', Hst, Hcs', Hcs, <- app_assoc. done.
Qed.

Lemma bundleContraindicated_spec c bp :
  ∃ c',
    bundleContraindicated c bp = (c', AddConstraint Contraindicated bp)
    ∧ trace c' =
        trace c
        ++ [EvContraindicated (bundleID bp);
            EvPush (bundleID bp)
              (Constraints (AddConstraint Contraindicated bp))]
    ∧ store c' !! bundleID bp = Some (AddConstraint Contraindicated bp)
    ∧ convergenceSenders c' = convergenceSenders c.
Proof.
  eexists. split; [done|]. simpl. split; [by rewrite <- app_assoc|].
  split; [apply lookup_insert_eq|done].
Qed.

(** *** The checks of [forward] leave the primary block alone *)

Lemma forward_hopcount_primary bp bp' exceeded :
  forward_hopcount bp = Done (bp', exceeded) →
  primary bp' = primary bp ∧ Constraints bp' = Constraints bp.
Proof.
  unfold forward_hopcount.
  destruct (bundle.ExtensionBlock _ _) as [[i cb]|]; [|by intros [= <- _]].
  destruct (bundle.Data cb); try done. by intros [= <- _].
Qed.

Lemma forward_age_primary c bp bp' expired :
  forward_age c bp = Done (bp', expired) →
  primary bp' = primary bp ∧ Constraints bp' = Constraints bp.
Proof.
  unfold forward_age, UpdateBundleAge.
  destruct (bundle.ExtensionBlock _ _) as [[i cb]|]; [|by intros [= <- _]].
  destruct (bundle.Data cb); try done. by intros [= <- _].
Qed.

(** *** Status reports in the store *)

Lemma inspect_sips_none sips c bp :
  DeliveredBundle ∉ sips → inspect_sips sips c bp = (c, bp).
Proof.
  revert c bp. induction sips as [|sip sips IH]; intros c bp Hnot; [done|].
  apply not_elem_of_cons in Hnot as [Hne Hnot].
  destruct sip; simpl; try by apply IH. done.
Qed.

Lemma inspect_sips_store sips c bp :
  DeliveredBundle ∈ sips →
  store (inspect_sips sips c bp).1
  = <[bundleID bp := PurgeConstraints bp]> (store c).
Proof.
  revert c bp. induction sips as [|sip sips IH]; intros c bp Hin.
  { by apply elem_of_nil in Hin. }
  assert (∀ c, store (inspect_sips sips (Push c (PurgeConstraints bp))
                        (PurgeConstraints bp)).1
               = <[bundleID bp := PurgeConstraints bp]> (store c)) as Hpush.
  { intros c1. destruct (decide (DeliveredBundle ∈ sips)) as [Hin'|Hnot].
    - rewrite (IH _ _ Hin'). simpl. apply insert_insert_eq.
    - by rewrite (inspect_sips_none _ _ _ Hnot). }
  apply elem_of_cons in Hin as [<-|Hin]; [apply Hpush|].
  destruct sip; simpl; try by apply IH. apply Hpush.
Qed.

(** *** The store forgets nothing *)

Lemma storeKeeps_refl c : storeKeeps c c.
Proof. by intros i. Qed.

Lemma storeKeeps_trans c1 c2 c3 :
  storeKeeps c1 c2 → storeKeeps c2 c3 → storeKeeps c1 c3.
Proof. intros H12 H23 i Hi. by apply H23, H12. Qed.

Lemma storeKeeps_store c c' : store c' = store c → storeKeeps c c'.
Proof. intros Hst i. by rewrite Hst. Qed.

Lemma storeKeeps_Push c bp : storeKeeps c (Push c bp).
Proof.
  intros i Hi. simpl. destruct (decide (i = bundleID bp)) as [->|Hne].
  - rewrite lookup_insert_eq. eauto.
  - by rewrite lookup_insert_ne.
Qed.

Lemma bind_Done_inv {A B} (m : Outcome A) (f : A → Outcome B) b :
  m ≫= f = Done b → ∃ a, m = Done a ∧ f a = Done b.
Proof. destruct m; [eauto|done..]. Qed.

Section Keeping.
Variable sendBundle : Core → bundle.Bundle → Outcome Core.
Hypothesis Hkeep : reportsKeep sendBundle.

Lemma SendStatusReport_keeps c bp status reason c' :
  SendStatusReport sendBundle c bp status reason = Done c' → storeKeeps c c'.
Proof.
  unfold SendStatusReport. intros (c1 & Hs & [= <-])%bind_Done_inv.
  apply Hkeep in Hs. exact Hs.
Qed.

Lemma report_if_keeps (b : bool) c bp status reason c' :
  (if b then SendStatusReport sendBundle c bp status reason else mret c)
  = Done c' →
  storeKeeps c c'.
Proof.
  destruct b; [apply SendStatusReport_keeps|].
  intros [= <-]. apply storeKeeps_refl.
Qed.

Lemma bundleDeletion_keeps c bp reason c' bp' :
  bundleDeletion sendBundle c bp reason = Done (c', bp') → storeKeeps c c'.
Proof.
  unfold bundleDeletion. intros (c1 & Hs & [= <- _])%bind_Done_inv.
  apply report_if_keeps in Hs.
  eapply storeKeeps_trans; [exact Hs|]. apply (storeKeeps_Push c1).
Qed.

Lemma bundleContraindicated_keeps c bp :
  storeKeeps c (bundleContraindicated c bp).1.
Proof. apply (storeKeeps_Push (log _ c)). Qed.

Lemma inspect_sips_keeps sips c bp : storeKeeps c (inspect_sips sips c bp).1.
Proof.
  revert c bp. induction sips as [|sip sips IH]; intros c bp;
    [apply storeKeeps_refl|].
  destruct sip; simpl; try apply IH.
  eapply storeKeeps_trans; [apply storeKeeps_Push|apply IH].
Qed.

Lemma inspectStatusReport_keeps c ar : storeKeeps c (inspectStatusReport c ar).
Proof.
  unfold inspectStatusReport.
  destruct (StatusInformations _); [apply storeKeeps_refl|].
  destruct (QueryFromStatusReport _ _) as [|bp [|]]; try apply storeKeeps_refl.
  apply inspect_sips_keeps.
Qed.

Lemma checkAdministrativeRecord_keeps c bp c' ok :
  checkAdministrativeRecord c bp = Done (c', ok) → storeKeeps c c'.
Proof.
  unfold checkAdministrativeRecord.
  destruct (negb _); [intros [= <- _]; apply storeKeeps_refl|].
  destruct (bundle.ExtensionBlock _ _) as [[i cb]|];
    [|intros [= <- _]; apply storeKeeps_refl].
  destruct (bundle.Data cb); try done.
  destruct (NewAdministrativeRecordFromCbor _); intros [= <- _];
    [apply inspectStatusReport_keeps|apply storeKeeps_refl].
Qed.

Lemma deliver_agents_store agents c bp :
  store (deliver_agents agents c bp) = store c.
Proof.
  revert c. induction agents as [|a agents IH]; intros c; [done|].
  simpl. destruct (bool_decide _); by rewrite IH.
Qed.

Lemma localDelivery_keeps c bp c' bp' :
  localDelivery sendBundle c bp = Done (c', bp') → storeKeeps c c'.
Proof.
  unfold localDelivery. intros ([c1 ok] & Hc & Hrest)%bind_Done_inv.
  assert (storeKeeps c c1) as H1.
  { destruct (bundle.IsAdministrativeRecord _).
    - apply checkAdministrativeRecord_keeps in Hc. exact Hc.
    - injection Hc as <- _. by apply storeKeeps_store. }
  eapply storeKeeps_trans; [exact H1|].
  destruct ok; simpl in Hrest.
  - apply bind_Done_inv in Hrest as (c2 & Hs & [= <- _]).
    apply report_if_keeps in Hs.
    eapply storeKeeps_trans; [|apply storeKeeps_Push].
    eapply storeKeeps_trans; [|exact Hs].
    apply storeKeeps_store. simpl. apply deliver_agents_store.
  - by apply bundleDeletion_keeps in Hrest.
Qed.

Lemma forward_nodes_store c bp : store (forward_nodes c bp).1.1 = store c.
Proof.
  unfold forward_nodes. destruct (senderForDestination _ _); [|done].
  by destruct (SenderForBundle _ _).
Qed.

Lemma forward_keeps c bp c' bp' :
  forward sendBundle c bp = Done (c', bp') → storeKeeps c c'.
Proof.
  unfold forward.
  set (bp0 :=
         RemoveConstraint DispatchPending (AddConstraint ForwardPending bp)).
  set (c0 := Push _ bp0).
  assert (storeKeeps c c0) as Hc0 by apply (storeKeeps_Push (log _ c)).
  intros ([bp1 ex] & _ & Hrest)%bind_Done_inv.
  eapply storeKeeps_trans; [exact Hc0|]. clearbody c0. clear Hc0.
  destruct ex; [by apply bundleDeletion_keeps in Hrest|].
  destruct (IsLifetimeExceeded _ _); [by apply bundleDeletion_keeps in Hrest|].
  apply bind_Done_inv in Hrest as ([bp2 ex2] & _ & Hrest).
  destruct ex2; [by apply bundleDeletion_keeps in Hrest|].
  pose proof (forward_nodes_store c0 bp2) as Hn.
  destruct (forward_nodes c0 bp2) as [[c3 nodes] del]. simpl in Hn.
  eapply storeKeeps_trans; [apply storeKeeps_store; exact Hn|].
  destruct nodes as [|node nodes].
  { injection Hrest as <- _. apply bundleContraindicated_keeps. }
  destruct (forward_fanout_spec (node :: nodes) bp2 c3 false)
    as (c4 & Hf & _ & Hst & _).
  rewrite Hf in Hrest.
  eapply storeKeeps_trans; [apply storeKeeps_store; exact Hst|].
  destruct (_ || _).
  - apply bind_Done_inv in Hrest as (c5 & Hs & Hrest).
    apply report_if_keeps in Hs.
    eapply storeKeeps_trans; [exact Hs|].
    destruct del.
    + injection Hrest as <- _. apply storeKeeps_Push.
    + destruct (_ && _).
      * pose proof (bundleContraindicated_keeps c5 bp2) as Hc.
        destruct (bundleContraindicated c5 bp2) as [c6 bp6]. simpl in Hc.
        apply bind_Done_inv in Hrest as ([c7 b] & Hck & [= <- _]).
        apply checkAdministrativeRecord_keeps in Hck.
        by eapply storeKeeps_trans.
      * injection Hrest as <- _. apply storeKeeps_refl.
  - injection Hrest as <- _. apply bundleContraindicated_keeps.
Qed.

Lemma dispatching_keeps c bp c' bp' :
  dispatching sendBundle c bp = Done (c', bp') → storeKeeps c c'.
Proof.
  unfold dispatching. destruct (HasEndpoint _ _); intros Hd.
  - apply localDelivery_keeps in Hd. exact Hd.
  - apply forward_keeps in Hd. exact Hd.
Qed.

Lemma transmit_keeps c bp c' bp' :
  transmit sendBundle c bp = Done (c', bp') → storeKeeps c c'.
Proof.
  unfold transmit.
  destruct (idKeeper_update_spec (log (EvTransmit (bundleID bp)) c) (Bundle bp))
    as (ck & seq & -> & Hst & _).
  intros Hrest.
  eapply storeKeeps_trans; [apply storeKeeps_store; exact Hst|].
  eapply storeKeeps_trans; [apply storeKeeps_Push|].
  destruct (_ && _).
  - apply bundleDeletion_keeps in Hrest. exact Hrest.
  - apply dispatching_keeps in Hrest. exact Hrest.
Qed.

Lemma receive_blocks_keeps n c bp c' bp' deleted :
  receive_blocks sendBundle n c bp = Done (c', bp', deleted) → storeKeeps c c'.
Proof.
  revert c bp. induction n as [|n IH]; intros c bp; simpl.
  { intros [= <- _ _]. apply storeKeeps_refl. }
  destruct (_ !! n) as [cb|]; [|done].
  destruct (isKnownBlockType _); [apply IH|].
  intros (c1 & Hs & Hrest)%bind_Done_inv.
  apply report_if_keeps in Hs.
  eapply storeKeeps_trans; [exact Hs|].
  destruct (bundle.Has _ bundle.DeleteBundle).
  - apply bind_Done_inv in Hrest as ([c2 bp2] & Hd & [= <- _ _]).
    by apply bundleDeletion_keeps in Hd.
  - destruct (bundle.Has _ bundle.RemoveBlock); by apply IH in Hrest.
Qed.

Lemma receive_knows c bp c' bp' :
  receive sendBundle c bp = Done (c', bp') →
  is_Some (store c' !! bundleID bp).
Proof.
  unfold receive. simpl.
  destruct (KnowsBundle (store c) bp) eqn:Hk.
  { intros [= <- _]. simpl. by apply bool_decide_eq_true_1 in Hk. }
  set (bp1 := AddConstraint DispatchPending bp).
  set (c1 := Push _ bp1).
  assert (is_Some (store c1 !! bundleID bp)) as H1.
  { simpl. rewrite lookup_insert_eq. eauto. }
  intros (c2 & Hs & Hrest)%bind_Done_inv.
  apply report_if_keeps in Hs.
  apply bind_Done_inv in Hrest as ([[c3 bp3] del] & Hw & Hrest).
  apply receive_blocks_keeps in Hw.
  destruct del.
  - injection Hrest as <- _. by apply Hw, Hs.
  - apply dispatching_keeps in Hrest. by apply Hrest, Hw, Hs.
Qed.

End Keeping.

Lemma SendBundle_keeps fuel : reportsKeep (SendBundle fuel).
Proof.
  induction fuel as [|fuel IH]; intros c b c'; simpl; [done|].
  intros ([c1 bp1] & Ht & [= <-])%bind_Done_inv.
  by apply transmit_keeps in Ht.
Qed.

End Facts.

(** ** The forward stage *)

Section Forward.
Context `{!bundle.Constants} `{!Collaborators} `{!DistinctConstants}.


(** C2.  Every pass through [forward] of a bundle with a hop-count block
    returns, and increments the count held in the bundle's hop-count block by
    exactly one, before the limit is checked against the incremented count
    and whatever the outcome of the pass; so after the n-th pass the block
    holds the initial count plus n. *)
Theorem forward_counts_hops (fuel : nat) (bp : BundlePack)
    (hc : bundle.HopCount) :
  let sendBundle := SendBundle (S fuel) in
  wellTyped bp = true →
  hopCount bp = Some hc →
  ∀ n bp',
    forwarded sendBundle n bp bp' →
    hopCount bp' =
      Some {| bundle.Limit := bundle.Limit hc;
              bundle.Count := (bundle.Count hc + N.of_nat n)%N |}
    ∧ (∀ c, ∃ c' bp'',
         forward sendBundle c bp' = Done (c', bp'')
         ∧ hopCount bp'' =
             Some {| bundle.Limit := bundle.Limit hc;
                     bundle.Count := (bundle.Count hc + N.of_nat n + 1)%N |})
    ∧ (∃ bp1,
         forward_hopcount bp' =
           Done (bp1,
                 (bundle.Limit hc <? bundle.Count hc + N.of_nat n + 1)%N)).
Proof.
  intros sendBundle Hwt Hhc.
  pose proof (SendBundle_reportsReturn fuel) as Hret.
  assert (∀ n bp', forwarded sendBundle n bp bp' →
    wellTyped bp' = true
    ∧ hopCount bp' =
        Some {| bundle.Limit := bundle.Limit hc;
                bundle.Count := (bundle.Count hc + N.of_nat n)%N |}) as Hinv.
  { induction 1 as [bp|n bp bp' c c' bp'' _ IH Hfw].
    - split; [done|]. rewrite Hhc, N.add_0_r. by destruct hc.
    - destruct (IH Hwt Hhc) as [Hwt' Hhc'].
      destruct (forward_returns sendBundle c bp' Hwt')
        as (c2 & bp2 & Hfw2 & Hwt2 & _ & _ & Hhc2); [by left|].
      rewrite Hfw in Hfw2. injection Hfw2 as <- <-.
      split; [done|]. rewrite Hhc2, Hhc'. simpl. unfold bundle.Increment.
      simpl. do 2 f_equal. lia. }
  intros n bp' Hfwd. destruct (Hinv n bp' Hfwd) as [Hwt' Hhc'].
  split; [done|]. split.
  - intros c.
    destruct (forward_returns sendBundle c bp' Hwt')
      as (c2 & bp2 & Hfw2 & _ & _ & _ & Hhc2); [by left|].
    exists c2, bp2. split; [done|]. by rewrite Hhc2, Hhc'.
  - unfold hopCount in Hhc'. unfold forward_hopcount.
    destruct (bundle.ExtensionBlock _ _) as [[i cb]|]; [|done].
    destruct (bundle.Data cb); try done. injection Hhc' as ->.
    eexists. done.
Qed.

End Forward.

(** ** The fan-out of [forward] *)

Section FanOut.
Context `{!bundle.Constants} `{!Collaborators}.

(** C5, as the code has it.  When a send fails in the fan-out, the sender is
    closed, taken out of the registry and registered again, in this order,
    and the sender registered again is the one whose send failed, not another
    instance.  When every candidate fails, in particular when the one
    candidate fails, the stage returns with [Contraindicated] among the
    pack's constraints, and that pack is what the store holds. *)
Theorem forward_restarts_failed_sender
    (sendBundle : Core → bundle.Bundle → Outcome Core)
    (c : Core) (bp : BundlePack) :
  let bp0 :=
    RemoveConstraint DispatchPending (AddConstraint ForwardPending bp) in
  let c0 := Push (log (EvForward (bundleID bp)) c) bp0 in
  (∀ node c sent,
     sendSucceeds bp node = false →
     ∃ c',
       forward_send node bp (c, sent) = (c', sent)
       ∧ since c c' =
           [EvSend (senderId node) (bundleID bp);
            EvClose (senderId node);
            EvRemoveConvergenceSender (senderId node);
            EvRegisterConvergenceSender (senderId node) (Address node)]
       ∧ convergenceSenders c' = restarted (convergenceSenders c) node
       ∧ node ∈ convergenceSenders c')
  ∧ (∀ bp1 bp2 c1 nodes deleteAfterwards,
       forward_hopcount bp0 = Done (bp1, false) →
       IsLifetimeExceeded (primary bp1) (clock c0) = false →
       forward_age c0 bp1 = Done (bp2, false) →
       forward_nodes c0 bp2 = (c1, nodes, deleteAfterwards) →
       (∀ node, node ∈ nodes → sendSucceeds bp2 node = false) →
       ∃ c',
         forward sendBundle c bp = Done (c', AddConstraint Contraindicated bp2)
         ∧ Contraindicated ∈ Constraints (AddConstraint Contraindicated bp2)
         ∧ store c' !! bundleID bp2 = Some (AddConstraint Contraindicated bp2)
         ∧ since c1 c' =
             concat (sendEvents bp2 <$> nodes)
             ++ [EvContraindicated (bundleID bp2);
                 EvPush (bundleID bp2)
                   (Constraints (AddConstraint Contraindicated bp2))]).
Proof.
  intros bp0 c0. split.
  - intros node c1 sent Hfail.
    destruct (forward_send_spec node bp c1 sent) as (c' & Hs & Htr & _ & Hcs).
    rewrite Hfail in Hs, Hcs. rewrite orb_false_r in Hs.
    exists c'. split; [done|]. split.
    + apply since_app. rewrite Htr. unfold sendEvents.
      unfold sendSucceeds in Hfail.
      by destruct (Send node (Bundle bp)).
    + split; [done|]. rewrite Hcs. unfold restarted.
      set_solver.
  - intros bp1 bp2 c1 nodes del Hh Hlife Hage Hnodes Hfail.
    assert (existsb (sendSucceeds bp2) nodes = false) as Hex.
    { apply not_true_is_false. intros (node & Hin & Hs)%existsb_exists.
      apply list_elem_of_In in Hin. by rewrite (Hfail node Hin) in Hs. }
    unfold forward. fold bp0 c0.
    rewrite Hh, bind_Done, Hlife, Hage, bind_Done, Hnodes.
    destruct nodes as [|node nodes].
    + destruct (bundleContraindicated_spec c1 bp2) as (c' & -> & Htr & Hst & _).
      exists c'. split; [done|]. split; [set_solver|]. split; [done|].
      by apply since_app.
    + destruct (forward_fanout_spec (node :: nodes) bp2 c1 false)
        as (c4 & -> & Htr & _).
      rewrite Hex. simpl orb. cbv iota.
      destruct (bundleContraindicated_spec c4 bp2)
        as (c' & -> & Htr' & Hst & _).
      exists c'. split; [done|]. split; [set_solver|]. split; [done|].
      apply since_app. by rewrite Htr', Htr, <- app_assoc.
Qed.

(** C6.  When [forward] gets past its checks and the direct-delivery lookup
    for the destination yields senders, these are the candidates and
    [deleteAfterwards] is true, and the routing algorithm is not consulted.
    If then at least one send succeeds, the stage returns the pack with its
    constraints purged, and the last thing it does is to push that pack, which
    is what the store then holds; a send goes to every candidate. *)
Theorem forward_direct_delivery `{!DistinctConstants} (fuel : nat) (c : Core)
    (bp : BundlePack) :
  let sendBundle := SendBundle (S fuel) in
  let bp0 :=
    RemoveConstraint DispatchPending (AddConstraint ForwardPending bp) in
  let c0 := Push (log (EvForward (bundleID bp)) c) bp0 in
  let dst := bundle.Destination (primary bp) in
  ∀ bp1 bp2 nodes,
    forward_hopcount bp0 = Done (bp1, false) →
    IsLifetimeExceeded (primary bp1) (clock c0) = false →
    forward_age c0 bp1 = Done (bp2, false) →
    senderForDestination c dst = nodes →
    nodes ≠ [] →
    forward_nodes c0 bp2 = (log (EvSenderForDestination dst) c0, nodes, true)
    ∧ (existsb (sendSucceeds bp2) nodes = true →
       ∃ c' report,
         forward sendBundle c bp = Done (c', PurgeConstraints bp2)
         ∧ Constraints (PurgeConstraints bp2) = ∅
         ∧ store c' !! bundleID bp = Some (PurgeConstraints bp2)
         ∧ since c c' =
             [EvForward (bundleID bp); EvPush (bundleID bp) (Constraints bp0);
              EvSenderForDestination dst]
             ++ concat (sendEvents bp2 <$> nodes)
             ++ report ++ [EvPush (bundleID bp) ∅]
         ∧ (if bundle.Has (flags bp) bundle.StatusRequestForward
            then ∃ carried,
                   report =
                     [EvStatusReport (bundleID bp) ForwardedBundle
                        NoInformation carried]
            else report = [])
         ∧ Forall (λ e, consultsRouting e = false) (since c c')).
Proof.
  intros sendBundle bp0 c0 dst bp1 bp2 nodes Hh Hlife Hage Hdirect Hne.
  pose proof (SendBundle_reportsReturn fuel) as Hret.
  destruct (forward_hopcount_primary _ _ _ Hh) as [Hp1 _].
  destruct (forward_age_primary _ _ _ _ Hage) as [Hp2 _].
  assert (primary bp2 = primary bp) as Hp by (by rewrite Hp2, Hp1).
  assert (bundleID bp2 = bundleID bp) as Hid by (by apply bundleID_primary).
  assert (flags bp2 = flags bp) as Hfl by (unfold flags; by rewrite Hp).
  assert (forward_nodes c0 bp2
          = (log (EvSenderForDestination dst) c0, nodes, true)) as Hnodes.
  { unfold forward_nodes. rewrite Hp. fold dst.
    change (senderForDestination (log (EvSenderForDestination dst) c0) dst)
      with (senderForDestination c dst).
    rewrite Hdirect. by destruct nodes. }
  split; [done|]. intros Hsent.
  unfold forward. fold bp0 c0.
  rewrite Hh, bind_Done, Hlife, Hage, bind_Done, Hnodes.
  destruct nodes as [|node nodes]; [done|].
  destruct (forward_fanout_spec (node :: nodes) bp2
              (log (EvSenderForDestination dst) c0) false)
    as (c4 & -> & Htr & _).
  rewrite Hsent. simpl orb. cbv iota.
  assert (trace c4 = trace c ++
    [EvForward (bundleID bp); EvPush (bundleID bp) (Constraints bp0);
     EvSenderForDestination dst]
    ++ concat (sendEvents bp2 <$> node :: nodes)) as Htr4.
  { rewrite Htr. simpl trace. by rewrite <- !app_assoc. }
  assert (Forall (λ e, consultsRouting e = false)
            (concat (sendEvents bp2 <$> node :: nodes))) as Hfan.
  { apply Forall_concat, Forall_fmap, Forall_forall. intros x _.
    unfold sendEvents, compose.
    destruct (Send x (Bundle bp2)); by repeat constructor. }
  rewrite Hfl.
  destruct (bundle.Has (flags bp) bundle.StatusRequestForward) eqn:Hfw.
  - destruct (SendStatusReport_spec sendBundle c4 bp2 ForwardedBundle
                NoInformation Hret) as (c5 & carried & -> & Htr5).
    rewrite bind_Done. cbv iota.
    eexists _,
      [EvStatusReport (bundleID bp) ForwardedBundle NoInformation carried].
    split; [done|]. split; [done|]. split.
    { rewrite <- Hid. simpl. apply lookup_insert_eq. }
    assert (since c (Push c5 (PurgeConstraints bp2)) =
      [EvForward (bundleID bp); EvPush (bundleID bp) (Constraints bp0);
       EvSenderForDestination dst]
      ++ concat (sendEvents bp2 <$> node :: nodes)
      ++ [EvStatusReport (bundleID bp) ForwardedBundle NoInformation carried]
      ++ [EvPush (bundleID bp) ∅]) as Hsince.
    { apply since_app. simpl trace. rewrite Htr5, Htr4, Hid.
      change (bundleID (PurgeConstraints bp2)) with (bundleID bp2).
      by rewrite Hid, <- !app_assoc. }
    split; [done|]. split; [by eauto|]. rewrite Hsince.
    rewrite !Forall_app. repeat split; try done; by repeat constructor.
  - rewrite bind_Done. cbv iota.
    eexists _, [].
    split; [done|]. split; [done|]. split.
    { rewrite <- Hid. simpl. apply lookup_insert_eq. }
    assert (since c (Push c4 (PurgeConstraints bp2)) =
      [EvForward (bundleID bp); EvPush (bundleID bp) (Constraints bp0);
       EvSenderForDestination dst]
      ++ concat (sendEvents bp2 <$> node :: nodes)
      ++ [] ++ [EvPush (bundleID bp) ∅]) as Hsince.
    { apply since_app. simpl trace. rewrite Htr4.
      change (bundleID (PurgeConstraints bp2)) with (bundleID bp2).
      by rewrite Hid, <- !app_assoc. }
    split; [done|]. split; [done|]. rewrite Hsince.
    rewrite !Forall_app. repeat split; try done; by repeat constructor.
Qed.

End FanOut.

(** ** The receive entry *)

Section Receive.
Context `{!bundle.Constants} `{!Collaborators}.

(** C3.  When the store already knows the identity of the bundle handed to
    [receive], the call returns at once: the pack gets no constraint, nothing
    is pushed, no deletion is entered, and the node is left as it was but for
    the log line of the entry; in particular the store is the same. *)
Theorem receive_known_is_dropped
    (sendBundle : Core → bundle.Bundle → Outcome Core)
    (c : Core) (bp : BundlePack) :
  KnowsBundle (store c) bp = true →
  receive sendBundle c bp = Done (log (EvReceive (bundleID bp)) c, bp)
  ∧ store (log (EvReceive (bundleID bp)) c) = store c
  ∧ since c (log (EvReceive (bundleID bp)) c) = [EvReceive (bundleID bp)].
Proof.
  intros Hknown. unfold receive. simpl. rewrite Hknown.
  split; [done|]. split; [done|].
  by apply since_app.
Qed.

(** X10.  A second [receive] of a bundle with the identity of the first
    finds the identity in the store, whatever way the first call took, and is
    dropped: the store after the second call is the store after the
    first. *)
Lemma receive_twice (fuel : nat) (c c1 : Core) (bp bp1 bp' : BundlePack) :
  receive (SendBundle fuel) c bp = Done (c1, bp1) →
  bundleID bp' = bundleID bp →
  receive (SendBundle fuel) c1 bp'
  = Done (log (EvReceive (bundleID bp')) c1, bp')
  ∧ store (log (EvReceive (bundleID bp')) c1) = store c1.
Proof.
  intros Hfirst Hid.
  pose proof (receive_knows (SendBundle fuel) (SendBundle_keeps fuel)
                c bp c1 bp1 Hfirst) as Hknows.
  split; [|done]. unfold receive. simpl.
  unfold KnowsBundle. rewrite Hid.
  by rewrite bool_decide_eq_true_2.
Qed.


End Receive.

(** ** Administrative records *)

Section Administrative.
Context `{!bundle.Constants} `{!Collaborators}.

(** C7.  [inspectStatusReport] leaves the node as it is when the store query
    for the subject yields no pack or more than one.  When it yields exactly
    one pack, each status information other than [DeliveredBundle] is passed
    over, and [DeliveredBundle] purges the constraints of that pack and
    pushes it: without [DeliveredBundle] among the status informations the
    node is left as it is, and with it the store is the former store with the
    purged subject pack pushed. *)
Theorem inspectStatusReport_changes (c : Core) (ar : AdministrativeRecord) :
  let status := Content ar in
  let sips := StatusInformations status in
  let bps := QueryFromStatusReport (store c) status in
  (length bps ≠ 1 → inspectStatusReport c ar = c)
  ∧ (∀ bp,
       bps = [bp] →
       (DeliveredBundle ∉ sips → inspectStatusReport c ar = c)
       ∧ (DeliveredBundle ∈ sips →
          store (inspectStatusReport c ar)
          = <[bundleID bp := PurgeConstraints bp]> (store c)
          ∧ Constraints (PurgeConstraints bp) = ∅))
  ∧ (∀ sip rest c bp,
       sip ≠ DeliveredBundle →
       inspect_sips (sip :: rest) c bp = inspect_sips rest c bp)
  ∧ (∀ rest c bp,
       inspect_sips (DeliveredBundle :: rest) c bp
       = inspect_sips rest (Push c (PurgeConstraints bp))
           (PurgeConstraints bp)).
Proof.
  intros status sips bps. split; [|split; [|split]].
  - intros Hlen. unfold inspectStatusReport. fold status sips bps.
    destruct sips; [done|].
    destruct bps as [|bp [|bp' rest]]; done.
  - intros bp Hbps. unfold inspectStatusReport. fold status sips bps.
    rewrite Hbps. split.
    + intros Hnot. rewrite (inspect_sips_none _ _ _ Hnot). by destruct sips.
    + intros Hin. split; [|done].
      destruct sips as [|sip rest] eqn:Hs; [by apply elem_of_nil in Hin|].
      by apply inspect_sips_store.
  - intros sip rest c1 bp Hne. by destruct sip.
  - done.
Qed.

End Administrative.

(** ** Deletion at the entry and at local delivery *)

Section Deletion.
Context `{!bundle.Constants} `{!Collaborators} `{!DistinctConstants}.

(** C8.  A bundle handed to [transmit] whose source is neither [dtn:none] nor
    an endpoint of the node is deleted with reason [NoInformation]: after the
    entry's push, a [DeletedBundle] report is sent exactly when the flags of
    the primary block ask for the deletion report, the constraints of the pack
    are purged and the pack is pushed, which is what the store then holds,
    and neither [dispatching] nor a stage behind it is entered. *)
Theorem transmit_foreign_source_is_deleted (fuel : nat) (c : Core)
    (bp : BundlePack) :
  let sendBundle := SendBundle (S fuel) in
  let src := bundle.SourceNode (primary bp) in
  let kept := idKeeper_update (log (EvTransmit (bundleID bp)) c) (Bundle bp) in
  let bp1 := AddConstraint DispatchPending (setBundle bp kept.2) in
  let c1 := Push kept.1 bp1 in
  src ≠ bundle.DtnNone →
  HasEndpoint c src = false →
  ∃ c',
    transmit sendBundle c bp = Done (c', PurgeConstraints bp1)
    ∧ deletion_of c1 bp1 NoInformation c'
    ∧ Constraints (PurgeConstraints bp1) = ∅
    ∧ store c' !! bundleID bp1 = Some (PurgeConstraints bp1)
    ∧ (Exists (reportsDeletion NoInformation) (since c c')
       ↔ bundle.Has (flags bp) bundle.StatusRequestDeletion = true)
    ∧ Forall (λ e, entersDispatch e = false) (since c c').
Proof.
  intros sendBundle src kept bp1 c1 Hsrc Hend.
  pose proof (SendBundle_reportsReturn fuel) as Hret.
  destruct (idKeeper_update_spec (log (EvTransmit (bundleID bp)) c) (Bundle bp))
    as (ck & seq & Hk & _ & Htrk & Hendk & _).
  assert (kept = (ck, setSequence (Bundle bp) seq)) as Hkept by done.
  assert (bundle.SourceNode (primary bp1) = src) as Hsrc1.
  { unfold bp1. by rewrite Hkept. }
  assert (flags bp1 = flags bp) as Hfl.
  { unfold bp1. by rewrite Hkept. }
  assert (trace c1 = trace c ++
    [EvTransmit (bundleID bp); EvPush (bundleID bp1) (Constraints bp1)])
    as Htr1.
  { unfold c1. rewrite Hkept. simpl. rewrite Htrk. simpl.
    by rewrite <- app_assoc. }
  destruct (bundleDeletion_spec sendBundle c1 bp1 NoInformation)
    as (c' & Hdel & Hof); [by left|].
  exists c'. split.
  { unfold transmit. rewrite Hk.
    change (AddConstraint DispatchPending
              (setBundle bp (setSequence (Bundle bp) seq)))
      with (AddConstraint DispatchPending
              (setBundle bp (ck, setSequence (Bundle bp) seq).2)).
    rewrite <- Hkept. fold bp1.
    change (Push ck bp1) with (Push (ck, setSequence (Bundle bp) seq).1 bp1).
    rewrite <- Hkept. fold c1. rewrite Hsrc1.
    assert (HasEndpoint c1 src = false) as ->.
    { unfold HasEndpoint in *. unfold c1. rewrite Hkept. simpl.
      by rewrite Hendk. }
    rewrite bool_decide_eq_true_2 by done. exact Hdel. }
  split; [done|]. split; [done|].
  destruct Hof as (Hst & report & Htr & Hrep).
  split; [done|].
  assert (since c c' =
    [EvTransmit (bundleID bp); EvPush (bundleID bp1) (Constraints bp1)]
    ++ report ++ [EvPush (bundleID bp1) ∅; EvDeletion (bundleID bp1)])
    as Hsince.
  { apply since_app. by rewrite Htr, Htr1, <- !app_assoc. }
  rewrite Hsince, Hfl in *.
  destruct (bundle.Has (flags bp) bundle.StatusRequestDeletion).
  - destruct Hrep as [carried ->]. split.
    + split; [done|]. intros _. apply Exists_app. right.
      apply Exists_app. left. constructor. by eexists _, _.
    + by repeat constructor.
  - subst report. split.
    + split; [|done]. intros Hex.
      repeat (apply Exists_cons in Hex as [(? & ? & [=])|Hex]).
      by apply Exists_nil in Hex.
    + by repeat constructor.
Qed.

(** C9.  At local delivery of an administrative bundle whose payload block is
    missing, or whose payload does not parse as an administrative record,
    [checkAdministrativeRecord] fails and the bundle is deleted with reason
    [NoInformation]: the stage returns the purged pack, and after its entry
    the only events are the deletion's; no agent is handed the bundle, the
    routing algorithm is not notified and no delivery report is sent. *)
Theorem localDelivery_bad_record_is_deleted (fuel : nat) (c : Core)
    (bp : BundlePack) :
  let sendBundle := SendBundle (S fuel) in
  let c0 := log (EvLocalDelivery (bundleID bp)) c in
  bundle.IsAdministrativeRecord (Bundle bp) = true →
  (bundle.ExtensionBlock (Bundle bp) bundle.PayloadBlock = None
   ∨ ∃ i canonicalAr data,
       bundle.ExtensionBlock (Bundle bp) bundle.PayloadBlock
       = Some (i, canonicalAr)
       ∧ bundle.Data canonicalAr = bundle.DataBytes data
       ∧ NewAdministrativeRecordFromCbor data = None) →
  checkAdministrativeRecord c0 bp = Done (c0, false)
  ∧ ∃ c',
      localDelivery sendBundle c bp = Done (c', PurgeConstraints bp)
      ∧ deletion_of c0 bp NoInformation c'
      ∧ Forall (λ e, delivers e = false) (since c c').
Proof.
  intros sendBundle c0 Hadmin Hbad.
  pose proof (SendBundle_reportsReturn fuel) as Hret.
  assert (checkAdministrativeRecord c0 bp = Done (c0, false)) as Hcheck.
  { unfold checkAdministrativeRecord. rewrite Hadmin. simpl.
    destruct Hbad as [->|(i & cb & data & -> & -> & ->)]; done. }
  split; [done|].
  destruct (bundleDeletion_spec sendBundle c0 bp NoInformation)
    as (c' & Hdel & Hof); [by left|].
  exists c'. split.
  { unfold localDelivery. fold c0. by rewrite Hadmin, Hcheck, bind_Done. }
  split; [done|].
  destruct Hof as (_ & report & Htr & Hrep).
  rewrite (since_app c c' ([EvLocalDelivery (bundleID bp)] ++ report
    ++ [EvPush (bundleID bp) ∅; EvDeletion (bundleID bp)])).
  2: { rewrite Htr. simpl. by rewrite <- !app_assoc. }
  destruct (bundle.Has _ _); [destruct Hrep as [carried ->]|subst report];
    by repeat constructor.
Qed.

End Deletion.

(** ** The statements on the sample node *)

Section OnTheSampleNode.

#[local] Existing Instance sample.constants.
#[local] Existing Instance sample.collaborators.

Lemma sample_distinct : DistinctConstants.
Proof. by split. Defined.

#[local] Existing Instance sample_distinct.


(** After two passes the hop count of the sample bundle has gone from 1
    to 3. *)
Lemma forward_counts_hops_witness :
  wellTyped sample.hopPack = true
  ∧ hopCount sample.hopPack = Some {| bundle.Limit := 1; bundle.Count := 1 |}
  ∧ ∃ bp',
      forwarded (SendBundle 1) 2 sample.hopPack bp'
      ∧ hopCount bp' = Some {| bundle.Limit := 1; bundle.Count := 3 |}.
Proof.
  split; [reflexivity|]. split; [reflexivity|].
  assert (∃ bp', forwarded (SendBundle 1) 2 sample.hopPack bp') as [bp' Hfw].
  { eexists.
    eapply (forwarded_S _ _ _ _ sample.node).
    - eapply (forwarded_S _ _ _ _ sample.node); [apply forwarded_O|].
      vm_compute. reflexivity.
    - vm_compute. reflexivity. }
  exists bp'. split; [exact Hfw|].
  exact (proj1 (forward_counts_hops 0 sample.hopPack
                  {| bundle.Limit := 1; bundle.Count := 1 |}
                  eq_refl eq_refl 2 bp' Hfw)).
Defined.

(** The node whose store holds the bundle drops it at [receive]. *)
Lemma receive_known_is_dropped_witness :
  KnowsBundle (store sample.storingNode) sample.peerPack = true
  ∧ receive (SendBundle 1) sample.storingNode sample.peerPack
    = Done (log (EvReceive (bundleID sample.peerPack)) sample.storingNode,
            sample.peerPack).
Proof.
  assert (KnowsBundle (store sample.storingNode) sample.peerPack = true)
    as Hknown by (by vm_compute).
  split; [exact Hknown|].
  exact (proj1 (receive_known_is_dropped (SendBundle 1) sample.storingNode
                  sample.peerPack Hknown)).
Defined.


(** The one candidate for the sample bundle fails, and the pack ends
    contraindicated. *)
Lemma forward_restarts_failed_sender_witness :
  sendSucceeds sample.peerPack sample.peerSender = false
  ∧ ∃ c',
      forward (SendBundle 1) sample.node sample.peerPack
      = Done (c',
              AddConstraint Contraindicated (sample.pending sample.peerPack))
      ∧ store c' !! bundleID sample.peerPack
        = Some (AddConstraint Contraindicated (sample.pending sample.peerPack)).
Proof.
  split; [reflexivity|].
  destruct (forward_restarts_failed_sender (SendBundle 1) sample.node
              sample.peerPack) as [_ H2].
  destruct (H2 (sample.pending sample.peerPack) (sample.pending sample.peerPack)
              (log (EvSenderForDestination sample.peer)
                 (Push (log (EvForward (bundleID sample.peerPack)) sample.node)
                    (sample.pending sample.peerPack)))
              [sample.peerSender] true)
    as (c' & Hfw & _ & Hst & _); [reflexivity..| |].
  { intros node' ->%list_elem_of_singleton. reflexivity. }
  exists c'. split; [exact Hfw|exact Hst].
Defined.

(** C5, as stated, fails on the sample node: the send to the one candidate
    fails, the sender is closed and the pack ends contraindicated, but no
    other instance is registered at the sender's address, and the registry
    holds no other instance there; it holds the failed sender itself. *)
Lemma forward_restart_is_not_fresh :
  ∃ c' bp',
    forward (SendBundle 1) sample.node sample.peerPack = Done (c', bp')
    ∧ sendSucceeds sample.peerPack sample.peerSender = false
    ∧ EvClose (senderId sample.peerSender) ∈ since sample.node c'
    ∧ Contraindicated ∈ Constraints bp'
    ∧ sample.peerSender ∈ convergenceSenders c'
    ∧ ¬ registersFresh (since sample.node c') sample.peerSender
    ∧ ¬ restartedFresh c' sample.peerSender.
Proof.
  eexists _, _. split; [vm_compute; reflexivity|].
  split; [reflexivity|]. split.
  { vm_compute. do 4 apply list_elem_of_further. apply list_elem_of_here. }
  split; [by vm_compute|]. split.
  { simpl. apply list_elem_of_further, list_elem_of_here. }
  split.
  - intros (s & Hin & Hne). vm_compute in Hin.
    repeat (apply elem_of_cons in Hin as [Heq|Hin];
            [try discriminate; by injection Heq as ->|]).
    by apply elem_of_nil in Hin.
  - intros (s & Hin & Haddr & Hid). simpl in Hin.
    apply elem_of_cons in Hin as [->|Hin]; [done|].
    apply list_elem_of_singleton in Hin as ->. done.
Qed.

(** The bundle for the friend is sent over the direct sender and its
    constraints are purged. *)
Lemma forward_direct_delivery_witness :
  senderForDestination sample.node sample.friend = [sample.friendSender]
  ∧ existsb (sendSucceeds (sample.pending sample.friendPack))
      [sample.friendSender] = true
  ∧ ∃ c',
      forward (SendBundle 1) sample.node sample.friendPack
      = Done (c', PurgeConstraints (sample.pending sample.friendPack))
      ∧ store c' !! bundleID sample.friendPack
        = Some (PurgeConstraints (sample.pending sample.friendPack))
      ∧ Forall (λ e, consultsRouting e = false) (since sample.node c').
Proof.
  split; [reflexivity|]. split; [reflexivity|].
  destruct (forward_direct_delivery 0 sample.node sample.friendPack
              (sample.pending sample.friendPack)
              (sample.pending sample.friendPack)
              [sample.friendSender])
    as [_ H2]; [reflexivity..|done|].
  destruct (H2 eq_refl) as (c' & report & Hfw & _ & Hst & _ & _ & Hno).
  exists c'. split; [exact Hfw|]. split; [exact Hst|exact Hno].
Defined.

(** The report of a delivery purges the one pack of the store that it is
    about. *)
Lemma inspectStatusReport_changes_witness :
  QueryFromStatusReport (store sample.storingNode)
    (Content sample.deliveredReport)
  = [sample.pendingPack]
  ∧ DeliveredBundle ∈ StatusInformations (Content sample.deliveredReport)
  ∧ store (inspectStatusReport sample.storingNode sample.deliveredReport)
    = <[bundleID sample.pendingPack := PurgeConstraints sample.pendingPack]>
        (store sample.storingNode).
Proof.
  assert (QueryFromStatusReport (store sample.storingNode)
            (Content sample.deliveredReport)
          = [sample.pendingPack]) as Hq by (by vm_compute).
  assert (DeliveredBundle ∈ StatusInformations (Content sample.deliveredReport))
    as Hin.
  { apply list_elem_of_further, list_elem_of_here. }
  split; [exact Hq|]. split; [exact Hin|].
  destruct (inspectStatusReport_changes sample.storingNode
              sample.deliveredReport) as (_ & H2 & _).
  exact (proj1 (proj2 (H2 sample.pendingPack Hq) Hin)).
Defined.

(** The bundle of a foreign source is deleted at [transmit]. *)
Lemma transmit_foreign_source_is_deleted_witness :
  bundle.SourceNode (primary sample.peerPack) ≠ bundle.DtnNone
  ∧ HasEndpoint sample.node (bundle.SourceNode (primary sample.peerPack))
    = false
  ∧ ∃ c',
      transmit (SendBundle 1) sample.node sample.peerPack
      = Done (c',
              PurgeConstraints (AddConstraint DispatchPending sample.peerPack))
      ∧ Forall (λ e, entersDispatch e = false) (since sample.node c').
Proof.
  assert (bundle.SourceNode (primary sample.peerPack) ≠ bundle.DtnNone)
    as Hsrc by discriminate.
  assert (HasEndpoint sample.node
            (bundle.SourceNode (primary sample.peerPack)) = false)
    as Hend by (by vm_compute).
  split; [exact Hsrc|]. split; [exact Hend|].
  destruct (transmit_foreign_source_is_deleted 0 sample.node sample.peerPack
              Hsrc Hend)
    as (c' & Htx & _ & _ & _ & _ & Hno).
  exists c'. split; [exact Htx|exact Hno].
Defined.

(** The administrative bundle without payload block is deleted at local
    delivery. *)
Lemma localDelivery_bad_record_is_deleted_witness :
  bundle.IsAdministrativeRecord (Bundle sample.recordPack) = true
  ∧ bundle.ExtensionBlock (Bundle sample.recordPack) bundle.PayloadBlock = None
  ∧ ∃ c',
      localDelivery (SendBundle 1) sample.node sample.recordPack
      = Done (c', PurgeConstraints sample.recordPack)
      ∧ Forall (λ e, delivers e = false) (since sample.node c').
Proof.
  assert (bundle.IsAdministrativeRecord (Bundle sample.recordPack) = true)
    as Hadmin by reflexivity.
  assert (bundle.ExtensionBlock (Bundle sample.recordPack) bundle.PayloadBlock
          = None) as Hnone by reflexivity.
  split; [exact Hadmin|]. split; [exact Hnone|].
  destruct (localDelivery_bad_record_is_deleted 0 sample.node sample.recordPack
              Hadmin (or_introl Hnone))
    as (_ & c' & Hld & _ & Hno).
  exists c'. split; [exact Hld|exact Hno].
Defined.

End OnTheSampleNode.

(** ** More facts about the pipeline *)

Section MoreFacts.
Context `{!bundle.Constants} `{!Collaborators}.

(** *** The configuration of the node *)

Lemma sameConfig_refl c : sameConfig c c.
Proof. by repeat split. Qed.

Lemma sameConfig_trans c1 c2 c3 :
  sameConfig c1 c2 → sameConfig c2 c3 → sameConfig c1 c3.
Proof.
  intros (?&?&?&?&?&?) (?&?&?&?&?&?). repeat split; congruence.
Qed.

Lemma sameConfig_Push c bp : sameConfig c (Push c bp).
Proof. by repeat split. Qed.

Lemma sameConfig_log c e : sameConfig c (log e c).
Proof. by repeat split. Qed.

Lemma filter_none {A} (P : A → Prop) `{∀ x, Decision (P x)} (l : list A) :
  (∀ x, x ∈ l → ¬ P x) → filter P l = [].
Proof.
  induction l as [|x l IH]; intros Hall; [done|].
  rewrite filter_cons, decide_False by (apply Hall; left).
  apply IH. intros y Hy. apply Hall. by right.
Qed.

Lemma restarted_only l node :
  NoDup (senderId <$> l) → node ∈ l →
  filter (λ s, ¬ senderId s ≠ senderId node) l = [node].
Proof.
  induction l as [|x l IH]; intros Hnd Hin; [by apply elem_of_nil in Hin|].
  rewrite fmap_cons in Hnd. apply NoDup_cons in Hnd as [Hx Hnd].
  rewrite filter_cons. apply elem_of_cons in Hin as [->|Hin].
  - rewrite decide_True by (by intros ?).
    f_equal. apply filter_none. intros y Hy Hny.
    apply Hx. apply list_elem_of_fmap. exists y. split; [|done].
    destruct (decide (senderId y = senderId x)) as [?|Hne]; [done|].
    by destruct Hny.
  - rewrite decide_False; [by apply IH|].
    intros Hnn. apply Hx. apply list_elem_of_fmap. exists node. split; [|done].
    destruct (decide (senderId x = senderId node)) as [?|Hne]; [done|].
    by destruct Hnn.
Qed.

Lemma restarted_Permutation l node :
  NoDup (senderId <$> l) → node ∈ l → restarted l node ≡ₚ l.
Proof.
  intros Hnd Hin. unfold restarted.
  rewrite <- (restarted_only l node Hnd Hin).
  apply (filter_app_complement (λ s, senderId s ≠ senderId node)).
Qed.

Lemma fanout_registry_Permutation bp nodes l :
  NoDup (senderId <$> l) → nodes ⊆ l →
  foldl (λ l node, if sendSucceeds bp node then l else restarted l node)
    l nodes ≡ₚ l.
Proof.
  revert l. induction nodes as [|node nodes IH]; intros l Hnd Hsub; [done|].
  simpl. assert (node ∈ l) as Hin by (apply Hsub; left).
  assert (nodes ⊆ l) as Hsub' by (intros x Hx; apply Hsub; by right).
  destruct (sendSucceeds bp node); [by apply IH|].
  pose proof (restarted_Permutation l node Hnd Hin) as Hp.
  rewrite IH; [done| |].
  - by rewrite Hp.
  - intros x Hx. rewrite Hp. by apply Hsub'.
Qed.

Lemma sameConfig_fields c c' :
  Agents c' = Agents c → routing c' = routing c →
  inspectAllBundles c' = inspectAllBundles c → nodeId c' = nodeId c →
  endpoints c' = endpoints c → clock c' = clock c → sameConfig c c'.
Proof. by repeat split. Qed.

Lemma forward_send_frame node bp c sent :
  sameConfig c (forward_send node bp (c, sent)).1.
Proof. unfold forward_send. simpl. by destruct (Send node _). Qed.

Lemma forward_fanout_frame nodes bp c sent :
  sameConfig c (forward_fanout nodes bp (c, sent)).1.
Proof.
  revert c sent. induction nodes as [|node nodes IH]; intros c sent;
    [apply sameConfig_refl|].
  change (forward_fanout (node :: nodes) bp (c, sent))
    with (forward_fanout nodes bp (forward_send node bp (c, sent))).
  pose proof (forward_send_frame node bp c sent) as Hs.
  destruct (forward_send node bp (c, sent)) as [c1 sent1].
  eapply sameConfig_trans; [exact Hs|apply IH].
Qed.

Lemma inspect_sips_frame sips c bp : sameConfig c (inspect_sips sips c bp).1.
Proof.
  revert c bp. induction sips as [|sip sips IH]; intros c bp;
    [apply sameConfig_refl|].
  destruct sip; simpl; try apply IH.
  eapply sameConfig_trans; [apply sameConfig_Push|apply IH].
Qed.

Lemma inspectStatusReport_frame c ar : sameConfig c (inspectStatusReport c ar).
Proof.
  unfold inspectStatusReport.
  destruct (StatusInformations _); [apply sameConfig_refl|].
  destruct (QueryFromStatusReport _ _) as [|bp [|]]; try apply sameConfig_refl.
  apply inspect_sips_frame.
Qed.

Lemma checkAdministrativeRecord_frame c bp c' ok :
  checkAdministrativeRecord c bp = Done (c', ok) → sameConfig c c'.
Proof.
  unfold checkAdministrativeRecord.
  destruct (negb _); [intros [= <- _]; apply sameConfig_refl|].
  destruct (bundle.ExtensionBlock _ _) as [[i cb]|];
    [|intros [= <- _]; apply sameConfig_refl].
  destruct (bundle.Data cb); try done.
  destruct (NewAdministrativeRecordFromCbor _); intros [= <- _];
    [apply inspectStatusReport_frame|apply sameConfig_refl].
Qed.

Lemma deliver_agents_frame agents c bp :
  sameConfig c (deliver_agents agents c bp).
Proof.
  revert c. induction agents as [|a agents IH]; intros c;
    [apply sameConfig_refl|].
  simpl. destruct (bool_decide _); [|apply IH].
  eapply sameConfig_trans; [apply sameConfig_log|apply IH].
Qed.

Lemma forward_nodes_frame c bp : sameConfig c (forward_nodes c bp).1.1.
Proof.
  unfold forward_nodes. destruct (senderForDestination _ _); [|done].
  by destruct (SenderForBundle _ _).
Qed.

Section Frame.
Variable sendBundle : Core → bundle.Bundle → Outcome Core.
Hypothesis Hframe : reportsFrame sendBundle.

Lemma SendStatusReport_frame c bp status reason c' :
  SendStatusReport sendBundle c bp status reason = Done c' → sameConfig c c'.
Proof.
  unfold SendStatusReport. intros (c1 & Hs & [= <-])%bind_Done_inv.
  apply Hframe in Hs. exact Hs.
Qed.

Lemma report_if_frame (b : bool) c bp status reason c' :
  (if b then SendStatusReport sendBundle c bp status reason else mret c)
  = Done c' →
  sameConfig c c'.
Proof.
  destruct b; [apply SendStatusReport_frame|].
  intros [= <-]. apply sameConfig_refl.
Qed.

Lemma bundleDeletion_frame c bp reason c' bp' :
  bundleDeletion sendBundle c bp reason = Done (c', bp') → sameConfig c c'.
Proof.
  unfold bundleDeletion. intros (c1 & Hs & [= <- _])%bind_Done_inv.
  apply report_if_frame in Hs.
  eapply sameConfig_trans; [exact Hs|]. done.
Qed.

Lemma localDelivery_frame c bp c' bp' :
  localDelivery sendBundle c bp = Done (c', bp') → sameConfig c c'.
Proof.
  unfold localDelivery. intros ([c1 ok] & Hc & Hrest)%bind_Done_inv.
  assert (sameConfig c c1) as H1.
  { destruct (bundle.IsAdministrativeRecord _).
    - apply checkAdministrativeRecord_frame in Hc. exact Hc.
    - by injection Hc as <- _. }
  eapply sameConfig_trans; [exact H1|].
  destruct ok; simpl in Hrest.
  - apply bind_Done_inv in Hrest as (c2 & Hs & [= <- _]).
    apply report_if_frame in Hs.
    eapply sameConfig_trans; [|apply sameConfig_Push].
    eapply sameConfig_trans; [|exact Hs].
    eapply sameConfig_trans; [apply deliver_agents_frame|].
    apply sameConfig_log.
  - by apply bundleDeletion_frame in Hrest.
Qed.

Lemma forward_frame c bp c' bp' :
  forward sendBundle c bp = Done (c', bp') → sameConfig c c'.
Proof.
  unfold forward.
  set (bp0 :=
         RemoveConstraint DispatchPending (AddConstraint ForwardPending bp)).
  set (c0 := Push _ bp0).
  assert (sameConfig c c0) as Hc0 by done.
  intros ([bp1 ex] & _ & Hrest)%bind_Done_inv.
  eapply sameConfig_trans; [exact Hc0|]. clearbody c0. clear Hc0.
  destruct ex; [by apply bundleDeletion_frame in Hrest|].
  destruct (IsLifetimeExceeded _ _); [by apply bundleDeletion_frame in Hrest|].
  apply bind_Done_inv in Hrest as ([bp2 ex2] & _ & Hrest).
  destruct ex2; [by apply bundleDeletion_frame in Hrest|].
  pose proof (forward_nodes_frame c0 bp2) as Hn.
  destruct (forward_nodes c0 bp2) as [[c3 nodes] del]. simpl in Hn.
  eapply sameConfig_trans; [exact Hn|].
  destruct nodes as [|node nodes].
  { by injection Hrest as <- _. }
  pose proof (forward_fanout_frame (node :: nodes) bp2 c3 false) as Hf.
  destruct (forward_fanout (node :: nodes) bp2 (c3, false)) as [c4 sent].
  eapply sameConfig_trans; [exact Hf|].
  destruct sent.
  - apply bind_Done_inv in Hrest as (c5 & Hs & Hrest).
    apply report_if_frame in Hs.
    eapply sameConfig_trans; [exact Hs|].
    destruct del.
    + by injection Hrest as <- _.
    + destruct (_ && _).
      * simpl in Hrest.
        apply bind_Done_inv in Hrest as ([c7 b] & Hck & [= <- _]).
        apply checkAdministrativeRecord_frame in Hck.
        eapply sameConfig_trans; [|exact Hck]. done.
      * injection Hrest as <- _. apply sameConfig_refl.
  - by injection Hrest as <- _.
Qed.

Lemma dispatching_frame c bp c' bp' :
  dispatching sendBundle c bp = Done (c', bp') → sameConfig c c'.
Proof.
  unfold dispatching. destruct (HasEndpoint _ _); intros Hd.
  - apply localDelivery_frame in Hd.
    eapply sameConfig_trans; [apply sameConfig_log|exact Hd].
  - apply forward_frame in Hd.
    eapply sameConfig_trans; [apply sameConfig_log|exact Hd].
Qed.

Lemma idKeeper_update_frame c b : sameConfig c (idKeeper_update c b).1.
Proof.
  unfold idKeeper_update. destruct (idKeeper c !! _); [|done].
  by destruct (_ <=? _)%N.
Qed.

Lemma transmit_frame c bp c' bp' :
  transmit sendBundle c bp = Done (c', bp') → sameConfig c c'.
Proof.
  unfold transmit.
  pose proof (idKeeper_update_frame (log (EvTransmit (bundleID bp)) c)
                (Bundle bp)) as Hk.
  destruct (idKeeper_update _ _) as [ck b]. simpl in Hk.
  intros Hrest.
  eapply sameConfig_trans; [apply sameConfig_log|].
  eapply sameConfig_trans; [exact Hk|].
  eapply sameConfig_trans; [apply sameConfig_Push|].
  destruct (_ && _).
  - apply bundleDeletion_frame in Hrest. exact Hrest.
  - apply dispatching_frame in Hrest. exact Hrest.
Qed.

Lemma receive_blocks_frame n c bp c' bp' deleted :
  receive_blocks sendBundle n c bp = Done (c', bp', deleted) → sameConfig c c'.
Proof.
  revert c bp. induction n as [|n IH]; intros c bp; simpl.
  { intros [= <- _ _]. apply sameConfig_refl. }
  destruct (_ !! n) as [cb|]; [|done].
  destruct (isKnownBlockType _); [apply IH|].
  intros (c1 & Hs & Hrest)%bind_Done_inv.
  apply report_if_frame in Hs.
  eapply sameConfig_trans; [exact Hs|].
  destruct (bundle.Has _ bundle.DeleteBundle).
  - apply bind_Done_inv in Hrest as ([c2 bp2] & Hd & [= <- _ _]).
    by apply bundleDeletion_frame in Hd.
  - destruct (bundle.Has _ bundle.RemoveBlock); by apply IH in Hrest.
Qed.

Lemma receive_frame c bp c' bp' :
  receive sendBundle c bp = Done (c', bp') → sameConfig c c'.
Proof.
  unfold receive.
  destruct (KnowsBundle _ bp).
  { by intros [= <- _]. }
  intros (c2 & Hs & Hrest)%bind_Done_inv.
  apply report_if_frame in Hs.
  apply bind_Done_inv in Hrest as ([[c3 bp3] del] & Hw & Hrest).
  apply receive_blocks_frame in Hw.
  eapply sameConfig_trans; [|eapply sameConfig_trans; [exact Hs|]].
  { done. }
  eapply sameConfig_trans; [exact Hw|].
  destruct del.
  - injection Hrest as <- _. apply sameConfig_refl.
  - by apply dispatching_frame in Hrest.
Qed.

End Frame.

Lemma SendBundle_frame fuel : reportsFrame (SendBundle fuel).
Proof.
  induction fuel as [|fuel IH]; intros c b c'; simpl; [done|].
  intros ([c1 bp1] & Ht & [= <-])%bind_Done_inv.
  by apply transmit_frame in Ht.
Qed.

(** *** Constraints, deliveries and inspections *)

Lemma deliver_agents_trace agents c bp :
  trace (deliver_agents agents c bp)
  = trace c
    ++ ((λ a, EvDeliver (agentId a) (bundleID bp))
        <$> filter (λ a, EndpointID a = bundle.Destination (primary bp))
              agents).
Proof.
  revert c. induction agents as [|a agents IH]; intros c.
  { simpl. by rewrite app_nil_r. }
  simpl deliver_agents. rewrite filter_cons.
  destruct (decide (EndpointID a = bundle.Destination (primary bp))) as [He|He].
  - rewrite bool_decide_eq_true_2 by done. rewrite IH. simpl.
    by rewrite <- app_assoc.
  - rewrite bool_decide_eq_false_2 by done. apply IH.
Qed.

Lemma bundleDeletion_purges sendBundle c bp reason c' bp' :
  bundleDeletion sendBundle c bp reason = Done (c', bp') →
  bp' = PurgeConstraints bp.
Proof.
  unfold bundleDeletion. by intros (c1 & _ & [= _ <-])%bind_Done_inv.
Qed.

Lemma localDelivery_purges sendBundle c bp c' bp' :
  localDelivery sendBundle c bp = Done (c', bp') →
  bp' = PurgeConstraints bp.
Proof.
  unfold localDelivery. intros ([c1 ok] & _ & Hrest)%bind_Done_inv.
  destruct ok; simpl in Hrest.
  - by apply bind_Done_inv in Hrest as (c2 & _ & [= _ <-]).
  - by apply bundleDeletion_purges in Hrest.
Qed.

Lemma forward_constraints sendBundle c bp c' bp' :
  forward sendBundle c bp = Done (c', bp') →
  let pending := (Constraints bp ∪ {[ForwardPending]}) ∖ {[DispatchPending]} in
  Constraints bp' = ∅
  ∨ Constraints bp' = pending
  ∨ Constraints bp' = pending ∪ {[Contraindicated]}.
Proof.
  unfold forward.
  set (bp0 :=
         RemoveConstraint DispatchPending (AddConstraint ForwardPending bp)).
  set (c0 := Push _ bp0). clearbody c0.
  intros ([bp1 ex] & Hh & Hrest)%bind_Done_inv.
  destruct (forward_hopcount_primary _ _ _ Hh) as [_ Hk1].
  destruct ex; [apply bundleDeletion_purges in Hrest as ->; by left|].
  destruct (IsLifetimeExceeded _ _);
    [apply bundleDeletion_purges in Hrest as ->; by left|].
  apply bind_Done_inv in Hrest as ([bp2 ex2] & Ha & Hrest).
  destruct (forward_age_primary _ _ _ _ Ha) as [_ Hk2].
  assert (Constraints bp2 = Constraints bp0) as Hk by (by rewrite Hk2, Hk1).
  destruct ex2; [apply bundleDeletion_purges in Hrest as ->; by left|].
  destruct (forward_nodes c0 bp2) as [[c3 nodes] del].
  destruct nodes as [|node nodes].
  { injection Hrest as _ <-. right. right. simpl. by rewrite Hk. }
  destruct (forward_fanout (node :: nodes) bp2 (c3, false)) as [c4 sent].
  destruct sent.
  - apply bind_Done_inv in Hrest as (c5 & _ & Hrest).
    destruct del.
    + injection Hrest as _ <-. by left.
    + destruct (_ && _).
      * simpl in Hrest.
        apply bind_Done_inv in Hrest as ([c7 b] & _ & [= _ <-]).
        right. right. simpl. by rewrite Hk.
      * injection Hrest as _ <-. right. by left.
  - injection Hrest as _ <-. right. right. simpl. by rewrite Hk.
Qed.

Lemma dispatching_constraints sendBundle c bp c' bp' :
  dispatching sendBundle c bp = Done (c', bp') →
  let pending := (Constraints bp ∪ {[ForwardPending]}) ∖ {[DispatchPending]} in
  Constraints bp' = ∅
  ∨ Constraints bp' = pending
  ∨ Constraints bp' = pending ∪ {[Contraindicated]}.
Proof.
  unfold dispatching. destruct (HasEndpoint _ _); intros Hd.
  - apply localDelivery_purges in Hd as ->. by left.
  - by apply forward_constraints in Hd.
Qed.

Lemma receive_blocks_constraints sendBundle n c bp c' bp' deleted :
  receive_blocks sendBundle n c bp = Done (c', bp', deleted) →
  if deleted then Constraints bp' = ∅ else Constraints bp' = Constraints bp.
Proof.
  revert c bp. induction n as [|n IH]; intros c bp; simpl.
  { by intros [= _ <- <-]. }
  destruct (_ !! n) as [cb|]; [|done].
  destruct (isKnownBlockType _); [apply IH|].
  intros (c1 & _ & Hrest)%bind_Done_inv.
  destruct (bundle.Has _ bundle.DeleteBundle).
  - apply bind_Done_inv in Hrest as ([c2 bp2] & Hd & [= _ <- <-]).
    by apply bundleDeletion_purges in Hd as ->.
  - destruct (bundle.Has _ bundle.RemoveBlock); by apply IH in Hrest.
Qed.

Lemma inspect_sips_trace sips c bp :
  ∃ tr, trace (inspect_sips sips c bp).1 = trace c ++ tr
        ∧ Forall purgePush tr.
Proof.
  revert c bp. induction sips as [|sip sips IH]; intros c bp.
  { exists []. by rewrite app_nil_r. }
  destruct sip; simpl; try apply IH.
  destruct (IH (Push c (PurgeConstraints bp)) (PurgeConstraints bp))
    as (tr & -> & Htr).
  eexists (_ :: tr). simpl. rewrite <- app_assoc. split; [done|].
  constructor; [by eexists|done].
Qed.

Lemma checkAdministrativeRecord_trace c bp c' ok :
  checkAdministrativeRecord c bp = Done (c', ok) →
  ∃ tr, trace c' = trace c ++ tr ∧ Forall purgePush tr.
Proof.
  assert (∃ tr, trace c = trace c ++ tr ∧ Forall purgePush tr) as Hsame.
  { exists []. by rewrite app_nil_r. }
  unfold checkAdministrativeRecord.
  destruct (negb _); [by intros [= <- _]|].
  destruct (bundle.ExtensionBlock _ _) as [[i cb]|]; [|by intros [= <- _]].
  destruct (bundle.Data cb); try done.
  destruct (NewAdministrativeRecordFromCbor _) as [ar|]; intros [= <- _];
    [|done].
  unfold inspectStatusReport.
  destruct (StatusInformations _); [done|].
  destruct (QueryFromStatusReport _ _) as [|sp [|]]; try done.
  apply inspect_sips_trace.
Qed.

(** *** The block walk of [receive], with its reports *)

Lemma receive_reception sendBundle c bp :
  reportsReturn sendBundle →
  KnowsBundle (store c) bp = false →
  let bp1 := AddConstraint DispatchPending bp in
  ∃ c2 reception,
    receive sendBundle c bp
    = ('(c, bp, deleted) ←
         receive_blocks sendBundle
           (length (bundle.CanonicalBlocks (Bundle bp))) c2 bp1;
       if (deleted : bool) then mret (c, bp)
       else dispatching sendBundle c bp)
    ∧ trace c2
      = trace c ++ [EvReceive (bundleID bp);
                    EvPush (bundleID bp) (Constraints bp ∪ {[DispatchPending]})]
        ++ reception
    ∧ (if bundle.Has (flags bp) bundle.StatusRequestReception
       then ∃ carried,
              reception =
                [EvStatusReport (bundleID bp) ReceivedBundle NoInformation
                   carried]
       else reception = []).
Proof.
  intros Hret Hk bp1. unfold receive.
  change (store (log (EvReceive (bundleID bp)) c)) with (store c).
  rewrite Hk. fold bp1.
  change (flags bp1) with (flags bp).
  destruct (bundle.Has (flags bp) bundle.StatusRequestReception).
  - edestruct (SendStatusReport_spec sendBundle
                 (Push (log (EvReceive (bundleID bp)) c) bp1) bp1
                 ReceivedBundle NoInformation Hret)
      as (c2 & carried & -> & Htr).
    rewrite bind_Done. eexists c2, _. split; [done|]. split; [|by eauto].
    rewrite Htr. simpl. by rewrite <- !app_assoc.
  - rewrite bind_Done. eexists _, []. split; [done|]. split; [|done].
    simpl. by rewrite <- !app_assoc.
Qed.

End MoreFacts.

Lemma pending_transmit (K : gset Constraint) :
  (K ∪ {[DispatchPending]} ∪ {[ForwardPending]}) ∖ {[DispatchPending]}
  = K ∖ {[DispatchPending]} ∪ {[ForwardPending]}.
Proof.
  apply set_eq. intros x. rewrite !elem_of_difference, !elem_of_union,
    !elem_of_difference, !elem_of_singleton.
  split.
  - intros [[[?|?]|?] ?]; [by left|done|by right].
  - intros [[? ?]| ->]; (split; [|done]); [by left; left|by right].
Qed.

Lemma pending_no_dispatch (K : gset Constraint) :
  (DispatchPending ∉ K ∖ {[DispatchPending]} ∪ {[ForwardPending]})
  ∧ (DispatchPending
     ∉ K ∖ {[DispatchPending]} ∪ {[ForwardPending]} ∪ {[Contraindicated]}).
Proof.
  rewrite !elem_of_union, !elem_of_difference, !elem_of_singleton.
  split.
  - by intros [[_ ?]|?].
  - by intros [[[_ ?]|?]|?].
Qed.

(** ** The fan-out and the routing algorithm *)

Section Routing.
Context `{!bundle.Constants} `{!Collaborators}.

(** X1.  The fan-out of [forward] sends the bundle to every candidate, once
    each (the goroutines are taken in the order of the slice), restarting
    each sender whose send fails; [bundleSent] is true exactly when some send
    succeeds, and the store is not touched.  When every send succeeds the
    registry is left as it is; when the registered senders have distinct
    identities and the candidates are registered, the registry holds the
    same senders afterwards. *)
Theorem forward_fanout_sends_to_all (nodes : list ConvergenceSender)
    (bp : BundlePack) (c : Core) :
  ∃ c',
    forward_fanout nodes bp (c, false)
    = (c', existsb (sendSucceeds bp) nodes)
    ∧ since c c' = concat (sendEvents bp <$> nodes)
    ∧ store c' = store c
    ∧ (Forall (λ node, sendSucceeds bp node = true) nodes →
       convergenceSenders c' = convergenceSenders c)
    ∧ (NoDup (senderId <$> convergenceSenders c) →
       nodes ⊆ convergenceSenders c →
       convergenceSenders c' ≡ₚ convergenceSenders c).
Proof.
  destruct (forward_fanout_spec nodes bp c false)
    as (c' & Hf & Htr & Hst & Hcs).
  exists c'. split; [done|]. split; [by apply since_app|]. split; [done|].
  split.
  - intros Hall. rewrite Hcs. clear Hcs Hf Htr.
    generalize (convergenceSenders c).
    induction Hall as [|node nodes Hn _ IH]; intros l; [done|].
    simpl. by rewrite Hn.
  - intros Hnd Hsub. rewrite Hcs. by apply fanout_registry_Permutation.
Qed.


(** X2.  When [forward] gets past its checks and no registered sender serves
    the destination, the routing algorithm is asked, once and after the
    direct lookup, and its answer decides.  Without a candidate the pack
    ends contraindicated and is pushed, and nothing is sent.  With a
    successful send and [deleteAfterwards] false, on a node that does not
    inspect the bundle, the stage returns the pack as it is, forward pending:
    the constraints are not purged and nothing is pushed after the sends;
    the forward report is sent exactly when the flags ask for it. *)
Theorem forward_by_routing `{!DistinctConstants} (fuel : nat) (c : Core)
    (bp : BundlePack) :
  let sendBundle := SendBundle (S fuel) in
  let bp0 :=
    RemoveConstraint DispatchPending (AddConstraint ForwardPending bp) in
  let c0 := Push (log (EvForward (bundleID bp)) c) bp0 in
  let dst := bundle.Destination (primary bp) in
  let asked :=
    [EvForward (bundleID bp); EvPush (bundleID bp) (Constraints bp0);
     EvSenderForDestination dst; EvSenderForBundle (bundleID bp)] in
  ∀ bp1 bp2 nodes deleteAfterwards,
    forward_hopcount bp0 = Done (bp1, false) →
    IsLifetimeExceeded (primary bp1) (clock c0) = false →
    forward_age c0 bp1 = Done (bp2, false) →
    senderForDestination c dst = [] →
    SenderForBundle (routing c) bp2 = (nodes, deleteAfterwards) →
    (nodes = [] →
     ∃ c',
       forward sendBundle c bp = Done (c', AddConstraint Contraindicated bp2)
       ∧ since c c' =
           asked
           ++ [EvContraindicated (bundleID bp);
               EvPush (bundleID bp) (Constraints bp0 ∪ {[Contraindicated]})])
    ∧ (existsb (sendSucceeds bp2) nodes = true →
       deleteAfterwards = false →
       inspectAllBundles c && bundle.IsAdministrativeRecord (Bundle bp)
       = false →
       ∃ c' report,
         forward sendBundle c bp = Done (c', bp2)
         ∧ Constraints bp2 = Constraints bp0
         ∧ since c c' = asked ++ concat (sendEvents bp2 <$> nodes) ++ report
         ∧ (if bundle.Has (flags bp) bundle.StatusRequestForward
            then ∃ carried,
                   report =
                     [EvStatusReport (bundleID bp) ForwardedBundle
                        NoInformation carried]
            else report = [])).
Proof.
  intros sendBundle bp0 c0 dst asked bp1 bp2 nodes del Hh Hlife Hage Hdirect
    Hroute.
  pose proof (SendBundle_reportsReturn fuel) as Hret.
  destruct (forward_hopcount_primary _ _ _ Hh) as [Hp1 Hk1].
  destruct (forward_age_primary _ _ _ _ Hage) as [Hp2 Hk2].
  assert (primary bp2 = primary bp) as Hp by (by rewrite Hp2, Hp1).
  assert (Constraints bp2 = Constraints bp0) as Hk by (by rewrite Hk2, Hk1).
  assert (bundleID bp2 = bundleID bp) as Hid by (by apply bundleID_primary).
  assert (flags bp2 = flags bp) as Hfl by (unfold flags; by rewrite Hp).
  set (c1 := log (EvSenderForBundle (bundleID bp))
               (log (EvSenderForDestination dst) c0)).
  assert (forward_nodes c0 bp2 = (c1, nodes, del)) as Hnodes.
  { unfold forward_nodes. rewrite Hp, Hid. fold dst.
    change (senderForDestination (log (EvSenderForDestination dst) c0) dst)
      with (senderForDestination c dst).
    rewrite Hdirect.
    change (routing (log (EvSenderForBundle (bundleID bp))
                       (log (EvSenderForDestination dst) c0)))
      with (routing c).
    by rewrite Hroute. }
  assert (trace c1 = trace c ++ asked) as Htr1.
  { unfold c1, asked. simpl trace. by rewrite <- !app_assoc. }
  split.
  - intros ->. unfold forward. fold bp0 c0.
    rewrite Hh, bind_Done, Hlife, Hage, bind_Done, Hnodes.
    destruct (bundleContraindicated_spec c1 bp2) as (c' & -> & Htr & _).
    exists c'. split; [done|]. apply since_app.
    rewrite Htr, Htr1, Hid. simpl. rewrite Hk. by rewrite <- !app_assoc.
  - intros Hsent -> Hinspect. unfold forward. fold bp0 c0.
    rewrite Hh, bind_Done, Hlife, Hage, bind_Done, Hnodes.
    destruct nodes as [|node nodes]; [done|].
    pose proof (forward_fanout_frame (node :: nodes) bp2 c1 false) as Hfr.
    destruct (forward_fanout_spec (node :: nodes) bp2 c1 false)
      as (c4 & Hf & Htr & _).
    rewrite Hf in Hfr |- *. simpl in Hfr.
    rewrite Hsent. simpl orb. cbv iota.
    assert (bundle.IsAdministrativeRecord (Bundle bp2)
            = bundle.IsAdministrativeRecord (Bundle bp)) as Hadm.
    { unfold bundle.IsAdministrativeRecord. fold (primary bp2) (primary bp).
      by rewrite Hp. }
    rewrite Hfl, Hadm.
    destruct (bundle.Has (flags bp) bundle.StatusRequestForward) eqn:Hfw.
    + destruct (SendStatusReport_spec sendBundle c4 bp2 ForwardedBundle
                  NoInformation Hret) as (c5 & carried & Hs & Htr5).
      pose proof (SendStatusReport_frame sendBundle
                    (SendBundle_frame (S fuel)) _ _ _ _ _ Hs) as Hfr5.
      rewrite Hs, bind_Done. cbv iota.
      assert (inspectAllBundles c5 = inspectAllBundles c) as ->.
      { destruct Hfr5 as (_ & _ & -> & _), Hfr as (_ & _ & -> & _). done. }
      rewrite Hinspect.
      eexists _,
        [EvStatusReport (bundleID bp) ForwardedBundle NoInformation carried].
      split; [done|]. split; [done|]. split; [|by eauto].
      apply since_app. rewrite Htr5, Htr, Htr1, Hid.
      by rewrite <- !app_assoc.
    + rewrite bind_Done. cbv iota.
      assert (inspectAllBundles c4 = inspectAllBundles c) as ->.
      { by destruct Hfr as (_ & _ & -> & _). }
      rewrite Hinspect.
      eexists _, []. split; [done|]. split; [done|]. split; [|done].
      apply since_app. rewrite Htr, Htr1, app_nil_r.
      by rewrite <- !app_assoc.
Qed.


(** X3.  On a node that inspects all bundles, an administrative record that
    the routing algorithm has forwarded with [deleteAfterwards] false is
    marked contraindicated and pushed, and only then is its record checked.
    Whatever the check yields, the stage returns that pack: a record that
    cannot be read does not delete the bundle here, and the check adds
    nothing but pushes of purged subject packs. *)
Theorem forward_inspects_forwarded_record `{!DistinctConstants}
    (fuel : nat) (c : Core)
    (bp : BundlePack) :
  let sendBundle := SendBundle (S fuel) in
  let bp0 :=
    RemoveConstraint DispatchPending (AddConstraint ForwardPending bp) in
  let c0 := Push (log (EvForward (bundleID bp)) c) bp0 in
  let dst := bundle.Destination (primary bp) in
  ∀ bp1 bp2 nodes,
    wellTyped bp = true →
    forward_hopcount bp0 = Done (bp1, false) →
    IsLifetimeExceeded (primary bp1) (clock c0) = false →
    forward_age c0 bp1 = Done (bp2, false) →
    senderForDestination c dst = [] →
    SenderForBundle (routing c) bp2 = (nodes, false) →
    existsb (sendSucceeds bp2) nodes = true →
    inspectAllBundles c = true →
    bundle.IsAdministrativeRecord (Bundle bp) = true →
    ∃ c' report inspected,
      forward sendBundle c bp = Done (c', AddConstraint Contraindicated bp2)
      ∧ since c c'
        = [EvForward (bundleID bp); EvPush (bundleID bp) (Constraints bp0);
           EvSenderForDestination dst; EvSenderForBundle (bundleID bp)]
          ++ concat (sendEvents bp2 <$> nodes) ++ report
          ++ [EvContraindicated (bundleID bp);
              EvPush (bundleID bp) (Constraints bp0 ∪ {[Contraindicated]})]
          ++ inspected
      ∧ (if bundle.Has (flags bp) bundle.StatusRequestForward
         then ∃ carried,
                report =
                  [EvStatusReport (bundleID bp) ForwardedBundle
                     NoInformation carried]
         else report = [])
      ∧ Forall purgePush inspected.
Proof.
  intros sendBundle bp0 c0 dst bp1 bp2 nodes Hwt Hh Hlife Hage Hdirect Hroute
    Hsent Hinspect Hadmin.
  pose proof (SendBundle_reportsReturn fuel) as Hret.
  destruct (forward_hopcount_primary _ _ _ Hh) as [Hp1 Hk1].
  destruct (forward_age_primary _ _ _ _ Hage) as [Hp2 Hk2].
  assert (primary bp2 = primary bp) as Hp by (by rewrite Hp2, Hp1).
  assert (Constraints bp2 = Constraints bp0) as Hk by (by rewrite Hk2, Hk1).
  assert (bundleID bp2 = bundleID bp) as Hid by (by apply bundleID_primary).
  assert (flags bp2 = flags bp) as Hfl by (unfold flags; by rewrite Hp).
  assert (wellTyped bp2 = true) as Hwt2.
  { destruct (forward_hopcount_wellTyped bp0 Hwt)
      as (bpx & ex & Hhx & Hwt1 & _).
    rewrite Hh in Hhx. injection Hhx as <- _.
    destruct (forward_age_wellTyped c0 bp1 Hwt1)
      as (bpy & ey & Hay & Hwty & _).
    rewrite Hage in Hay. by injection Hay as <- _. }
  set (c1 := log (EvSenderForBundle (bundleID bp))
               (log (EvSenderForDestination dst) c0)).
  assert (forward_nodes c0 bp2 = (c1, nodes, false)) as Hnodes.
  { unfold forward_nodes. rewrite Hp, Hid. fold dst.
    change (senderForDestination (log (EvSenderForDestination dst) c0) dst)
      with (senderForDestination c dst).
    rewrite Hdirect.
    change (routing (log (EvSenderForBundle (bundleID bp))
                       (log (EvSenderForDestination dst) c0)))
      with (routing c).
    by rewrite Hroute. }
  assert (trace c1 = trace c ++
    [EvForward (bundleID bp); EvPush (bundleID bp) (Constraints bp0);
     EvSenderForDestination dst; EvSenderForBundle (bundleID bp)]) as Htr1.
  { unfold c1. simpl trace. by rewrite <- !app_assoc. }
  unfold forward. fold bp0 c0.
  rewrite Hh, bind_Done, Hlife, Hage, bind_Done, Hnodes.
  destruct nodes as [|node nodes]; [done|].
  pose proof (forward_fanout_frame (node :: nodes) bp2 c1 false) as Hfr.
  destruct (forward_fanout_spec (node :: nodes) bp2 c1 false)
    as (c4 & Hf & Htr & _).
  rewrite Hf in Hfr |- *. simpl in Hfr.
  rewrite Hsent. simpl orb. cbv iota.
  assert (bundle.IsAdministrativeRecord (Bundle bp2) = true) as Hadm.
  { rewrite <- Hadmin. unfold bundle.IsAdministrativeRecord.
    fold (primary bp2) (primary bp). by rewrite Hp. }
  rewrite Hfl, Hadm.
  assert (∃ c5 report,
    (if bundle.Has (flags bp) bundle.StatusRequestForward
     then SendStatusReport sendBundle c4 bp2 ForwardedBundle NoInformation
     else mret c4) = Done c5
    ∧ trace c5 = trace c4 ++ report
    ∧ inspectAllBundles c5 = true
    ∧ (if bundle.Has (flags bp) bundle.StatusRequestForward
       then ∃ carried,
              report =
                [EvStatusReport (bundleID bp) ForwardedBundle
                   NoInformation carried]
       else report = []))
    as (c5 & report & -> & Htr5 & Hin5 & Hrep).
  { destruct (bundle.Has (flags bp) bundle.StatusRequestForward).
    - destruct (SendStatusReport_spec sendBundle c4 bp2 ForwardedBundle
                  NoInformation Hret) as (c5 & carried & Hs & Htr5).
      pose proof (SendStatusReport_frame sendBundle
                    (SendBundle_frame (S fuel)) _ _ _ _ _ Hs) as Hfr5.
      exists c5, [EvStatusReport (bundleID bp) ForwardedBundle NoInformation
                    carried].
      split; [done|]. split; [by rewrite Htr5, Hid|]. split; [|by eauto].
      destruct Hfr5 as (_ & _ & -> & _), Hfr as (_ & _ & -> & _). done.
    - exists c4, []. split; [done|]. split; [by rewrite app_nil_r|].
      split; [|done]. by destruct Hfr as (_ & _ & -> & _). }
  rewrite bind_Done, Hin5. simpl andb. cbv iota.
  destruct (bundleContraindicated_spec c5 bp2) as (c6 & -> & Htr6 & _).
  destruct (checkAdministrativeRecord_returns c6
              (AddConstraint Contraindicated bp2)) as (c7 & ok & Hck);
    [done|].
  destruct (checkAdministrativeRecord_trace _ _ _ _ Hck)
    as (inspected & Htr7 & Hpush).
  rewrite Hck, bind_Done.
  exists c7, report, inspected. split; [done|]. split; [|done].
  apply since_app. rewrite Htr7, Htr6, Htr5, Htr, Htr1, Hid.
  change (Constraints (AddConstraint Contraindicated bp2))
    with (Constraints bp2 ∪ {[Contraindicated]}).
  rewrite Hk. by rewrite <- !app_assoc.
Qed.

End Routing.

(** ** Local delivery and the reports of [receive] *)

Section Delivering.
Context `{!bundle.Constants} `{!Collaborators} `{!DistinctConstants}.

(** X4.  A bundle for an endpoint of the node that is no administrative
    record, or whose record has been checked, is handed to the agents whose
    endpoint is the destination, in the order of [Agents] and to no other
    agent; then the routing algorithm is notified, the delivery report is
    sent exactly when the flags ask for it, and the pack is purged and
    pushed, which is what the store then holds. *)
Theorem localDelivery_delivers (fuel : nat) (c c1 : Core) (bp : BundlePack) :
  let sendBundle := SendBundle (S fuel) in
  let c0 := log (EvLocalDelivery (bundleID bp)) c in
  (bundle.IsAdministrativeRecord (Bundle bp) = false ∧ c1 = c0)
  ∨ (bundle.IsAdministrativeRecord (Bundle bp) = true
     ∧ checkAdministrativeRecord c0 bp = Done (c1, true)) →
  ∃ c' report,
    localDelivery sendBundle c bp = Done (c', PurgeConstraints bp)
    ∧ store c' !! bundleID bp = Some (PurgeConstraints bp)
    ∧ since c1 c'
      = ((λ a, EvDeliver (agentId a) (bundleID bp))
         <$> filter (λ a, EndpointID a = bundle.Destination (primary bp))
               (Agents c))
        ++ [EvNotifyIncoming (bundleID bp)] ++ report
        ++ [EvPush (bundleID bp) ∅]
    ∧ (if bundle.Has (flags bp) bundle.StatusRequestDelivery
       then ∃ carried,
              report =
                [EvStatusReport (bundleID bp) DeliveredBundle NoInformation
                   carried]
       else report = []).
Proof.
  intros sendBundle c0 Hcheck.
  pose proof (SendBundle_reportsReturn fuel) as Hret.
  assert ((if bundle.IsAdministrativeRecord (Bundle bp)
           then checkAdministrativeRecord c0 bp
           else mret (c0, true)) = Done (c1, true)
          ∧ Agents c1 = Agents c) as [Hc Hag].
  { destruct Hcheck as [[-> ->]|[-> Hck]]; [done|]. split; [done|].
    by apply checkAdministrativeRecord_frame in Hck as (-> & _). }
  unfold localDelivery. fold c0. rewrite Hc, bind_Done. simpl negb. cbv iota.
  rewrite Hag.
  set (c2 := log (EvNotifyIncoming (bundleID bp))
               (deliver_agents (Agents c) c1 bp)).
  assert (trace c2 = trace c1
    ++ ((λ a, EvDeliver (agentId a) (bundleID bp))
        <$> filter (λ a, EndpointID a = bundle.Destination (primary bp))
              (Agents c))
    ++ [EvNotifyIncoming (bundleID bp)]) as Htr2.
  { unfold c2. simpl trace. rewrite deliver_agents_trace.
    by rewrite <- app_assoc. }
  clearbody c2.
  destruct (bundle.Has (flags bp) bundle.StatusRequestDelivery).
  - destruct (SendStatusReport_spec sendBundle c2 bp DeliveredBundle
                NoInformation Hret) as (c3 & carried & -> & Htr3).
    rewrite bind_Done. eexists _, _. split; [done|]. split.
    { simpl. apply lookup_insert_eq. }
    split; [|by eauto]. apply since_app. simpl trace.
    rewrite Htr3, Htr2. by rewrite <- !app_assoc.
  - rewrite bind_Done. eexists _, []. split; [done|]. split.
    { simpl. apply lookup_insert_eq. }
    split; [|done]. apply since_app. simpl trace.
    rewrite Htr2. by rewrite <- !app_assoc.
Qed.

(** X5.  For a bundle that the store does not know and none of whose
    unknown blocks asks for deletion, [receive] pushes the pack with
    [DispatchPending], sends the reception report exactly when the flags ask
    for it, and then one report with reason [BlockUnintelligible] for every
    unknown block that asks for one, also for a block that it removes; what
    it hands to [dispatching] is the pack whose canonical blocks are the
    surviving blocks, in their order. *)
Theorem receive_reports_unknown_blocks (fuel : nat) (c : Core)
    (bp : BundlePack) :
  let sendBundle := SendBundle (S fuel) in
  let cbs := bundle.CanonicalBlocks (Bundle bp) in
  let bp1 := AddConstraint DispatchPending bp in
  KnowsBundle (store c) bp = false →
  (∀ i cb, cbs !! i = Some cb → deletes cb = false) →
  ∃ c1 reception reports,
    receive sendBundle c bp
    = dispatching sendBundle c1
        (withBlocks bp1 (filter (λ cb, survives cb = true) cbs))
    ∧ since c c1
      = [EvReceive (bundleID bp);
         EvPush (bundleID bp) (Constraints bp ∪ {[DispatchPending]})]
        ++ reception ++ reports
    ∧ (if bundle.Has (flags bp) bundle.StatusRequestReception
       then ∃ carried,
              reception =
                [EvStatusReport (bundleID bp) ReceivedBundle NoInformation
                   carried]
       else reception = [])
    ∧ Forall (blockReport (bundleID bp)) reports
    ∧ length reports = length (filter (λ cb, asksReport cb = true) cbs)
    ∧ bundle.CanonicalBlocks
        (Bundle (withBlocks bp1 (filter (λ cb, survives cb = true) cbs)))
      = filter (λ cb, survives cb = true) cbs.
Proof.
  intros sendBundle cbs bp1 Hk Hdel.
  pose proof (SendBundle_reportsReturn fuel) as Hret.
  destruct (receive_reception sendBundle c bp Hret Hk)
    as (c2 & reception & -> & Htr2 & Hrec).
  fold bp1 cbs.
  destruct (receive_blocks_partial sendBundle 0 (length cbs) c2 bp1 Hret)
    as (c1 & reports & -> & Htr & Hrep & Hlen); [lia|done| |].
  { intros i cb _. apply Hdel. }
  change (bundle.CanonicalBlocks (Bundle bp1)) with cbs in *.
  rewrite take_0, drop_0, take_ge, drop_ge, app_nil_r in * by lia.
  simpl app. simpl receive_blocks. rewrite bind_Done.
  exists c1, reception, reports. split; [done|].
  split; [|done].
  apply since_app. rewrite Htr, Htr2. by rewrite <- !app_assoc.
Qed.

(** X6.  When an unknown block asks for the deletion of the bundle and no
    block above it does, [receive] reports on the unknown blocks from the
    last one down to this one, deletes the bundle with reason
    [BlockUnintelligible] and returns without entering [dispatching].  The
    deleted pack holds the blocks up to and including this one untouched
    (the block itself is not removed, the blocks below it are not looked at)
    and, of the blocks above, the surviving ones. *)
Theorem receive_unknown_block_deletes (fuel : nat) (c : Core)
    (bp : BundlePack) (k : nat) (cb : bundle.CanonicalBlock) :
  let sendBundle := SendBundle (S fuel) in
  let cbs := bundle.CanonicalBlocks (Bundle bp) in
  let bp1 := AddConstraint DispatchPending bp in
  let bp2 :=
    withBlocks bp1
      (take (S k) cbs ++ filter (λ cb, survives cb = true) (drop (S k) cbs)) in
  KnowsBundle (store c) bp = false →
  cbs !! k = Some cb →
  deletes cb = true →
  (∀ i cb', k < i → cbs !! i = Some cb' → deletes cb' = false) →
  ∃ c2 c' reception reports,
    receive sendBundle c bp = Done (c', PurgeConstraints bp2)
    ∧ since c c2
      = [EvReceive (bundleID bp);
         EvPush (bundleID bp) (Constraints bp ∪ {[DispatchPending]})]
        ++ reception ++ reports
    ∧ (if bundle.Has (flags bp) bundle.StatusRequestReception
       then ∃ carried,
              reception =
                [EvStatusReport (bundleID bp) ReceivedBundle NoInformation
                   carried]
       else reception = [])
    ∧ Forall (blockReport (bundleID bp)) reports
    ∧ length reports
      = length (filter (λ cb, asksReport cb = true) (drop k cbs))
    ∧ deletion_of c2 bp2 BlockUnintelligible c'
    ∧ Forall (λ e, entersDispatch e = false) (since c c')
    ∧ bundle.CanonicalBlocks (Bundle (PurgeConstraints bp2))
      = take (S k) cbs ++ filter (λ cb, survives cb = true) (drop (S k) cbs).
Proof.
  intros sendBundle cbs bp1 bp2 Hk Hcb Hdel Habove.
  pose proof (SendBundle_reportsReturn fuel) as Hret.
  pose proof (lookup_lt_Some _ _ _ Hcb) as Hlt.
  destruct (receive_reception sendBundle c bp Hret Hk)
    as (c1 & reception & -> & Htr1 & Hrec).
  fold bp1 cbs.
  destruct (receive_blocks_partial sendBundle (S k) (length cbs) c1 bp1 Hret)
    as (c3 & reports & -> & Htr3 & Hrep & Hlen); [lia|done| |].
  { intros i cb' [Hi _]. apply Habove. lia. }
  change (bundle.CanonicalBlocks (Bundle bp1)) with cbs in *.
  rewrite (take_ge cbs (length cbs)), (drop_ge cbs (length cbs)), app_nil_r
    in * by lia.
  fold bp2. simpl receive_blocks.
  assert ((take (S k) cbs
           ++ filter (λ cb, survives cb = true) (drop (S k) cbs)) !! k
          = Some cb) as ->.
  { rewrite lookup_app_l by (rewrite length_take; lia).
    by rewrite lookup_take_lt by lia. }
  unfold deletes in Hdel. apply andb_prop in Hdel as [Hunk Hdb].
  apply negb_true_iff in Hunk. rewrite Hunk, Hdb.
  assert (∃ c2 report,
    (if bundle.Has (bundle.BlockControlFlagsOf cb) bundle.StatusReportBlock
     then SendStatusReport sendBundle c3 bp2 ReceivedBundle BlockUnintelligible
     else mret c3) = Done c2
    ∧ trace c2 = trace c3 ++ report
    ∧ Forall (blockReport (bundleID bp)) report
    ∧ length report = length (filter (λ cb, asksReport cb = true) [cb]))
    as (c2 & report & -> & Htr2 & Hrep2 & Hlen2).
  { rewrite filter_cons, filter_nil. unfold asksReport. rewrite Hunk.
    simpl negb. rewrite andb_true_l.
    destruct (bundle.Has _ bundle.StatusReportBlock).
    - edestruct SendStatusReport_spec as (c2 & carried & -> & Htr2);
        [done|].
      eexists _, _. split; [done|]. split; [done|].
      rewrite decide_True by done. split; [|done].
      constructor; [by eexists|done].
    - exists c3, []. rewrite decide_False by done.
      by rewrite app_nil_r. }
  rewrite bind_Done.
  destruct (bundleDeletion_spec sendBundle c2 bp2 BlockUnintelligible)
    as (c' & -> & Hdeln); [by left|].
  rewrite !bind_Done. cbv iota.
  assert (trace c2 = trace c ++
    [EvReceive (bundleID bp);
     EvPush (bundleID bp) (Constraints bp ∪ {[DispatchPending]})]
    ++ reception ++ (reports ++ report)) as Htr.
  { rewrite Htr2, Htr3, Htr1. by rewrite <- !app_assoc. }
  exists c2, c', reception, (reports ++ report).
  split; [done|]. split; [by apply since_app|]. split; [done|].
  split; [by apply Forall_app|]. split.
  { rewrite length_app, Hlen, Hlen2, (drop_S _ _ _ Hcb).
    rewrite (filter_cons _ cb).
    destruct (decide (asksReport cb = true)).
    - rewrite filter_cons, decide_True by done. simpl. lia.
    - rewrite filter_cons, decide_False by done. simpl. lia. }
  split; [done|]. split; [|done].
  destruct Hdeln as (_ & rp & Htr' & Hrp).
  rewrite (since_app c c' _
             ltac:(rewrite Htr', Htr, <- !app_assoc; reflexivity)).
  assert (∀ l id, Forall (blockReport id) l →
            Forall (λ e, entersDispatch e = false) l) as Hbr.
  { intros l id Hl. eapply Forall_impl; [exact Hl|]. by intros e [? ->]. }
  assert (Forall (λ e, entersDispatch e = false) reception) as Hrc.
  { destruct (bundle.Has (flags bp) bundle.StatusRequestReception);
      [destruct Hrec as [? ->]|subst reception]; by repeat constructor. }
  assert (Forall (λ e, entersDispatch e = false) rp) as Hrpd.
  { destruct (bundle.Has (flags bp2) bundle.StatusRequestDeletion);
      [destruct Hrp as [? ->]|subst rp]; by repeat constructor. }
  rewrite !Forall_app. repeat split; eauto; by repeat constructor.
Qed.

(** X8.  On a bundle whose blocks hold data of the right dynamic type the
    pipeline returns, without a panic, and a depth of two suffices: the run
    of a status report sends no report of its own.  A bundle that asks for no
    report needs a depth of one. *)
Theorem SendBundle_returns (c : Core) (bndl : bundle.Bundle) :
  wellTyped (NewBundlePack c bndl) = true →
  returns (SendBundle 2 c bndl)
  ∧ (silent (NewBundlePack c bndl) → returns (SendBundle 1 c bndl)).
Proof.
  intros Hwt. split.
  - simpl SendBundle.
    destruct (transmit_returns (SendBundle 1) c (NewBundlePack c bndl) Hwt)
      as [[c' bp'] Ht].
    { left. apply (SendBundle_reportsReturn 0). }
    change (SendBundle 1) with (λ c b, SendBundle 1 c b) in Ht.
    simpl in Ht. rewrite Ht. apply returns_Done.
  - intros Hs.
    destruct (transmit_returns (SendBundle 0) c (NewBundlePack c bndl) Hwt)
      as [[c' bp'] Ht]; [by right|].
    simpl in *. rewrite Ht. apply returns_Done.
Qed.

End Delivering.

(** ** What the pipeline leaves behind *)

Section Leaving.
Context `{!bundle.Constants} `{!Collaborators}.

(** X7.  Whatever way a bundle takes from [transmit], or from [receive] when
    the store does not know it, the pack that comes back is no longer
    dispatch pending: its constraints are empty (delivered, deleted, or
    forwarded for good), or the former ones with [ForwardPending] in place of
    [DispatchPending], with or without [Contraindicated]. *)
Theorem pipeline_leaves_no_dispatch_pending
    (sendBundle : Core → bundle.Bundle → Outcome Core)
    (c c' : Core) (bp bp' : BundlePack) :
  transmit sendBundle c bp = Done (c', bp')
  ∨ (KnowsBundle (store c) bp = false
     ∧ receive sendBundle c bp = Done (c', bp')) →
  let pending := Constraints bp ∖ {[DispatchPending]} ∪ {[ForwardPending]} in
  (Constraints bp' = ∅
   ∨ Constraints bp' = pending
   ∨ Constraints bp' = pending ∪ {[Contraindicated]})
  ∧ DispatchPending ∉ Constraints bp'.
Proof.
  intros Hrun pending.
  assert (Constraints bp' = ∅
          ∨ Constraints bp' = pending
          ∨ Constraints bp' = pending ∪ {[Contraindicated]}) as Hcase.
  { destruct Hrun as [Ht|[Hk Hr]].
    - unfold transmit in Ht.
      destruct (idKeeper_update _ _) as [ck b].
      destruct (_ && _).
      + apply bundleDeletion_purges in Ht as ->. by left.
      + apply dispatching_constraints in Ht. simpl in Ht.
        rewrite pending_transmit in Ht. exact Ht.
    - unfold receive in Hr.
      change (store (log (EvReceive (bundleID bp)) c)) with (store c) in Hr.
      rewrite Hk in Hr.
      apply bind_Done_inv in Hr as (c2 & _ & Hr).
      apply bind_Done_inv in Hr as ([[c3 bp3] del] & Hw & Hr).
      apply receive_blocks_constraints in Hw.
      destruct del.
      + injection Hr as _ <-. by left.
      + apply dispatching_constraints in Hr. rewrite Hw in Hr. simpl in Hr.
        rewrite pending_transmit in Hr. exact Hr. }
  split; [done|].
  destruct (pending_no_dispatch (Constraints bp)) as [Hp1 Hp2].
  destruct Hcase as [->|[->| ->]]; [|done..].
  apply not_elem_of_empty.
Qed.


(** X9.  No run of the pipeline changes the agents, the routing algorithm,
    the inspection switch or the node's identity and endpoints: neither
    [SendBundle], at any depth, nor [receive]. *)
Theorem pipeline_keeps_configuration (fuel : nat) (c c' : Core)
    (bndl : bundle.Bundle) (bp bp' : BundlePack) :
  SendBundle fuel c bndl = Done c'
  ∨ receive (SendBundle fuel) c bp = Done (c', bp') →
  Agents c' = Agents c ∧ routing c' = routing c
  ∧ inspectAllBundles c' = inspectAllBundles c ∧ nodeId c' = nodeId c
  ∧ endpoints c' = endpoints c.
Proof.
  assert (sameConfig c c' → Agents c' = Agents c ∧ routing c' = routing c
          ∧ inspectAllBundles c' = inspectAllBundles c ∧ nodeId c' = nodeId c
          ∧ endpoints c' = endpoints c) as Hsame.
  { by intros (? & ? & ? & ? & ? & _). }
  intros [Hs|Hr]; apply Hsame.
  - by apply SendBundle_frame in Hs.
  - apply receive_frame in Hr; [done|]. apply SendBundle_frame.
Qed.

End Leaving.

(** *** Local delivery and forwarding exclude each other *)

Section Adding.

Context `{!bundle.Constants} `{!Collaborators}.
Variable P : Event → Prop.

Lemma adds_refl c : adds P c c.
Proof. exists []. by rewrite app_nil_r. Qed.

Lemma adds_trans c1 c2 c3 : adds P c1 c2 → adds P c2 c3 → adds P c1 c3.
Proof.
  intros (t1 & H1 & F1) (t2 & H2 & F2). exists (t1 ++ t2).
  split; [by rewrite H2, H1, app_assoc|by apply Forall_app].
Qed.

Lemma adds_log c e : P e → adds P c (log e c).
Proof. intros He. exists [e]. split; [done|by constructor]. Qed.

Lemma adds_Push c bp :
  P (EvPush (bundleID bp) (Constraints bp)) → adds P c (Push c bp).
Proof.
  intros He. exists [EvPush (bundleID bp) (Constraints bp)].
  split; [done|by constructor].
Qed.

Lemma adds_after_log c e c' : P e → adds P (log e c) c' → adds P c c'.
Proof. intros He. apply adds_trans. by apply adds_log. Qed.

Lemma adds_since c c' : adds P c c' → Forall P (since c c').
Proof. intros (tr & Htr & Hall). by rewrite (since_app _ _ _ Htr). Qed.

Lemma SendStatusReport_adds sendBundle c bp status reason c' :
  (∀ carried, P (EvStatusReport (bundleID bp) status reason carried)) →
  SendStatusReport sendBundle c bp status reason = Done c' → adds P c c'.
Proof.
  intros HP. unfold SendStatusReport.
  intros (c1 & _ & [= <-])%bind_Done_inv.
  eexists [_]. split; [done|]. by constructor.
Qed.

Lemma report_if_adds sendBundle (b : bool) c bp status reason c' :
  (∀ carried, P (EvStatusReport (bundleID bp) status reason carried)) →
  (if b then SendStatusReport sendBundle c bp status reason else mret c)
  = Done c' →
  adds P c c'.
Proof.
  intros HP. destruct b; [by apply SendStatusReport_adds|].
  intros [= <-]. apply adds_refl.
Qed.

Lemma bundleDeletion_adds sendBundle c bp reason c' bp' :
  (∀ carried, P (EvStatusReport (bundleID bp) DeletedBundle reason carried)) →
  P (EvPush (bundleID bp) ∅) → P (EvDeletion (bundleID bp)) →
  bundleDeletion sendBundle c bp reason = Done (c', bp') → adds P c c'.
Proof.
  intros HPr HPp HPd. unfold bundleDeletion.
  intros (c1 & Hs & [= <- _])%bind_Done_inv.
  apply report_if_adds in Hs; [|done].
  eapply adds_trans; [exact Hs|].
  eapply adds_trans; [apply (adds_Push c1 (PurgeConstraints bp)); exact HPp|].
  by apply adds_log.
Qed.

Lemma purgePush_adds c c' :
  (∀ id, P (EvPush id ∅)) →
  (∃ tr, trace c' = trace c ++ tr ∧ Forall purgePush tr) → adds P c c'.
Proof.
  intros HP (tr & Htr & Hall). exists tr. split; [done|].
  eapply Forall_impl; [exact Hall|]. by intros e [id ->].
Qed.

Lemma forward_fanout_adds nodes bp c sent :
  (∀ node, Forall P (sendEvents bp node)) →
  adds P c (forward_fanout nodes bp (c, sent)).1.
Proof.
  intros HP.
  destruct (forward_fanout_spec nodes bp c sent) as (c' & -> & Htr & _).
  exists (concat (sendEvents bp <$> nodes)). split; [done|].
  apply Forall_concat, Forall_fmap, Forall_forall.
  intros node _. apply HP.
Qed.

End Adding.

Section Separating.

Context `{!bundle.Constants} `{!Collaborators}.

Lemma localDelivery_consults_no_sender sendBundle c bp c' bp' :
  localDelivery sendBundle c bp = Done (c', bp') →
  adds (λ e, consultsSender e = false) c c'.
Proof.
  unfold localDelivery. intros ([c1 ok] & Hc & Hrest)%bind_Done_inv.
  apply (adds_after_log _ _ (EvLocalDelivery (bundleID bp))); [done|].
  assert (adds (λ e, consultsSender e = false)
            (log (EvLocalDelivery (bundleID bp)) c) c1) as H1.
  { destruct (bundle.IsAdministrativeRecord _).
    - apply purgePush_adds; [done|].
      by eapply checkAdministrativeRecord_trace.
    - injection Hc as <- _. apply adds_refl. }
  eapply adds_trans; [exact H1|].
  destruct ok; simpl in Hrest.
  - apply bind_Done_inv in Hrest as (c2 & Hs & [= <- _]).
    apply (report_if_adds (λ e, consultsSender e = false)) in Hs; [|done].
    eapply adds_trans; [|by apply adds_Push].
    eapply adds_trans; [|exact Hs].
    eapply adds_trans; [|by apply adds_log].
    eexists. split; [apply deliver_agents_trace|].
    apply Forall_fmap, Forall_forall. by intros a _.
  - by apply (bundleDeletion_adds (λ e, consultsSender e = false)) in Hrest.
Qed.

Lemma forward_delivers_nothing sendBundle c bp c' bp' :
  forward sendBundle c bp = Done (c', bp') →
  adds (λ e, delivers e = false) c c'.
Proof.
  set (P := λ e, delivers e = false).
  unfold forward.
  set (bp0 :=
         RemoveConstraint DispatchPending (AddConstraint ForwardPending bp)).
  set (c0 := Push _ bp0).
  assert (adds P c c0) as Hc0.
  { apply (adds_after_log _ _ (EvForward (bundleID bp))); [done|].
    by apply adds_Push. }
  intros ([bp1 ex] & _ & Hrest)%bind_Done_inv.
  eapply adds_trans; [exact Hc0|]. clearbody c0. clear Hc0.
  destruct ex; [by apply (bundleDeletion_adds P) in Hrest|].
  destruct (IsLifetimeExceeded _ _);
    [by apply (bundleDeletion_adds P) in Hrest|].
  apply bind_Done_inv in Hrest as ([bp2 ex2] & _ & Hrest).
  destruct ex2; [by apply (bundleDeletion_adds P) in Hrest|].
  assert (adds P c0 (forward_nodes c0 bp2).1.1) as Hn.
  { unfold forward_nodes.
    destruct (senderForDestination _ _); [|by apply adds_log].
    destruct (SenderForBundle _ _). simpl.
    eapply adds_after_log; [|by apply adds_log]. done. }
  destruct (forward_nodes c0 bp2) as [[c3 nodes] del]. simpl in Hn.
  eapply adds_trans; [exact Hn|].
  assert (∀ c, adds P c (bundleContraindicated c bp2).1) as Hcontra.
  { intros cx. unfold bundleContraindicated. simpl.
    eapply adds_after_log; [|by apply adds_Push]. done. }
  destruct nodes as [|node nodes].
  { injection Hrest as <- _. apply Hcontra. }
  pose proof (forward_fanout_adds P (node :: nodes) bp2 c3 false) as Hf.
  destruct (forward_fanout (node :: nodes) bp2 (c3, false)) as [c4 sent].
  eapply adds_trans.
  { apply Hf. intros x. unfold sendEvents.
    destruct (Send x (Bundle bp2)); by repeat constructor. }
  simpl. destruct sent.
  - apply bind_Done_inv in Hrest as (c5 & Hs & Hrest).
    apply (report_if_adds P) in Hs; [|done].
    eapply adds_trans; [exact Hs|].
    destruct del.
    + injection Hrest as <- _. by apply adds_Push.
    + destruct (_ && _).
      * pose proof (Hcontra c5) as Hc.
        destruct (bundleContraindicated c5 bp2) as [c6 bp6]. simpl in Hc.
        apply bind_Done_inv in Hrest as ([c7 b] & Hck & [= <- _]).
        eapply adds_trans; [exact Hc|].
        apply purgePush_adds; [done|].
        by eapply checkAdministrativeRecord_trace.
      * injection Hrest as <- _. apply adds_refl.
  - injection Hrest as <- _. apply Hcontra.
Qed.

(** X23.  [dispatching] takes one of two ways that exclude each other, by
    the destination alone.  A bundle for an endpoint of the node is delivered
    locally: no convergence sender is looked up for it, the routing algorithm
    is not asked and nothing is sent, even when a sender for the destination
    is registered, and the pack comes back with its constraints purged.  A
    bundle for any other endpoint is forwarded: no agent is handed the
    bundle, the agents are not notified and no delivery report is sent,
    whatever becomes of the bundle.  Status reports sent on the way run
    through the pipeline on their own. *)
Theorem dispatching_delivers_or_forwards
    (sendBundle : Core → bundle.Bundle → Outcome Core)
    (c c' : Core) (bp bp' : BundlePack) :
  dispatching sendBundle c bp = Done (c', bp') →
  if HasEndpoint c (bundle.Destination (primary bp))
  then Forall (λ e, consultsSender e = false) (since c c')
       ∧ bp' = PurgeConstraints bp
  else Forall (λ e, delivers e = false) (since c c').
Proof.
  unfold dispatching.
  change (HasEndpoint (log (EvDispatching (bundleID bp)) c)
            (bundle.Destination (primary bp)))
    with (HasEndpoint c (bundle.Destination (primary bp))).
  destruct (HasEndpoint c _); intros Hd.
  - split; [|by apply localDelivery_purges in Hd].
    apply adds_since.
    apply (adds_after_log _ _ (EvDispatching (bundleID bp))); [done|].
    by apply localDelivery_consults_no_sender in Hd.
  - apply adds_since.
    apply (adds_after_log _ _ (EvDispatching (bundleID bp))); [done|].
    by apply forward_delivers_nothing in Hd.
Qed.

(** X24.  The two type assertions of the pipeline that have no second
    result panic on a block of the right type with data of another dynamic
    type, whatever the state of the node.  [forward] panics on a bundle whose
    hop-count block holds anything but a hop count, and so does [dispatching]
    when the destination is not an endpoint of the node;
    [checkAdministrativeRecord] panics on an administrative bundle whose
    payload block holds anything but a byte string, and so do
    [localDelivery] and, for a destination of the node, [dispatching]. *)
Theorem pipeline_panics_on_ill_typed_data
    (sendBundle : Core → bundle.Bundle → Outcome Core)
    (c : Core) (bp : BundlePack) (i : nat) (cb : bundle.CanonicalBlock) :
  (bundle.ExtensionBlock (Bundle bp) bundle.HopCountBlock = Some (i, cb) →
   (∀ hc, bundle.Data cb ≠ bundle.DataHopCount hc) →
   forward sendBundle c bp = Panic
   ∧ (HasEndpoint c (bundle.Destination (primary bp)) = false →
      dispatching sendBundle c bp = Panic))
  ∧ (bundle.IsAdministrativeRecord (Bundle bp) = true →
     bundle.ExtensionBlock (Bundle bp) bundle.PayloadBlock = Some (i, cb) →
     (∀ data, bundle.Data cb ≠ bundle.DataBytes data) →
     checkAdministrativeRecord c bp = Panic
     ∧ localDelivery sendBundle c bp = Panic
     ∧ (HasEndpoint c (bundle.Destination (primary bp)) = true →
        dispatching sendBundle c bp = Panic)).
Proof.
  split.
  - intros Hx Hty.
    assert (∀ c, forward sendBundle c bp = Panic) as Hfw.
    { intros cx. unfold forward, forward_hopcount. simpl. rewrite Hx.
      destruct (bundle.Data cb) eqn:Hd; try done. by destruct (Hty hc). }
    split; [apply Hfw|]. intros Hdst. unfold dispatching.
    change (HasEndpoint (log (EvDispatching (bundleID bp)) c)
              (bundle.Destination (primary bp)))
      with (HasEndpoint c (bundle.Destination (primary bp))).
    rewrite Hdst. apply Hfw.
  - intros Hadm Hx Hty.
    assert (∀ c, checkAdministrativeRecord c bp = Panic) as Hck.
    { intros cx. unfold checkAdministrativeRecord. rewrite Hadm, Hx. simpl.
      destruct (bundle.Data cb) eqn:Hd; try done. by destruct (Hty bs). }
    assert (∀ c, localDelivery sendBundle c bp = Panic) as Hld.
    { intros cx. unfold localDelivery. by rewrite Hadm, Hck. }
    split; [apply Hck|]. split; [apply Hld|]. intros Hdst.
    unfold dispatching.
    change (HasEndpoint (log (EvDispatching (bundleID bp)) c)
              (bundle.Destination (primary bp)))
      with (HasEndpoint c (bundle.Destination (primary bp))).
    rewrite Hdst. apply Hld.
Qed.

End Separating.

(** ** The further statements on the sample node *)

Section OnTheSampleNodeAgain.

#[local] Existing Instance sample.constants.
#[local] Existing Instance sample.collaborators.
#[local] Existing Instance sample_distinct.

(** The fan-out over both senders of the sample node: the send to [peer]
    fails, the send to [friend] succeeds, and the registry holds the same two
    senders afterwards. *)
Lemma forward_fanout_sends_to_all_witness :
  ∃ c',
    forward_fanout [sample.peerSender; sample.friendSender] sample.peerPack
      (sample.node, false)
    = (c', true)
    ∧ convergenceSenders c' ≡ₚ convergenceSenders sample.node.
Proof.
  destruct (forward_fanout_sends_to_all
              [sample.peerSender; sample.friendSender] sample.peerPack
              sample.node) as (c' & Hf & _ & _ & _ & Hperm).
  exists c'. split; [exact Hf|]. apply Hperm.
  - simpl. apply NoDup_cons. split; [|apply NoDup_singleton].
    intros Hin%list_elem_of_singleton. discriminate Hin.
  - intros x Hx. exact Hx.
Defined.

(** On the sample node the bundle for the far endpoint finds no route and
    ends contraindicated; on the node with the routing algorithm it is sent
    and stays forward pending. *)
Lemma forward_by_routing_witness :
  senderForDestination sample.node sample.far = []
  ∧ (∃ c',
       forward (SendBundle 1) sample.node sample.farPack
       = Done (c',
               AddConstraint Contraindicated (sample.pending sample.farPack)))
  ∧ (∃ c',
       forward (SendBundle 1) sample.routingNode sample.farPack
       = Done (c', sample.pending sample.farPack)
       ∧ ForwardPending ∈ Constraints (sample.pending sample.farPack)).
Proof.
  split; [reflexivity|]. split.
  - destruct (forward_by_routing 0 sample.node sample.farPack
                (sample.pending sample.farPack)
                (sample.pending sample.farPack) [] false)
      as [H1 _]; [reflexivity..|].
    destruct (H1 eq_refl) as (c' & Hfw & _).
    exists c'. exact Hfw.
  - destruct (forward_by_routing 0 sample.routingNode sample.farPack
                (sample.pending sample.farPack)
                (sample.pending sample.farPack) [sample.friendSender] false)
      as [_ H2]; [reflexivity..|].
    destruct (H2 eq_refl eq_refl eq_refl) as (c' & report & Hfw & _).
    exists c'. split; [exact Hfw|]. by vm_compute.
Defined.

(** On the inspecting node the forwarded record, which cannot be read, is
    kept and marked contraindicated. *)
Lemma forward_inspects_forwarded_record_witness :
  checkAdministrativeRecord sample.inspectingNode sample.farRecord
  = Done (sample.inspectingNode, false)
  ∧ ∃ c',
      forward (SendBundle 1) sample.inspectingNode sample.farRecord
      = Done (c',
              AddConstraint Contraindicated
                (sample.pending sample.farRecord)).
Proof.
  split; [reflexivity|].
  destruct (forward_inspects_forwarded_record 0 sample.inspectingNode
              sample.farRecord (sample.pending sample.farRecord)
              (sample.pending sample.farRecord) [sample.friendSender])
    as (c' & report & inspected & Hfw & _); [reflexivity..|].
  exists c'. exact Hfw.
Defined.

(** The bundle for the application agent is delivered, and the store holds
    the purged pack. *)
Lemma localDelivery_delivers_witness :
  bundle.IsAdministrativeRecord (Bundle sample.appPack) = false
  ∧ ∃ c',
      localDelivery (SendBundle 1) sample.node sample.appPack
      = Done (c', PurgeConstraints sample.appPack)
      ∧ store c' !! bundleID sample.appPack
        = Some (PurgeConstraints sample.appPack).
Proof.
  assert (bundle.IsAdministrativeRecord (Bundle sample.appPack) = false)
    as Hadmin by reflexivity.
  split; [exact Hadmin|].
  destruct (localDelivery_delivers 0 sample.node
              (log (EvLocalDelivery (bundleID sample.appPack)) sample.node)
              sample.appPack (or_introl (conj Hadmin eq_refl)))
    as (c' & report & Hld & Hst & _).
  exists c'. split; [exact Hld|exact Hst].
Defined.

(** The unknown block of the sample bundle asks for a report and for its
    removal: one report is sent and the payload block is what is left. *)
Lemma receive_reports_unknown_blocks_witness :
  KnowsBundle (store sample.node) sample.reportingPack = false
  ∧ ∃ c1 reports,
      receive (SendBundle 1) sample.node sample.reportingPack
      = dispatching (SendBundle 1) c1
          (withBlocks (AddConstraint DispatchPending sample.reportingPack)
             [sample.payload])
      ∧ Forall (blockReport (bundleID sample.reportingPack)) reports
      ∧ length reports = 1
      ∧ bundle.CanonicalBlocks
          (Bundle
             (withBlocks (AddConstraint DispatchPending sample.reportingPack)
                [sample.payload]))
        = [sample.payload].
Proof.
  assert (KnowsBundle (store sample.node) sample.reportingPack = false)
    as Hk by (by vm_compute).
  split; [exact Hk|].
  destruct (receive_reports_unknown_blocks 0 sample.node sample.reportingPack
              Hk)
    as (c1 & reception & reports & Hrc & _ & _ & Hrep & Hlen & Hcbs).
  { intros i cb. destruct i as [|[|i]]; simpl; intros [= <-]; reflexivity. }
  exists c1, reports. split; [exact Hrc|]. split; [exact Hrep|].
  split; [exact Hlen|exact Hcbs].
Defined.

(** The unknown block at index 1 of the sample bundle asks for the deletion:
    the block above it is removed, the bundle is deleted with both lower
    blocks in place, and [dispatching] is not entered. *)
Lemma receive_unknown_block_deletes_witness :
  deletes sample.deletingBlock = true
  ∧ ∃ c',
      receive (SendBundle 1) sample.node sample.deletingPack
      = Done (c',
              PurgeConstraints
                (withBlocks
                   (AddConstraint DispatchPending sample.deletingPack)
                   [sample.payload; sample.deletingBlock]))
      ∧ Forall (λ e, entersDispatch e = false) (since sample.node c')
      ∧ bundle.CanonicalBlocks
          (Bundle
             (PurgeConstraints
                (withBlocks
                   (AddConstraint DispatchPending sample.deletingPack)
                   [sample.payload; sample.deletingBlock])))
        = [sample.payload; sample.deletingBlock].
Proof.
  split; [reflexivity|].
  destruct (receive_unknown_block_deletes 0 sample.node sample.deletingPack
              1 sample.deletingBlock)
    as (c2 & c' & reception & reports & Hrc & _ & _ & _ & _ & _ & Hno
        & Hcbs);
    [by vm_compute|reflexivity|reflexivity| |].
  { intros i cb Hi. destruct i as [|[|[|i]]]; simpl; try lia;
      intros [= <-]; reflexivity. }
  exists c'. split; [exact Hrc|]. split; [exact Hno|exact Hcbs].
Defined.

(** The bundle of the node itself for [peer] leaves [transmit] without
    [DispatchPending]. *)
Lemma pipeline_leaves_no_dispatch_pending_witness :
  ∃ c' bp',
    transmit (SendBundle 1) sample.node sample.selfPack = Done (c', bp')
    ∧ DispatchPending ∉ Constraints bp'.
Proof.
  assert (∃ c' bp',
            transmit (SendBundle 1) sample.node sample.selfPack
            = Done (c', bp')) as (c' & bp' & Ht).
  { eexists _, _. vm_compute. reflexivity. }
  exists c', bp'. split; [exact Ht|].
  exact (proj2 (pipeline_leaves_no_dispatch_pending (SendBundle 1)
                  sample.node c' sample.selfPack bp' (or_introl Ht))).
Defined.

(** The pipeline returns on the bundle with the exhausted hop count, whose
    deletion is reported. *)
Lemma SendBundle_returns_witness :
  wellTyped (NewBundlePack sample.node (Bundle sample.hopPack)) = true
  ∧ returns (SendBundle 2 sample.node (Bundle sample.hopPack)).
Proof.
  split; [reflexivity|].
  exact (proj1 (SendBundle_returns sample.node (Bundle sample.hopPack)
                  eq_refl)).
Defined.

(** After the run of the sample bundle the node has the endpoints and the
    agents it had. *)
Lemma pipeline_keeps_configuration_witness :
  ∃ c',
    SendBundle 2 sample.node (Bundle sample.hopPack) = Done c'
    ∧ endpoints c' = endpoints sample.node
    ∧ Agents c' = Agents sample.node.
Proof.
  assert (∃ c', SendBundle 2 sample.node (Bundle sample.hopPack) = Done c')
    as (c' & Hs).
  { eexists. vm_compute. reflexivity. }
  exists c'. split; [exact Hs|].
  destruct (pipeline_keeps_configuration 2 sample.node c'
              (Bundle sample.hopPack) sample.hopPack sample.hopPack
              (or_introl Hs)) as (Hag & _ & _ & _ & Hen).
  split; [exact Hen|exact Hag].
Defined.

(** The sample bundle received a second time is dropped. *)
Lemma receive_twice_witness :
  ∃ c1 bp1,
    receive (SendBundle 1) sample.node sample.mixedPack = Done (c1, bp1)
    ∧ receive (SendBundle 1) c1 sample.mixedPack
      = Done (log (EvReceive (bundleID sample.mixedPack)) c1,
              sample.mixedPack).
Proof.
  assert (∃ c1 bp1,
            receive (SendBundle 1) sample.node sample.mixedPack
            = Done (c1, bp1)) as (c1 & bp1 & Hr).
  { eexists _, _. vm_compute. reflexivity. }
  exists c1, bp1. split; [exact Hr|].
  exact (proj1 (receive_twice 1 sample.node c1 sample.mixedPack bp1
                  sample.mixedPack Hr eq_refl)).
Defined.

(** The bundle for the application agent is dispatched on the sample node
    without a look at the senders; the bundle for [peer] without a look at
    the agents. *)
Lemma dispatching_delivers_or_forwards_witness :
  (∃ c' bp',
     dispatching (SendBundle 1) sample.node sample.appPack = Done (c', bp')
     ∧ Forall (λ e, consultsSender e = false) (since sample.node c')
     ∧ bp' = PurgeConstraints sample.appPack)
  ∧ (∃ c' bp',
       dispatching (SendBundle 1) sample.node sample.peerPack = Done (c', bp')
       ∧ Forall (λ e, delivers e = false) (since sample.node c')).
Proof.
  split.
  - assert (∃ c' bp',
              dispatching (SendBundle 1) sample.node sample.appPack
              = Done (c', bp')) as (c' & bp' & Hd).
    { eexists _, _. vm_compute. reflexivity. }
    exists c', bp'. split; [exact Hd|].
    exact (dispatching_delivers_or_forwards (SendBundle 1) sample.node c'
             sample.appPack bp' Hd).
  - assert (∃ c' bp',
              dispatching (SendBundle 1) sample.node sample.peerPack
              = Done (c', bp')) as (c' & bp' & Hd).
    { eexists _, _. vm_compute. reflexivity. }
    exists c', bp'. split; [exact Hd|].
    exact (dispatching_delivers_or_forwards (SendBundle 1) sample.node c'
             sample.peerPack bp' Hd).
Defined.

(** The sample node panics on the bundle whose hop-count block holds a byte
    string and on the administrative bundle whose payload is an integer. *)
Lemma pipeline_panics_on_ill_typed_data_witness :
  dispatching (SendBundle 1) sample.node sample.strayPack = Panic
  ∧ dispatching (SendBundle 1) sample.node sample.strayRecord = Panic.
Proof.
  split.
  - destruct (pipeline_panics_on_ill_typed_data (SendBundle 1) sample.node
                sample.strayPack 0 sample.strayHopBlock) as [H1 _].
    destruct H1 as [_ Hd]; [reflexivity|done|].
    apply Hd. reflexivity.
  - destruct (pipeline_panics_on_ill_typed_data (SendBundle 1) sample.node
                sample.strayRecord 0 sample.strayPayload) as [_ H2].
    destruct H2 as (_ & _ & Hd); [reflexivity|reflexivity|done|].
    apply Hd. reflexivity.
Defined.

End OnTheSampleNodeAgain.

End core.

(** ** The bundle builder *)

Module builder.

Section Build.
Context `{!bundle.Package}.

(** C10, as the code has it.  For a builder without prior error, [Build]
    returns an error exactly when the source node is unset, or the
    destination is unset, or [NewBundle] returns an error for the blocks of
    the builder; and when [Build] succeeds for a builder whose report-to
    endpoint is unset, the report-to endpoint of the built bundle is its
    source node. *)
Theorem Build_error_iff (bldr : bundle.BundleBuilder) :
  let pb :=
    if bool_decide (bundle.ReportTo (bundle.primary bldr) = bundle.EidZero)
    then bundle.setReportTo (bundle.primary bldr)
           (bundle.SourceNode (bundle.primary bldr))
    else bundle.primary bldr in
  bundle.err bldr = None →
  ((bundle.Build bldr).2 ≠ None
   ↔ bundle.SourceNode (bundle.primary bldr) = bundle.EidZero
     ∨ bundle.Destination (bundle.primary bldr) = bundle.EidZero
     ∨ (bundle.NewBundle pb (bundle.canonicals bldr)).2 ≠ None)
  ∧ (bundle.KeepsEndpoints →
     (bundle.Build bldr).2 = None →
     bundle.ReportTo (bundle.primary bldr) = bundle.EidZero →
     bundle.ReportTo (bundle.primaryBlock (bundle.Build bldr).1.2)
     = bundle.SourceNode (bundle.primaryBlock (bundle.Build bldr).1.2)).
Proof.
  intros pb Herr. unfold bundle.Build. rewrite Herr.
  assert (bundle.SourceNode pb = bundle.SourceNode (bundle.primary bldr)
          ∧ bundle.Destination pb = bundle.Destination (bundle.primary bldr))
    as [Hsrc Hdst].
  { unfold pb. by destruct (bool_decide _). }
  assert (∀ b, bundle.primary
                 (if bool_decide (bundle.ReportTo (bundle.primary bldr)
                                  = bundle.EidZero)
                  then bundle.setPrimary bldr
                         (bundle.setReportTo (bundle.primary bldr)
                            (bundle.SourceNode (bundle.primary bldr)))
                  else bldr) = b → b = pb) as Hpb.
  { intros b <-. unfold pb. by destruct (bool_decide _). }
  set (bldr' := if bool_decide _ then _ else bldr) in *.
  assert (bundle.canonicals bldr' = bundle.canonicals bldr) as Hcs.
  { unfold bldr'. by destruct (bool_decide _). }
  rewrite (Hpb _ eq_refl), Hcs, Hsrc, Hdst.
  destruct (decide (bundle.SourceNode (bundle.primary bldr) = bundle.EidZero))
    as [Hs|Hs].
  { rewrite bool_decide_eq_true_2 by done. simpl. split; [|done].
    split; [by left|done]. }
  rewrite (bool_decide_eq_false_2 _ Hs). simpl.
  destruct (decide (bundle.Destination (bundle.primary bldr) = bundle.EidZero))
    as [Hd|Hd].
  { rewrite bool_decide_eq_true_2 by done. simpl. split; [|done].
    split; [by right; left|done]. }
  rewrite (bool_decide_eq_false_2 _ Hd).
  destruct (bundle.NewBundle pb (bundle.canonicals bldr)) as [b [e|]] eqn:Hnew;
    simpl.
  - split; [|done]. split; [by right; right|done].
  - split; [split; [done|by intros [|[|]]]|].
    intros Hkeep _ Hzero.
    destruct (bundle.NewBundle_endpoints _ _ _ Hnew) as [Hbs Hbr].
    destruct (bundle.SetCRCType_endpoints b (bundle.crcType bldr'))
      as [Hss Hsr].
    destruct (bundle.CalculateCRC_endpoints
                (bundle.SetCRCType b (bundle.crcType bldr'))) as [Hcs' Hcr].
    rewrite Hcr, Hsr, Hbr, Hcs', Hss, Hbs, Hsrc.
    unfold pb. by rewrite bool_decide_eq_true_2.
Qed.

End Build.

(** ** The statements on the sample package *)

Section OnTheSamplePackage.

#[local] Existing Instance bundle.sample.package.

Lemma sample_keeps : bundle.KeepsEndpoints.
Proof.
  split.
  - intros p cbs b. simpl. destruct (bundle.sample.valid _); [|done].
    by intros [= <-].
  - done.
  - done.
Defined.

(** The sample builder with a creation time builds, and the bundle reports
    to its source. *)
Lemma Build_error_iff_witness :
  bundle.err bundle.sample.timedBuilder = None
  ∧ (bundle.Build bundle.sample.timedBuilder).2 = None
  ∧ bundle.ReportTo (bundle.primary bundle.sample.timedBuilder) = bundle.EidZero
  ∧ bundle.ReportTo
      (bundle.primaryBlock (bundle.Build bundle.sample.timedBuilder).1.2)
    = bundle.EidDtn "//src/".
Proof.
  split; [reflexivity|]. split; [reflexivity|]. split; [reflexivity|].
  exact (proj2 (Build_error_iff bundle.sample.timedBuilder eq_refl)
           sample_keeps eq_refl eq_refl).
Defined.

(** C10, as stated, fails: the sample builder has no prior error, a source
    node and a destination, and [Build] returns the error of [NewBundle]. *)
Lemma Build_error_with_endpoints_set :
  bundle.err bundle.sample.bareBuilder = None
  ∧ bundle.SourceNode (bundle.primary bundle.sample.bareBuilder)
    = bundle.EidDtn "//src/"
  ∧ bundle.Destination (bundle.primary bundle.sample.bareBuilder)
    = bundle.EidDtn "//dest/"
  ∧ (bundle.Build bundle.sample.bareBuilder).2 = Some "invalid bundle"
  ∧ ¬ bundle.errorIffUnset bundle.sample.bareBuilder.
Proof.
  split; [reflexivity|]. split; [reflexivity|]. split; [reflexivity|].
  split; [reflexivity|].
  intros Hiff. destruct (proj1 Hiff) as [Hs|Hd]; done.
Qed.

End OnTheSamplePackage.

End builder.

(** ** The methods of the bundle builder *)

Module bldr_facts.
Import bldr.

Section Chains.
Context `{!bundle.Constants} `{!bundle.Package} `{!Environment}.

Lemma Canonical_after_error bldr e args :
  bundle.err bldr = Some e → Canonical bldr args = bldr.
Proof. intros He. unfold Canonical. by rewrite He. Qed.

Lemma call_after_error bldr e c :
  bundle.err bldr = Some e → isPayloadBlock c = false →
  call bldr c = Done bldr.
Proof.
  intros He Hc. destruct c; try done; simpl;
    unfold CRC, bundle.SetDestination, bundle.Source, bundle.SetReportTo,
      bundle.creationTimestamp, Lifetime, BundleCtrlFlags, Canonical,
      BundleAgeBlock, HopCountBlock, PreviousNodeBlock;
    by rewrite He.
Qed.

Lemma PayloadBlock_after_error bldr e args bldr' :
  bundle.err bldr = Some e → PayloadBlock bldr args = Done bldr' →
  is_Some (bundle.err bldr') ∧ sameRecord bldr bldr'.
Proof.
  intros He. unfold PayloadBlock. destruct args as [|a rest]; [done|]. simpl.
  destruct (binaryWrite a) as [e'|buf]; intros [= <-].
  - by split; [eexists|].
  - rewrite (Canonical_after_error _ e) by done. by split; [eexists|].
Qed.

Lemma call_error_stays bldr c bldr' :
  is_Some (bundle.err bldr) → call bldr c = Done bldr' →
  is_Some (bundle.err bldr') ∧ sameRecord bldr bldr'.
Proof.
  intros [e He] Hc. destruct (isPayloadBlock c) eqn:Hp.
  - destruct c; try done. by eapply PayloadBlock_after_error.
  - rewrite (call_after_error _ e) in Hc by done. injection Hc as <-.
    by split; [eexists|].
Qed.

(** X13.  Once the builder holds an error it records nothing more.  Every
    call other than [PayloadBlock] returns the builder as it is, whatever the
    arguments; after any chain of calls the primary block, the blocks, the
    block counter and the CRC type are as they were and an error is still in
    place; and [Build] returns the error with the zero bundle.
    [PayloadBlock] alone writes its argument before it looks at the error,
    and when the write fails it puts the write's error in the place of the
    earlier one. *)
Theorem chain_after_error (bldr : bundle.BundleBuilder) (e : string) :
  bundle.err bldr = Some e →
  (∀ cs, forallb (λ c, negb (isPayloadBlock c)) cs = true →
         chain bldr cs = Done bldr)
  ∧ (∀ cs bldr', chain bldr cs = Done bldr' →
       is_Some (bundle.err bldr') ∧ sameRecord bldr bldr')
  ∧ bundle.Build bldr = (bldr, bundle.zeroBundle, Some e)
  ∧ (∀ a rest e', binaryWrite a = inl e' →
       PayloadBlock bldr (a :: rest) = Done (bundle.setErr bldr (Some e'))).
Proof.
  intros He. split; [|split; [|split]].
  - induction cs as [|c cs IH]; [done|]. simpl. intros [Hc Hcs]%andb_prop.
    rewrite (call_after_error _ e); [|done|by destruct (isPayloadBlock c)].
    simpl. by apply IH.
  - intros cs. assert (Hs : is_Some (bundle.err bldr)) by by eexists.
    clear He. revert bldr Hs.
    induction cs as [|c cs IH]; intros bldr Hs bldr'; simpl.
    + by intros [= <-].
    + destruct (call bldr c) as [b1| |] eqn:Hc; try done. simpl.
      intros Hcs. destruct (call_error_stays _ _ _ Hs Hc) as [Hs1 Hr1].
      destruct (IH _ Hs1 _ Hcs) as [Hs' Hr']. split; [done|].
      destruct Hr1 as (?&?&?&?), Hr' as (?&?&?&?).
      repeat split; congruence.
  - unfold bundle.Build. by rewrite He.
  - intros a rest e' Hw. unfold PayloadBlock. simpl. by rewrite Hw.
Qed.

(** X14.  A call that fails changes the error of the builder and nothing
    else: when a builder without error holds one after a call, be it of a
    setter, of [Canonical] or of one of the block methods, the call has left
    the primary block, the blocks, the block counter and the CRC type as
    they were. *)
Theorem call_failure_is_atomic (bldr : bundle.BundleBuilder) (c : Call)
    (bldr' : bundle.BundleBuilder) :
  bundle.err bldr = None → call bldr c = Done bldr' →
  bundle.err bldr' ≠ None →
  bldr' = bundle.setErr bldr (bundle.err bldr').
Proof.
  intros He Hc Hne.
  assert (Hcan : ∀ b args, bundle.err b = None →
            bundle.err (Canonical b args) ≠ None →
            Canonical b args = bundle.setErr b (bundle.err (Canonical b args))).
  { intros b args Hb. unfold Canonical. rewrite Hb.
    destruct args as [|a0 [|a1 [|a2 [|a3 rest]]]]; try done.
    - destruct (assertCanonicalBlockType a0) as [ty chk0].
      unfold canonical_add. destruct chk0; simpl; [|done].
      destruct (_ =? _)%N; simpl; by rewrite Hb.
    - destruct (assertCanonicalBlockType a0) as [ty chk0].
      destruct (assertBlockControlFlags a2) as [fl chk1].
      unfold canonical_add. destruct chk0, chk1; simpl; try done.
      destruct (_ =? _)%N; simpl; by rewrite Hb. }
  assert (Hcan' : ∀ b e args, bundle.err b = None →
            Canonical (bundle.setErr b (Some e)) args
            = bundle.setErr b (Some e)).
  { intros. by apply (Canonical_after_error _ e). }
  destruct c; simpl in Hc.
  - injection Hc as <-. unfold CRC in *. by rewrite He in *.
  - injection Hc as <-. unfold bundle.SetDestination in *. rewrite He in *.
    destruct (bundle.bldrParseEndpoint _) as [x [m|]]; simpl in *; [done|].
    by rewrite He in Hne.
  - injection Hc as <-. unfold bundle.Source in *. rewrite He in *.
    destruct (bundle.bldrParseEndpoint _) as [x [m|]]; simpl in *; [done|].
    by rewrite He in Hne.
  - injection Hc as <-. unfold bundle.SetReportTo in *. rewrite He in *.
    destruct (bundle.bldrParseEndpoint _) as [x [m|]]; simpl in *; [done|].
    by rewrite He in Hne.
  - injection Hc as <-. unfold bundle.creationTimestamp in *. rewrite He in *.
    simpl in *. by rewrite He in Hne.
  - injection Hc as <-. unfold Lifetime in *. rewrite He in *.
    destruct (bldrParseLifetime _) as [x [m|]]; simpl in *; [done|].
    by rewrite He in Hne.
  - injection Hc as <-. unfold BundleCtrlFlags in *. rewrite He in *.
    simpl in *. by rewrite He in Hne.
  - injection Hc as <-. by apply Hcan.
  - unfold BundleAgeBlock in Hc. rewrite He in Hc.
    destruct args as [|a rest]; [done|]. simpl in Hc.
    destruct (bldrParseLifetime a) as [us [m|]]; injection Hc as <-.
    + by rewrite Hcan'.
    + by apply Hcan.
  - unfold HopCountBlock in Hc. rewrite He in Hc.
    destruct args as [|a rest]; [done|]. simpl in Hc.
    destruct (assertInt a) as [limit [|]]; injection Hc as <-.
    + by apply Hcan.
    + simpl. by rewrite Hcan'.
  - unfold PayloadBlock in Hc.
    destruct args as [|a rest]; [done|]. simpl in Hc.
    destruct (binaryWrite a) as [m|buf]; injection Hc as <-; [done|].
    by apply Hcan.
  - unfold PreviousNodeBlock in Hc. rewrite He in Hc.
    destruct args as [|a rest]; [done|]. simpl in Hc.
    destruct (bundle.bldrParseEndpoint _) as [eid [m|]]; injection Hc as <-.
    + by rewrite Hcan'.
    + by apply Hcan.
Qed.


(** X16.  [Lifetime] with a duration string that parses to a positive
    duration sets the lifetime to the whole microseconds of the duration,
    the rest cut off, and nothing else: a duration under one microsecond
    gives the lifetime 0 without an error.  With a duration that is not
    positive it sets an error and leaves the primary block alone. *)
Theorem Lifetime_of_duration (bldr : bundle.BundleBuilder) (s : string)
    (dur : Z) :
  bundle.err bldr = None →
  ParseDuration s = (dur, None) → (dur < 2 ^ 63)%Z →
  let bldr' := Lifetime bldr (DynString s) in
  if (0 <? dur)%Z
  then bldr' = bundle.setPrimary bldr
                 (setLifetime (bundle.primary bldr)
                    (bundle.Lifetime (bundle.primary bldr')))
       ∧ (Z.of_N (bundle.Lifetime (bundle.primary bldr')) * 1000 <= dur
          < Z.of_N (bundle.Lifetime (bundle.primary bldr')) * 1000 + 1000)%Z
  else bundle.err bldr' ≠ None
       ∧ bundle.primary bldr' = bundle.primary bldr.
Proof.
  intros He Hp Hd. unfold Lifetime, bldrParseLifetime. rewrite He, Hp.
  destruct (Z.ltb_spec 0 dur) as [Hpos|Hneg].
  - destruct (Z.leb_spec dur 0) as [?|_]; [lia|]. simpl. split; [done|].
    unfold uint.
    assert (0 <= dur ÷ 1000 <= dur)%Z.
    { rewrite Z.quot_div_nonneg by lia. split; [apply Z.div_pos; lia|].
      apply Z.div_le_upper_bound; lia. }
    rewrite Z.mod_small by lia. rewrite Z2N.id by lia.
    rewrite Z.quot_div_nonneg by lia.
    pose proof (Z.mul_div_le dur 1000 ltac:(lia)).
    pose proof (Z.mul_succ_div_gt dur 1000 ltac:(lia)). lia.
  - destruct (Z.leb_spec dur 0) as [_|?]; [|lia]. done.
Qed.

(** X17.  [HopCountBlock] does not refuse a negative limit: the conversion
    to [uint] wraps it around, and the block is added with the limit
    2^64 + limit. *)
Theorem HopCountBlock_negative_limit (bldr : bundle.BundleBuilder)
    (limit : Z) :
  bundle.err bldr = None →
  @bundle.HopCountBlock _ ≠ bundle.PayloadBlock →
  (- 2 ^ 63 <= limit < 0)%Z →
  HopCountBlock bldr [DynInt limit]
  = Done (addCanonical bldr
            (NewCanonicalBlock bundle.HopCountBlock
               (bundle.canonicalCounter bldr) 0%N
               (DynHopCount (NewHopCount (Z.to_N (2 ^ 64 + limit)))))
            (bundle.canonicalCounter bldr + 1)%N).
Proof.
  intros He Hty Hl. unfold HopCountBlock. rewrite He. simpl.
  unfold Canonical. rewrite He. simpl. unfold canonical_add. simpl.
  destruct (N.eqb_spec bundle.HopCountBlock bundle.PayloadBlock); [done|].
  do 4 f_equal. unfold uint. f_equal.
  rewrite <- (Z.mod_add limit 1 (2 ^ 64)) by lia.
  rewrite Z.mod_small; lia.
Qed.

End Chains.

Section Numbers.
Context `{!bundle.Constants} `{!bundle.Package} `{!Environment}
  `{!KeepsNumbers}.

Lemma numbered_setErr bldr e : numbered bldr → numbered (bundle.setErr bldr e).
Proof. done. Qed.

Lemma numbered_setPrimary bldr pb :
  numbered bldr → numbered (bundle.setPrimary bldr pb).
Proof. done. Qed.

Lemma numbered_canonical_add bldr ty chk0 d fl chk1 :
  numbered bldr → numbered (canonical_add bldr ty chk0 d fl chk1).
Proof.
  intros (Hn & Hc & Hp). unfold canonical_add.
  destruct (negb _); [done|].
  destruct (N.eqb_spec ty bundle.PayloadBlock) as [->|Hty].
  - unfold numbered, extensionNumbers, payloadNumbers, addCanonical. simpl.
    rewrite !filter_app, !fmap_app, !filter_cons, !filter_nil.
    destruct (NewCanonicalBlock_keeps bundle.PayloadBlock 0%N fl d)
      as [Ht Hnum].
    rewrite decide_False by (rewrite Ht; tauto).
    rewrite decide_True by done.
    simpl. rewrite app_nil_r. repeat split; try done.
    apply Forall_app. split; [done|]. by repeat constructor.
  - unfold numbered, extensionNumbers, payloadNumbers, addCanonical. simpl.
    rewrite !filter_app, !fmap_app, !filter_cons, !filter_nil.
    destruct (NewCanonicalBlock_keeps ty (bundle.canonicalCounter bldr) fl d)
      as [Ht Hnum].
    rewrite decide_True by (by rewrite Ht).
    rewrite decide_False by (by rewrite Ht).
    simpl. rewrite app_nil_r, length_app. simpl.
    rewrite Nat.add_1_r, seq_S, fmap_app. simpl.
    unfold extensionNumbers in Hn, Hc. rewrite <- Hn, Hnum, Hc.
    repeat split; try done. lia.
Qed.

Lemma numbered_Canonical bldr args :
  numbered bldr → numbered (Canonical bldr args).
Proof.
  intros Hn. unfold Canonical. destruct (bundle.err bldr); [done|].
  destruct args as [|a0 [|a1 [|a2 [|a3 rest]]]]; try done.
  - destruct (assertCanonicalBlockType a0). by apply numbered_canonical_add.
  - destruct (assertCanonicalBlockType a0), (assertBlockControlFlags a2).
    by apply numbered_canonical_add.
Qed.

Lemma numbered_call bldr c bldr' :
  numbered bldr → call bldr c = Done bldr' → numbered bldr'.
Proof.
  intros Hn. destruct c; simpl.
  - intros [= <-]. unfold CRC. by destruct (bundle.err bldr).
  - intros [= <-]. unfold bundle.SetDestination.
    destruct (bundle.err bldr); [done|].
    by destruct (bundle.bldrParseEndpoint _) as [? [?|]].
  - intros [= <-]. unfold bundle.Source.
    destruct (bundle.err bldr); [done|].
    by destruct (bundle.bldrParseEndpoint _) as [? [?|]].
  - intros [= <-]. unfold bundle.SetReportTo.
    destruct (bundle.err bldr); [done|].
    by destruct (bundle.bldrParseEndpoint _) as [? [?|]].
  - intros [= <-]. unfold bundle.creationTimestamp.
    by destruct (bundle.err bldr).
  - intros [= <-]. unfold Lifetime.
    destruct (bundle.err bldr); [done|].
    by destruct (bldrParseLifetime _) as [? [?|]].
  - intros [= <-]. unfold BundleCtrlFlags. by destruct (bundle.err bldr).
  - intros [= <-]. by apply numbered_Canonical.
  - unfold BundleAgeBlock. destruct (bundle.err bldr); [by intros [= <-]|].
    destruct args as [|a rest]; [done|]. simpl.
    destruct (bldrParseLifetime a) as [us [m|]]; intros [= <-];
      by apply numbered_Canonical.
  - unfold HopCountBlock. destruct (bundle.err bldr); [by intros [= <-]|].
    destruct args as [|a rest]; [done|]. simpl.
    destruct (assertInt a) as [limit [|]]; intros [= <-];
      by apply numbered_Canonical.
  - unfold PayloadBlock. destruct args as [|a rest]; [done|]. simpl.
    destruct (binaryWrite a) as [m|buf]; intros [= <-]; [done|].
    by apply numbered_Canonical.
  - unfold PreviousNodeBlock. destruct (bundle.err bldr); [by intros [= <-]|].
    destruct args as [|a rest]; [done|]. simpl.
    destruct (bundle.bldrParseEndpoint _) as [eid [m|]]; intros [= <-];
      by apply numbered_Canonical.
Qed.

(** X15.  However the calls are chained on a new builder, the blocks come
    out numbered: the blocks other than payload blocks carry the numbers
    1, 2, ... in the order in which they were added, the counter is the next
    free number, and every payload block carries the number 0; a failed call
    uses up no number. *)
Theorem chain_numbers_blocks (cs : list Call) (bldr : bundle.BundleBuilder) :
  chain bundle.Builder cs = Done bldr →
  extensionNumbers bldr
    = N.of_nat <$> seq 1 (length (extensionNumbers bldr))
  ∧ bundle.canonicalCounter bldr
    = N.of_nat (S (length (extensionNumbers bldr)))
  ∧ Forall (λ n, n = 0%N) (payloadNumbers bldr).
Proof.
  assert (Hgen : ∀ b, numbered b → chain b cs = Done bldr → numbered bldr).
  { induction cs as [|c cs IH]; intros b Hb; simpl.
    - by intros [= <-].
    - destruct (call b c) as [b1| |] eqn:Hc; try done. simpl.
      apply IH. by eapply numbered_call. }
  apply Hgen. by repeat split.
Qed.

End Numbers.

(** *** The statements on the sample environment *)

Section OnTheSampleEnvironment.

#[local] Existing Instance bundle.sample.constants.
#[local] Existing Instance bundle.sample.package.
#[local] Existing Instance sample.environment.

Lemma sample_numbers : KeepsNumbers.
Proof. by intros ty n fl d. Defined.

#[local] Existing Instance sample_numbers.

(** The builder whose [Source] has failed stays as it is under further
    calls, [Build] returns that error, and [PayloadBlock] with a string
    replaces it. *)
Lemma chain_after_error_witness :
  bundle.err sample.failedBuilder = Some "unknown scheme"
  ∧ chain sample.failedBuilder
      [CallDestination (DynString "dtn://dest/");
       CallLifetime (DynString "30m");
       CallHopCountBlock [DynInt 64%Z]]
    = Done sample.failedBuilder
  ∧ (bundle.Build sample.failedBuilder).2 = Some "unknown scheme"
  ∧ PayloadBlock sample.failedBuilder [DynString "hello world!"]
    = Done (bundle.setErr sample.failedBuilder
              (Some "binary.Write: invalid type")).
Proof.
  destruct (chain_after_error sample.failedBuilder "unknown scheme" eq_refl)
    as (H1 & _ & H3 & H4).
  split; [reflexivity|]. split; [apply H1; reflexivity|].
  split; [by rewrite H3|]. apply H4. reflexivity.
Defined.

(** A bundle-age block with a zero duration fails, and the builder keeps
    everything but the error. *)
Lemma call_failure_is_atomic_witness :
  call bundle.Builder (CallBundleAgeBlock [DynString "0s"])
  = Done (bundle.setErr bundle.Builder (Some "Lifetime's duration <= 0")).
Proof.
  assert (∃ bldr',
            call bundle.Builder (CallBundleAgeBlock [DynString "0s"])
            = Done bldr'
            ∧ bundle.err bldr' = Some "Lifetime's duration <= 0")
    as (bldr' & Hc & He).
  { eexists. split; reflexivity. }
  rewrite Hc. f_equal. rewrite <- He.
  apply (call_failure_is_atomic bundle.Builder _ bldr' eq_refl Hc).
  by rewrite He.
Defined.

(** The sample chain adds a payload block and three other blocks, which are
    numbered 1, 2 and 3. *)
Lemma chain_numbers_blocks_witness :
  ∃ bldr,
    chain bundle.Builder sample.calls = Done bldr
    ∧ bundle.err bldr = None
    ∧ length (bundle.canonicals bldr) = 4
    ∧ numbered bldr.
Proof.
  assert (∃ bldr, chain bundle.Builder sample.calls = Done bldr
                  ∧ bundle.err bldr = None
                  ∧ length (bundle.canonicals bldr) = 4)
    as (bldr & Hc & He & Hl).
  { eexists. split; [|split]; reflexivity. }
  exists bldr. split; [exact Hc|]. split; [exact He|]. split; [exact Hl|].
  exact (chain_numbers_blocks sample.calls bldr Hc).
Defined.

(** A duration of 1500 nanoseconds is a lifetime of one microsecond, and a
    zero duration is an error. *)
Lemma Lifetime_of_duration_witness :
  (Z.of_N (bundle.Lifetime
             (bundle.primary (Lifetime bundle.Builder (DynString "1500ns"))))
   * 1000 <= 1500
   < Z.of_N (bundle.Lifetime
               (bundle.primary (Lifetime bundle.Builder (DynString "1500ns"))))
     * 1000 + 1000)%Z
  ∧ bundle.err (Lifetime bundle.Builder (DynString "0s")) ≠ None.
Proof.
  split.
  - exact (proj2 (Lifetime_of_duration bundle.Builder "1500ns" 1500 eq_refl
                    eq_refl eq_refl)).
  - exact (proj1 (Lifetime_of_duration bundle.Builder "0s" 0 eq_refl
                    eq_refl eq_refl)).
Defined.

(** The limit -1 becomes the greatest [uint]. *)
Lemma HopCountBlock_negative_limit_witness :
  ∃ bldr,
    HopCountBlock bundle.Builder [DynInt (-1)] = Done bldr
    ∧ bundle.err bldr = None
    ∧ bundle.Data <$> bundle.canonicals bldr
      = [bundle.DataHopCount
           {| bundle.Limit := 18446744073709551615%N;
              bundle.Count := 0%N |}].
Proof.
  eexists. split; [|split].
  - apply (HopCountBlock_negative_limit bundle.Builder (-1) eq_refl).
    + discriminate.
    + split; [discriminate|reflexivity].
  - reflexivity.
  - reflexivity.
Defined.

End OnTheSampleEnvironment.

End bldr_facts.

(** ** The codec of the primary block *)

Module bpa_facts.
Import bpa.

Lemma uint64At_shape arr i :
  if isUint64 (arr !! i) then ∃ n, uint64At arr i = Done n
  else uint64At arr i = Panic.
Proof.
  unfold uint64At, isUint64.
  destruct (arr !! i) as [[| n | | | |]|]; simpl; try done. by eexists.
Qed.

Lemma decodeEndpoint_shape blockArr pos :
  if isEndpoint (blockArr !! pos)
  then ∃ e, decodeEndpoint blockArr pos = Done e
  else decodeEndpoint blockArr pos = Panic.
Proof.
  unfold decodeEndpoint, arrayAt, isEndpoint.
  destruct (blockArr !! pos) as [[| | | | |arr]|]; simpl; try done.
  pose proof (uint64At_shape arr 0) as H0.
  destruct (isUint64 (arr !! 0%nat)); [destruct H0 as [n ->]|by rewrite H0].
  simpl. destruct (arr !! 1%nat) as [[| | | | |]|]; simpl; try done;
    by eexists.
Qed.

Lemma decodeCreationTimestamp_shape pb blockArr :
  if isTimestamp (blockArr !! 6%nat)
  then ∃ ts, decodeCreationTimestamp pb blockArr
             = Done (setCreationTimestamp pb ts)
  else decodeCreationTimestamp pb blockArr = Panic.
Proof.
  unfold decodeCreationTimestamp, arrayAt, isTimestamp.
  destruct (blockArr !! 6%nat) as [[| | | | |arr]|]; simpl; try done.
  pose proof (uint64At_shape arr 0) as H0.
  pose proof (uint64At_shape arr 1) as H1.
  destruct (isUint64 (arr !! 0%nat)); [destruct H0 as [n ->]|by rewrite H0].
  simpl.
  destruct (isUint64 (arr !! 1%nat)); [destruct H1 as [m ->]|by rewrite H1].
  simpl. by eexists.
Qed.

Ltac shape_fails :=
  simpl; rewrite ?andb_false_r; simpl; split; [by intros [? ?]|done].

Lemma decodeEndpoint_wire blockArr pos e :
  blockArr !! pos = Some (wire (FEndpointID e)) →
  SchemeSpecificPort e ≠ VNil →
  decodeEndpoint blockArr pos = Done (received e).
Proof.
  intros Hpos Hnil. unfold decodeEndpoint, arrayAt. rewrite Hpos. simpl.
  unfold received. by destruct (SchemeSpecificPort e).
Qed.

(** X12.  [CodecDecodeSelf] returns exactly on the arrays of 8 to 11
    elements whose elements 0, 1, 2 and 7 and every element from 8 on are
    [uint64]s, whose elements 3, 4 and 5 are arrays that start with a
    [uint64] and have a second element other than nil, and whose element 6
    is an array that starts with two [uint64]s; on every other array it
    panics.  So an array of 11 elements is read, a nil scheme-specific part
    panics, and further elements of an endpoint or of the timestamp are
    passed over. *)
Theorem CodecDecodeSelf_returns (pb : PrimaryBlock)
    (blockArr : list Value) :
  returns (CodecDecodeSelf pb blockArr) ↔ wellShaped blockArr = true.
Proof.
  unfold CodecDecodeSelf, wellShaped.
  destruct (Nat.ltb_spec (length blockArr) 8) as [Hlt|Hge];
    destruct (Nat.leb_spec 8 (length blockArr)) as [?|?]; try lia;
    [shape_fails|].
  destruct (Nat.ltb_spec 11 (length blockArr)) as [Hgt|Hle];
    destruct (Nat.leb_spec (length blockArr) 11) as [?|?]; try lia;
    [shape_fails|].
  rewrite orb_false_l, !andb_true_l.
  unfold decodeEndpoints.
  pose proof (decodeEndpoint_shape blockArr 3) as Hs3.
  destruct (isEndpoint (blockArr !! 3%nat));
    [destruct Hs3 as [dst ->]|rewrite Hs3; shape_fails].
  pose proof (decodeEndpoint_shape blockArr 4) as Hs4.
  destruct (isEndpoint (blockArr !! 4%nat));
    [destruct Hs4 as [src ->]|rewrite Hs4; shape_fails].
  pose proof (decodeEndpoint_shape blockArr 5) as Hs5.
  destruct (isEndpoint (blockArr !! 5%nat));
    [destruct Hs5 as [rep ->]|rewrite Hs5; shape_fails].
  simpl.
  pose proof (decodeCreationTimestamp_shape (setEndpoints pb dst src rep)
                blockArr) as Hs6.
  destruct (isTimestamp (blockArr !! 6%nat));
    [destruct Hs6 as [ts ->]|rewrite Hs6; shape_fails].
  pose proof (uint64At_shape blockArr 0) as Hs0.
  destruct (isUint64 (blockArr !! 0%nat));
    [destruct Hs0 as [version ->]|rewrite Hs0; shape_fails].
  pose proof (uint64At_shape blockArr 1) as Hs1.
  destruct (isUint64 (blockArr !! 1%nat));
    [destruct Hs1 as [flags ->]|rewrite Hs1; shape_fails].
  pose proof (uint64At_shape blockArr 2) as Hs2.
  destruct (isUint64 (blockArr !! 2%nat));
    [destruct Hs2 as [crcType ->]|rewrite Hs2; shape_fails].
  pose proof (uint64At_shape blockArr 7) as Hs7.
  destruct (isUint64 (blockArr !! 7%nat));
    [destruct Hs7 as [lifetime ->]|rewrite Hs7; shape_fails].
  simpl.
  destruct blockArr
    as [|v0 [|v1 [|v2 [|v3 [|v4 [|v5 [|v6 [|v7 [|v8 [|v9 [|v10 [|v11 rest]
       ]]]]]]]]]]]; simpl in *; try lia.
  - split; [done|]. by eexists.
  - destruct v8 as [| n | | | |]; simpl; try shape_fails.
    split; [done|]. by eexists.
  - destruct v8 as [| n | | | |]; simpl; try shape_fails.
    destruct v9 as [| m | | | |]; simpl; try shape_fails.
    split; [done|]. by eexists.
  - destruct v8 as [| n | | | |]; simpl; try shape_fails.
    destruct v9 as [| m | | | |]; simpl; try shape_fails.
    destruct v10 as [| k | | | |]; simpl; try shape_fails.
    split; [done|]. by eexists.
Qed.

Section RoundTrip.
Context `{!Package}.

(** X11.  What [CodecEncodeSelf] writes, [CodecDecodeSelf] reads back: the
    encoder adds the fragment fields and the CRC by the flags and the CRC
    type, the decoder reads them by the length of the array, and the two
    agree.  The receiver gets every field that is encoded and keeps its own
    fragment offset, total length and CRC where the sender's block has none;
    a scheme-specific part that is a [uint] or a string comes back as it
    was. *)
Theorem CodecDecodeSelf_CodecEncodeSelf (pb pb0 : PrimaryBlock) :
  SchemeSpecificPort (Destination pb) ≠ VNil →
  SchemeSpecificPort (SourceNode pb) ≠ VNil →
  SchemeSpecificPort (ReportTo pb) ≠ VNil →
  CodecDecodeSelf pb0 (wire <$> CodecEncodeSelf pb) = Done (decoded pb pb0)
  ∧ (∀ e, plain e = true → received e = e).
Proof.
  intros Hdst Hsrc Hrep. split.
  - unfold CodecDecodeSelf, CodecEncodeSelf, decoded.
    destruct (HasFragmentation pb), (HasCRC pb); simpl;
      unfold decodeEndpoints;
      rewrite (decodeEndpoint_wire _ 3 (Destination pb)) by done;
      rewrite (decodeEndpoint_wire _ 4 (SourceNode pb)) by done;
      rewrite (decodeEndpoint_wire _ 5 (ReportTo pb)) by done;
      simpl; by destruct (CreationTimestamp pb).
  - intros [scheme ssp]. unfold plain, received. simpl.
    by destruct ssp.
Qed.

End RoundTrip.

(** *** The statements on the sample block *)

Section OnTheSampleBlock.

#[local] Existing Instance sample.package.

(** The sample block, a fragment with a CRC, comes back as it was. *)
Lemma CodecDecodeSelf_CodecEncodeSelf_witness :
  length (CodecEncodeSelf sample.block) = 11
  ∧ CodecDecodeSelf sample.zero (wire <$> CodecEncodeSelf sample.block)
    = Done sample.block.
Proof.
  split; [reflexivity|].
  assert (∀ s, VString s ≠ VNil) as Hs by done.
  assert (∀ n, VUint n ≠ VNil) as Hn by done.
  exact (proj1 (CodecDecodeSelf_CodecEncodeSelf sample.block sample.zero
                  (Hs _) (Hs _) (Hn _))).
Defined.

(** The encoded sample block is read to its end, and an array of one
    element is not. *)
Lemma CodecDecodeSelf_returns_witness :
  returns (CodecDecodeSelf sample.zero (wire <$> CodecEncodeSelf sample.block))
  ∧ ¬ returns (CodecDecodeSelf sample.zero [VUint64 7]).
Proof.
  split.
  - exact (proj2 (CodecDecodeSelf_returns sample.zero
                    (wire <$> CodecEncodeSelf sample.block)) eq_refl).
  - intros Hr.
    discriminate (proj1 (CodecDecodeSelf_returns sample.zero [VUint64 7]) Hr).
Defined.

End OnTheSampleBlock.

End bpa_facts.

(** ** The contact header and the session termination message *)

Module tcpcl_facts.
Import tcpcl.

(** X18.  [Marshal] writes six octets into a buffer, the four of "dtn!",
    the version 4 and the flags, and what it has written is what [Unmarshal]
    reads back, whatever the receiving header was: the six octets are taken
    from the buffer, what follows them stays, and no error is returned. *)
Theorem Unmarshal_Marshal (ch ch0 : ContactHeader) (rest : list byte) :
  ∃ buf : Buffer,
    Marshal ch ([] : Buffer) = (buf, None)
    ∧ buf = magic ++ [x04; Flags ch]
    ∧ Unmarshal ch0 (buf ++ rest : Buffer) = (rest, ch, None).
Proof.
  eexists. split; [reflexivity|]. split; [reflexivity|].
  by destruct ch as [f].
Qed.

(** X19.  [Unmarshal] asks its reader for six octets, once.  It returns no
    error exactly when the reader yields, without an error, the four octets
    of "dtn!", the version 4 and one more octet, which then is the header's
    flags, whatever its value; in every other case the header is left as it
    was. *)
Theorem Unmarshal_accepts {R} `{Reader R} (ch : ContactHeader) (r : R) :
  ((Unmarshal ch r).2 = None
   ↔ ∃ flags, (Read r 6).1.2 = magic ++ [x04; flags] ∧ (Read r 6).2 = None)
  ∧ ((Unmarshal ch r).2 = None →
     (Read r 6).1.2 = magic ++ [x04; Flags (Unmarshal ch r).1.2])
  ∧ ((Unmarshal ch r).2 ≠ None → (Unmarshal ch r).1.2 = ch)
  ∧ (Unmarshal ch r).1.1 = (Read r 6).1.1.
Proof.
  unfold Unmarshal. destruct (Read r 6) as [[r' chunk] err]. simpl.
  destruct err as [e|].
  { split; [|done]. split; [done|]. by intros (? & _ & ?). }
  destruct (decide (length chunk = 6)) as [Hlen|Hlen].
  2: { rewrite bool_decide_eq_true_2 by done. split; [|done].
       split; [done|]. intros (f & -> & _). done. }
  rewrite bool_decide_eq_false_2 by (by intros ?).
  destruct chunk as [|b0 [|b1 [|b2 [|b3 [|b4 [|b5 [|]]]]]]]; try done.
  simpl. unfold octet. simpl.
  destruct (decide ([b0; b1; b2; b3] = magic)) as [Hm|Hm].
  2: { rewrite bool_decide_eq_true_2 by done. split; [|done].
       split; [done|]. intros (f & [= -> -> -> -> _ _] & _). done. }
  rewrite bool_decide_eq_false_2 by (by intros ?).
  injection Hm as -> -> -> ->.
  destruct (decide (b4 = x04)) as [->|Hv].
  - rewrite bool_decide_eq_false_2 by (by intros ?). split; [|done].
    split; [eauto|done].
  - rewrite bool_decide_eq_true_2 by done. split; [|done].
    split; [done|]. intros (f & [= -> _] & _). done.
Qed.

(** X20.  [MarshalBinary] writes the three octets SESS_TERM, flags and
    reason code, and [UnmarshalBinary] reads the message back from them,
    whatever follows them and whatever the receiving message was. *)
Theorem UnmarshalBinary_MarshalBinary (stm stm0 : SessionTerminationMessage)
    (rest : list byte) :
  ∃ data,
    MarshalBinary stm = (data, None)
    ∧ data = [SESS_TERM; stmFlags stm; ReasonCode stm]
    ∧ UnmarshalBinary stm0 (data ++ rest) = (stm, None).
Proof.
  eexists. split; [reflexivity|]. split; [done|]. by destruct stm.
Qed.

(** X21.  [UnmarshalBinary] returns no error exactly on the data that start
    with the octet SESS_TERM and hold at least two more octets, which become
    the flags and the reason code: a reason code without a name is taken as
    it is, and what follows the three octets is passed over.  On data that
    end after the flags it returns the end-of-file error, and by then it has
    overwritten the flags of the message. *)
Theorem UnmarshalBinary_accepts (stm : SessionTerminationMessage)
    (data : list byte) :
  ((UnmarshalBinary stm data).2 = None
   ↔ ∃ flags reason rest, data = SESS_TERM :: flags :: reason :: rest)
  ∧ (∀ flags reason rest,
       data = SESS_TERM :: flags :: reason :: rest →
       UnmarshalBinary stm data
       = ({| stmFlags := flags; ReasonCode := reason |}, None))
  ∧ (∀ flags,
       data = [SESS_TERM; flags] →
       UnmarshalBinary stm data
       = ({| stmFlags := flags; ReasonCode := ReasonCode stm |},
          Some ErrEOF)).
Proof.
  split; [|split].
  - unfold UnmarshalBinary. destruct data as [|h [|f [|r rest]]]; simpl.
    + split; [done|]. by intros (? & ? & ? & ?).
    + destruct (bool_decide (h ≠ SESS_TERM)); (split; [done|]);
        by intros (? & ? & ? & ?).
    + destruct (bool_decide (h ≠ SESS_TERM)); (split; [done|]);
        by intros (? & ? & ? & ?).
    + destruct (decide (h = SESS_TERM)) as [->|Hh].
      * rewrite bool_decide_eq_false_2 by (by intros ?). split; [eauto|done].
      * rewrite bool_decide_eq_true_2 by done. split; [done|].
        intros (? & ? & ? & [= -> _ _ _]). done.
  - by intros f r rest ->.
  - by intros f ->.
Qed.

(** X22.  The name of a reason code is "INVALID" exactly for the codes above
    5, and the six codes up to 5 have names of their own. *)
Theorem SessionTerminationCode_String_INVALID (stc : SessionTerminationCode) :
  (SessionTerminationCode_String stc = "INVALID" ↔ (5 < Byte.to_N stc)%N)
  ∧ ∀ stc',
      (Byte.to_N stc ≤ 5)%N →
      SessionTerminationCode_String stc = SessionTerminationCode_String stc' →
      stc = stc'.
Proof.
  split.
  - destruct stc; vm_compute; split; intros; congruence.
  - intros stc' Hle. destruct stc; vm_compute in Hle; try done;
      destruct stc'; vm_compute; congruence.
Qed.

(** *** The statements on sample octets *)

(** A header of version 3 is refused, and the receiving header keeps its
    flags. *)
Lemma Unmarshal_accepts_witness :
  (Unmarshal (NewContactHeader ContactCanTls)
     ([x64; x74; x6e; x21; x03; x00] : Buffer)).2
  = Some (ErrVersion x03)
  ∧ (Unmarshal (NewContactHeader ContactCanTls)
       ([x64; x74; x6e; x21; x03; x00] : Buffer)).1.2
    = NewContactHeader ContactCanTls.
Proof.
  split; [reflexivity|].
  apply (Unmarshal_accepts (NewContactHeader ContactCanTls)
           ([x64; x74; x6e; x21; x03; x00] : Buffer)).
  discriminate.
Defined.

(** A message with the reason code 9 is read, and a message cut off after
    the flags has its flags read all the same. *)
Lemma UnmarshalBinary_accepts_witness :
  UnmarshalBinary (NewSessionTerminationMessage x00 TerminationBusy)
    [SESS_TERM; TerminationReply; x09; xff]
  = (NewSessionTerminationMessage TerminationReply x09, None)
  ∧ UnmarshalBinary (NewSessionTerminationMessage x00 TerminationBusy)
      [SESS_TERM; TerminationReply]
    = (NewSessionTerminationMessage TerminationReply TerminationBusy,
       Some ErrEOF).
Proof.
  destruct (UnmarshalBinary_accepts
              (NewSessionTerminationMessage x00 TerminationBusy)
              [SESS_TERM; TerminationReply; x09; xff]) as (_ & H2 & _).
  destruct (UnmarshalBinary_accepts
              (NewSessionTerminationMessage x00 TerminationBusy)
              [SESS_TERM; TerminationReply]) as (_ & _ & H3).
  split; [exact (H2 _ _ _ eq_refl)|exact (H3 _ eq_refl)].
Defined.

(** The code 9 has no name, and the code of a busy node has one. *)
Lemma SessionTerminationCode_String_INVALID_witness :
  SessionTerminationCode_String x09 = "INVALID"
  ∧ SessionTerminationCode_String TerminationBusy ≠ "INVALID".
Proof.
  split.
  - by apply (SessionTerminationCode_String_INVALID x09).
  - intros Hn.
    by apply (SessionTerminationCode_String_INVALID TerminationBusy) in Hn.
Defined.

End tcpcl_facts.
